(** * The project updater of [tools/batools/project/_updater.py]

    A shallow embedding of [ProjectUpdater] and [project_centric_path]:
    Python strings, lists and dicts, [os.path], a directory tree with the
    text-mode file operations the updater uses, and the updater's methods as
    computations over an explicit state (the updater object and the world
    around it). *)

From stdpp Require Import list strings sorting pretty gmap.
From Stdlib Require Import Ascii ZArith.

Open Scope Z_scope.

(** ** Python strings

    A Python [str] is a sequence of code points.  The embedding keeps the code
    points below 256, one [ascii] each; a literal is written as a Rocq string
    and read through the coercion [lit]. *)

Abbreviation str := (list ascii).

Definition lit (s : string) : str := String.list_ascii_of_string s.
Coercion lit : string >-> list.

Definition LF : ascii := "010"%char.
Definition CR : ascii := "013"%char.
Definition DQUOTE : ascii := "034"%char.
Definition SLASH : ascii := "/"%char.
Definition NUL : ascii := "000"%char.
Definition BACKSLASH : ascii := "\"%char.

Module PyStr.

(** [s.startswith(p)], [s.endswith(p)] *)
Definition startswith (s p : str) : bool := bool_decide (p `prefix_of` s).
Definition endswith (s p : str) : bool := bool_decide (p `suffix_of` s).

(** [sub in s] *)
Fixpoint contains (sub s : str) : bool :=
  startswith s sub ||
  match s with
  | [] => false
  | _ :: s' => contains sub s'
  end.

(** [s.removesuffix(suf)] *)
Definition removesuffix (s suf : str) : str :=
  if endswith s suf then take (length s - length suf)%nat s else s.

(** [s.replace(old, new)]: occurrences are found left to right and do not
    overlap; [skip] counts the characters of a match still to be dropped. *)
Fixpoint replace_go (old new : str) (skip : nat) (s : str) : str :=
  match s with
  | [] => []
  | c :: s' =>
      match skip with
      | S k => replace_go old new k s'
      | O =>
          if startswith s old
          then new ++ replace_go old new (length old - 1)%nat s'
          else c :: replace_go old new 0%nat s'
      end
  end.

Definition replace (s old new : str) : str :=
  match old with
  | [] => new ++ flat_map (fun c => c :: new) s
  | _ => replace_go old new 0%nat s
  end.

(** The line boundaries of [str.splitlines] among the code points below 256:
    LF, VT, FF, CR, FS, GS, RS and NEL. *)
Definition is_linebreak (c : ascii) : bool :=
  let n := N_of_ascii c in
  ((10 <=? n) && (n <=? 13) || (28 <=? n) && (n <=? 30) || (n =? 133))%N.

(** [s.splitlines()]: CR LF counts as one boundary, and a final boundary
    opens no empty last line. *)
Fixpoint splitlines_go (cur s : str) : list str :=
  match s with
  | [] => match cur with [] => [] | _ => [cur] end
  | c :: s' =>
      if is_linebreak c then
        cur ::
        (if decide (c = CR) then
           match s' with
           | c' :: s'' =>
               if decide (c' = LF) then splitlines_go [] s''
               else splitlines_go [] s'
           | [] => splitlines_go [] s'
           end
         else splitlines_go [] s')
      else splitlines_go (cur ++ [c]) s'
  end.

Definition splitlines (s : str) : list str := splitlines_go [] s.

Definition no_linebreak (s : str) : Prop := Forall (fun c => is_linebreak c = false) s.

(** [sep.join(ls)] *)
Fixpoint join (sep : str) (ls : list str) : str :=
  match ls with
  | [] => []
  | [x] => x
  | x :: r => x ++ sep ++ join sep r
  end.

(** [s.split(sep)] for a non-empty separator. *)
Fixpoint split_go (sep : str) (skip : nat) (cur s : str) : list str :=
  match s with
  | [] => [cur]
  | c :: s' =>
      match skip with
      | S k => split_go sep k cur s'
      | O =>
          if startswith s sep
          then cur :: split_go sep (length sep - 1)%nat [] s'
          else split_go sep 0%nat (cur ++ [c]) s'
      end
  end.

Definition split (s sep : str) : list str := split_go sep 0%nat [] s.

Fixpoint dropwhile (p : ascii -> bool) (s : str) : str :=
  match s with
  | [] => []
  | c :: s' => if p c then dropwhile p s' else s
  end.

Fixpoint takewhile (p : ascii -> bool) (s : str) : str :=
  match s with
  | [] => []
  | c :: s' => if p c then c :: takewhile p s' else []
  end.

(** White space as [str.strip()] and [str.split()] see it, below 256. *)
Definition is_space (c : ascii) : bool :=
  let n := N_of_ascii c in
  ((9 <=? n) && (n <=? 13) || (28 <=? n) && (n <=? 32)
   || (n =? 133) || (n =? 160))%N.

Definition lstrip (s : str) : str := dropwhile is_space s.
Definition strip (s : str) : str := reverse (lstrip (reverse (lstrip s))).

(** [s.split()]: the maximal runs of characters that are not white space. *)
Fixpoint split_ws_go (cur s : str) : list str :=
  match s with
  | [] => match cur with [] => [] | _ => [cur] end
  | c :: s' =>
      if is_space c
      then match cur with [] => split_ws_go [] s' | _ => cur :: split_ws_go [] s' end
      else split_ws_go (cur ++ [c]) s'
  end.

Definition split_ws (s : str) : list str := split_ws_go [] s.

(** [s.rstrip(c)] for a single character, and [s.rfind(c) + 1]. *)
Definition rstrip_char (c : ascii) (s : str) : str :=
  reverse (dropwhile (fun x => bool_decide (x = c)) (reverse s)).

Definition after_last (c : ascii) (s : str) : nat :=
  (length s - length (takewhile (fun x => bool_decide (x <> c)) (reverse s)))%nat.

(** The order of [sorted] on strings: code point by code point. *)
Definition str_le (a b : str) : Prop :=
  String.le (String.string_of_list_ascii a) (String.string_of_list_ascii b).

#[global] Instance str_le_dec : RelDecision str_le.
Proof. intros a b. unfold str_le. apply _. Defined.

Definition sorted (l : list str) : list str := merge_sort str_le l.

(** [str(n)] for an integer. *)
Definition of_int (n : Z) : str := lit (pretty n).

End PyStr.

(** ** Python lists: indices and slices may be negative *)

Module PyList.

Section ops.
Context {A : Type}.

(** [l[i]]; [None] stands for [IndexError]. *)
Definition getitem (l : list A) (i : Z) : option A :=
  let n := Z.of_nat (length l) in
  if 0 <=? i then l !! Z.to_nat i
  else if 0 <=? n + i then l !! Z.to_nat (n + i)
  else None.

(** [l[i] = x]; [None] stands for [IndexError]. *)
Definition setitem (l : list A) (i : Z) (x : A) : option (list A) :=
  let n := Z.of_nat (length l) in
  if (0 <=? i) && (i <? n) then Some (<[Z.to_nat i := x]> l)
  else if (i <? 0) && (0 <=? n + i) then Some (<[Z.to_nat (n + i) := x]> l)
  else None.

Definition clamp (l : list A) (i : Z) : nat :=
  let n := Z.of_nat (length l) in
  Z.to_nat (if i <? 0 then Z.max 0 (n + i) else Z.min i n).

(** [l[lo:hi]], [l[:hi]] and [l[lo:]] *)
Definition slice (l : list A) (lo hi : Z) : list A :=
  take (clamp l hi - clamp l lo)%nat (drop (clamp l lo) l).
Definition slice_to (l : list A) (hi : Z) : list A := take (clamp l hi) l.
Definition slice_from (l : list A) (lo : Z) : list A := drop (clamp l lo) l.

(** [l.index(x)]; [None] stands for [ValueError]. *)
Fixpoint index `{EqDecision A} (l : list A) (x : A) : option Z :=
  match l with
  | [] => None
  | y :: r => if decide (y = x) then Some 0 else Z.succ <$> index r x
  end.

End ops.

End PyList.

(** ** Python dicts: insertion-ordered, keys are strings *)

Module PyDict.

Definition t (V : Type) := list (str * V).

Section ops.
Context {V : Type}.

(** [d.get(k)] as an option: [None] when the key is missing. *)
Fixpoint get (d : t V) (k : str) : option V :=
  match d with
  | [] => None
  | (k', v) :: r => if decide (k' = k) then Some v else get r k
  end.

(** [k in d] *)
Definition mem (d : t V) (k : str) : bool := bool_decide (is_Some (get d k)).

(** [d[k] = v]: an existing key keeps its position, a new one goes last. *)
Fixpoint set (d : t V) (k : str) (v : V) : t V :=
  match d with
  | [] => [(k, v)]
  | (k', v') :: r => if decide (k' = k) then (k, v) :: r else (k', v') :: set r k v
  end.

Definition keys (d : t V) : list str := d.*1.
Definition items (d : t V) : list (str * V) := d.

(** [d1 == d2]: the same keys with the same values, whatever the order. *)
Definition eqb `{EqDecision V} (d1 d2 : t V) : bool :=
  forallb (fun k => bool_decide (get d1 k = get d2 k)) (keys d1 ++ keys d2).

End ops.

End PyDict.

(** ** [os.path] on POSIX *)

Module PosixPath.
Import PyStr.

Definition isabs (p : str) : bool := startswith p "/".

(** [os.path.join(a, b)] *)
Definition join (a b : str) : str :=
  if startswith b "/" then b
  else if bool_decide (a = []) || endswith a "/" then a ++ b
  else a ++ "/" ++ b.

(** The component loop of [normpath]; [acc] is [new_comps], last one first. *)
Fixpoint normcomps_go (initial_slashes : bool) (acc comps : list str) : list str :=
  match comps with
  | [] => reverse acc
  | comp :: r =>
      if bool_decide (comp = []) || bool_decide (comp = lit ".") then
        normcomps_go initial_slashes acc r
      else if bool_decide (comp <> lit "..")
              || (negb initial_slashes && bool_decide (acc = []))
              || match acc with top :: _ => bool_decide (top = lit "..") | [] => false end
      then normcomps_go initial_slashes (comp :: acc) r
      else normcomps_go initial_slashes (tail acc) r
  end.

Definition normcomps (path : str) : list str :=
  normcomps_go (startswith path "/") [] (split path "/").

(** [os.path.normpath(path)] *)
Definition normpath (path : str) : str :=
  match path with
  | [] => lit "."
  | _ =>
      let lead : str :=
        if startswith path "/" then
          if startswith path "//" && negb (startswith path "///")
          then lit "//" else lit "/"
        else [] in
      match lead ++ PyStr.join "/" (normcomps path) with
      | [] => lit "."
      | p => p
      end
  end.

(** [os.path.abspath(path)], with the working directory made explicit. *)
Definition abspath (cwd path : str) : str :=
  normpath (if isabs path then path else join cwd path).

(** [os.path.dirname(p)] and [os.path.basename(p)] *)
Definition dirname (p : str) : str :=
  let head := take (after_last SLASH p) p in
  if bool_decide (head <> []) && bool_decide (head <> replicate (length head) SLASH)
  then rstrip_char SLASH head else head.

Definition basename (p : str) : str := drop (after_last SLASH p) p.

End PosixPath.

(** ** The file system: a tree of directories and text files

    What the updater sees of the files: directories and regular files with
    text in them, reached by paths as Linux resolves them.  The tree has no
    links, no permissions and no limits on names. *)

#[local] Set Warnings "-register-all".

Inductive fsnode :=
  | FFile (data : str)
  | FDir (entries : list (str * fsnode)).

Inductive oserr := ENOENT | EISDIR | ENOTDIR | EEXIST.

#[global] Instance oserr_eq_dec : EqDecision oserr.
Proof. solve_decision. Defined.

(** How an operation on a path fails: with the error of the system call, or,
    before any call is made, with Python's [ValueError] for a path that has a
    NUL in it. *)
Inductive failure := Errno (k : oserr) | EmbeddedNull.

#[global] Instance failure_eq_dec : EqDecision failure.
Proof. solve_decision. Defined.

Module FS.

(** A location is the list of names from the root down. *)
Definition loc := list str.

Fixpoint lookup (t : fsnode) (l : loc) : option fsnode :=
  match l with
  | [] => Some t
  | c :: cs =>
      match t with
      | FDir es =>
          match PyDict.get es c with
          | Some t' => lookup t' cs
          | None => None
          end
      | FFile _ => None
      end
  end.

Definition dir_at (t : fsnode) (l : loc) : Prop :=
  exists es, lookup t l = Some (FDir es).

(** The tree with [new] at a location: in place of what is there, or as a
    new entry of the directory above. *)
Fixpoint put (t : fsnode) (l : loc) (new : fsnode) : fsnode :=
  match l with
  | [] => new
  | c :: cs =>
      match t with
      | FDir es =>
          match PyDict.get es c with
          | Some t' => FDir (PyDict.set es c (put t' cs new))
          | None =>
              match cs with
              | [] => FDir (PyDict.set es c new)
              | _ => t
              end
          end
      | FFile _ => t
      end
  end.

(** *** Paths

    The names of a path are what stands between its separators; a relative
    path is walked from the working directory.  Every name is looked up in a
    directory: [.] stays there, [..] goes to the directory above (the root is
    its own), any other name goes to the entry of that name, which need not
    exist.  Below a regular file the walk fails with [ENOTDIR], below nothing
    with [ENOENT]. *)
Definition names (path : str) : list str :=
  List.filter (fun c => negb (bool_decide (c = []))) (PyStr.split path "/").

Definition steps (cwd path : str) : list str :=
  if PosixPath.isabs path then names path else names cwd ++ names path.

Definition step (cur : loc) (name : str) : loc :=
  if bool_decide (name = lit ".") then cur
  else if bool_decide (name = lit "..") then removelast cur
  else cur ++ [name].

Fixpoint walk_steps (t : fsnode) (cur : loc) (names : list str) : oserr + loc :=
  match names with
  | [] => inr cur
  | name :: r =>
      match lookup t cur with
      | Some (FDir _) => walk_steps t (step cur name) r
      | Some (FFile _) => inl ENOTDIR
      | None => inl ENOENT
      end
  end.

(** Where a path leads.  The empty path leads nowhere. *)
Definition locate (t : fsnode) (cwd path : str) : failure + loc :=
  if bool_decide (NUL ∈ path) then inl EmbeddedNull
  else if bool_decide (path = []) then inl (Errno ENOENT)
  else
    match walk_steps t [] (steps cwd path) with
    | inr l => inr l
    | inl k => inl (Errno k)
    end.

(** What [stat], [open] for reading and [scandir] find at a path; a path with
    a separator at its end only finds a directory. *)
Definition resolve (t : fsnode) (cwd path : str) : failure + fsnode :=
  match locate t cwd path with
  | inl f => inl f
  | inr l =>
      match lookup t l with
      | None => inl (Errno ENOENT)
      | Some (FFile data) =>
          if PyStr.endswith path "/" then inl (Errno ENOTDIR) else inr (FFile data)
      | Some (FDir es) => inr (FDir es)
      end
  end.

Definition find (t : fsnode) (cwd path : str) : option fsnode :=
  match resolve t cwd path with
  | inr n => Some n
  | inl _ => None
  end.

(** [os.path.exists(p)] and [os.path.isdir(p)]: a failed [stat] is [False]. *)
Definition exists_ (t : fsnode) (cwd path : str) : bool :=
  match find t cwd path with Some _ => true | None => false end.

Definition isdir (t : fsnode) (cwd path : str) : bool :=
  match find t cwd path with Some (FDir _) => true | _ => false end.

(** [open(p, 'w')] followed by [write(data)]: the file is created in an
    existing directory or replaced.  A path with a separator at its end, and
    one that leads to a directory, is refused with [EISDIR]. *)
Definition write (t : fsnode) (cwd path data : str) : failure + fsnode :=
  match locate t cwd path with
  | inl f => inl f
  | inr l =>
      if PyStr.endswith path "/" then inl (Errno EISDIR)
      else
        match lookup t l with
        | Some (FDir _) => inl (Errno EISDIR)
        | _ => inr (put t l (FFile data))
        end
  end.

(** [os.mkdir(p)] *)
Definition mkdir (t : fsnode) (cwd path : str) : failure + fsnode :=
  match locate t cwd path with
  | inl f => inl f
  | inr l =>
      match lookup t l with
      | Some _ => inl (Errno EEXIST)
      | None => inr (put t l (FDir []))
      end
  end.

(** [os.makedirs(name, exist_ok=True)], as the library has it: the
    directories above are made first where [head] does not exist, then
    [mkdir(name)] is tried, whose error counts only if [name] is no directory
    afterwards.  The result is the tree, with what was made up to then, and
    the failure, if any, with the path that [mkdir] was given.  [depth]
    bounds the calls the function makes to itself; each call is for a
    shorter path. *)
Fixpoint makedirs_go (depth : nat) (t : fsnode) (cwd name : str)
    : fsnode * option (failure * str) :=
  let head0 := PosixPath.dirname name in
  let tail0 := PosixPath.basename name in
  let head := if bool_decide (tail0 = []) then PosixPath.dirname head0 else head0 in
  let tail := if bool_decide (tail0 = []) then PosixPath.basename head0 else tail0 in
  let make (t : fsnode) : fsnode * option (failure * str) :=
    match mkdir t cwd name with
    | inr t' => (t', None)
    | inl (Errno k) => if isdir t cwd name then (t, None) else (t, Some (Errno k, name))
    | inl EmbeddedNull => (t, Some (EmbeddedNull, name))
    end in
  if negb (bool_decide (head = [])) && negb (bool_decide (tail = []))
     && negb (exists_ t cwd head)
  then
    match depth with
    | O => make t
    | S depth' =>
        match makedirs_go depth' t cwd head with
        | (t1, None) | (t1, Some (Errno EEXIST, _)) =>
            if bool_decide (tail = lit ".") then (t1, None) else make t1
        | (t1, Some failed) => (t1, Some failed)
        end
    end
  else make t.

Definition makedirs (t : fsnode) (cwd name : str) : fsnode * option (failure * str) :=
  makedirs_go (length name) t cwd name.

(** Reading in text mode translates CR LF and a lone CR to LF. *)
Fixpoint universal_newlines (s : str) : str :=
  match s with
  | [] => []
  | c :: s' =>
      if decide (c = CR) then
        LF :: match s' with
              | c' :: s'' =>
                  if decide (c' = LF) then universal_newlines s''
                  else universal_newlines s'
              | [] => []
              end
      else c :: universal_newlines s'
  end.

(** [open(p).read()] *)
Definition read (t : fsnode) (cwd path : str) : failure + str :=
  match resolve t cwd path with
  | inr (FFile data) => inr (universal_newlines data)
  | inr (FDir _) => inl (Errno EISDIR)
  | inl f => inl f
  end.

Definition dirnames (es : list (str * fsnode)) : list str :=
  omap (fun e => match e.2 with FDir _ => Some e.1 | FFile _ => None end) es.

Definition filenames (es : list (str * fsnode)) : list str :=
  omap (fun e => match e.2 with FFile _ => Some e.1 | FDir _ => None end) es.

(** [os.walk(top)], top down: the triple of a directory, then its
    subdirectories in the order they were listed. *)
Fixpoint walk_tree (top : str) (t : fsnode) : list (str * list str * list str) :=
  match t with
  | FFile _ => []
  | FDir es =>
      (top, dirnames es, filenames es) ::
      (fix go (l : list (str * fsnode)) : list (str * list str * list str) :=
         match l with
         | [] => []
         | e :: r => walk_tree (PosixPath.join top e.1) e.2 ++ go r
         end) es
  end.

(** A directory that cannot be listed yields nothing. *)
Definition walk (t : fsnode) (cwd top : str) : list (str * list str * list str) :=
  match find t cwd top with
  | Some d => walk_tree top d
  | None => []
  end.

(** The name of a directory entry: not empty, no separator, not a dot name. *)
Definition valid_name (n : str) : Prop :=
  n <> [] /\ (SLASH ∉ n) /\ n <> lit "." /\ n <> lit "..".

(** Well-formed trees: valid names, no name twice in a directory. *)
Fixpoint wf (t : fsnode) : Prop :=
  match t with
  | FFile _ => True
  | FDir es =>
      NoDup es.*1 /\
      (fix all (l : list (str * fsnode)) : Prop :=
         match l with
         | [] => True
         | e :: r => valid_name (fst e) /\ wf (snd e) /\ all r
         end) es
  end.

(** The path of [names] below a directory, each name after a separator. *)
Fixpoint rel_path (names : list str) : str :=
  match names with
  | [] => []
  | n :: r => SLASH :: n ++ rel_path r
  end.

(** A root that [os.path.join] extends by a separator and the name. *)
Definition plain_root (top : str) : Prop :=
  top <> [] /\ PyStr.endswith top "/" = false.

(** [file_at t names]: following [names] from [t] leads to a file. *)
Inductive file_at : fsnode -> list str -> Prop :=
  | file_here es n data :
      (n, FFile data) ∈ es -> file_at (FDir es) [n]
  | file_below es n es' names :
      (n, FDir es') ∈ es -> file_at (FDir es') names -> file_at (FDir es) (n :: names).

End FS.

(** ** Exceptions, observable events and computations *)

Inductive exn :=
  | RuntimeError (msg : str)
  | CleanError (msg : str)
  | AssertionError
  | IndexError
  | ValueError
  | OSError (k : oserr) (path : str)
  | ExternalError (who descr : str).

(** What a run does to the outside, in order: file operations, calls into
    collaborators, and each dispatch of [generate_file] to a renderer. *)
Inductive event :=
  | EvExists (path : str)
  | EvIsdir (path : str)
  | EvRead (path : str)
  | EvWrite (path data : str)
  | EvMakedirs (path : str)
  | EvWalk (top : str)
  | EvConfig (which root : str)
  | EvFeatureSets (root : str)
  | EvRender (path : str).

(** The outcome of a computation over a state [S]: a value, an exception
    (the state changes made before it stay), or recursion cut off. *)
Inductive Res (S A : Type) :=
  | Ok (a : A) (s : S)
  | Raise (e : exn) (s : S)
  | Timeout.
Arguments Ok {S A} a s.
Arguments Raise {S A} e s.
Arguments Timeout {S A}.

Definition M (S A : Type) : Type := S -> Res S A.

#[global] Instance M_ret {S} : MRet (M S) := fun A a s => Ok a s.
#[global] Instance M_bind {S} : MBind (M S) := fun A B k m s =>
  match m s with
  | Ok a s' => k a s'
  | Raise e s' => Raise e s'
  | Timeout => Timeout
  end.

Definition raise {S A} (e : exn) : M S A := fun s => Raise e s.
Definition get_state {S} : M S S := fun s => Ok s s.
Definition modify {S} (f : S -> S) : M S unit := fun s => Ok tt (f s).
(** [assert b], with assertions enabled. *)
Definition assert_ {S} (b : bool) : M S unit :=
  if b then mret tt else raise AssertionError.

(** [for x in l: body(x)] *)
Fixpoint for_each {S A} (l : list A) (body : A -> M S unit) : M S unit :=
  match l with
  | [] => mret tt
  | x :: r => body x ;; for_each r body
  end.

(** [for x in l: acc = body(x, acc)] *)
Fixpoint for_fold {S A B} (l : list A) (acc : B) (body : A -> B -> M S B) : M S B :=
  match l with
  | [] => mret acc
  | x :: r => acc' ← body x acc; for_fold r acc' body
  end.

(** [[x for x in l if cond(x)]] *)
Fixpoint filter_m {S A} (cond : A -> M S bool) (l : list A) : M S (list A) :=
  match l with
  | [] => mret []
  | x :: r => b ← cond x; r' ← filter_m cond r; mret (if b : bool then x :: r' else r')
  end.

(** [sound R P T m]: from any state, [m] ends in a state related to it by
    [R]; an exception it raises satisfies [P]; it is cut off only if [T]. *)
Definition sound {S A} (R : S -> S -> Prop) (P : exn -> Prop) (T : Prop)
    (m : M S A) : Prop :=
  forall s,
    match m s with
    | Ok _ s' => R s s'
    | Raise e s' => R s s' /\ P e
    | Timeout => T
    end.

(** [refines m1 m2]: where [m1] is not cut off, [m2] gives the same outcome. *)
Definition refines {S A} (m1 m2 : M S A) : Prop :=
  forall s, m1 s <> Timeout -> m2 s = m1 s.

(** No constraint on how the state changes. *)
Definition any_change {S} : S -> S -> Prop := fun _ _ => True.

Definition state_of {S A} (r : Res S A) (s0 : S) : S :=
  match r with
  | Ok _ s => s
  | Raise _ s => s
  | Timeout => s0
  end.

(** ** The world around the updater *)

Record World := {
  fs : fsnode;
  cwd : str;
  stdout : list str;
  trace : list event;
}.

Module Sys.

Definition emit (ev : event) : M World unit :=
  modify (fun w => {| fs := fs w; cwd := cwd w; stdout := stdout w;
                      trace := trace w ++ [ev] |}).

Definition print (line : str) : M World unit :=
  modify (fun w => {| fs := fs w; cwd := cwd w; stdout := stdout w ++ [line];
                      trace := trace w |}).

Definition set_fs (t : fsnode) : M World unit :=
  modify (fun w => {| fs := t; cwd := cwd w; stdout := stdout w; trace := trace w |}).

(** The exception of a failed operation on [path]. *)
Definition failed (f : failure) (path : str) : exn :=
  match f with
  | Errno k => OSError k path
  | EmbeddedNull => ValueError
  end.

Definition exists_ (path : str) : M World bool :=
  emit (EvExists path) ;;
  w ← get_state; mret (FS.exists_ (fs w) (cwd w) path).

Definition isdir (path : str) : M World bool :=
  emit (EvIsdir path) ;;
  w ← get_state; mret (FS.isdir (fs w) (cwd w) path).

(** [with open(path, encoding='utf-8') as f: f.read()] *)
Definition read_text (path : str) : M World str :=
  emit (EvRead path) ;;
  w ← get_state;
  match FS.read (fs w) (cwd w) path with
  | inr data => mret data
  | inl f => raise (failed f path)
  end.

(** [with open(path, 'w', encoding='utf-8') as f: f.write(data)]; on POSIX
    the characters are stored as they are. *)
Definition write_text (path data : str) : M World unit :=
  emit (EvWrite path data) ;;
  w ← get_state;
  match FS.write (fs w) (cwd w) path data with
  | inr t => set_fs t
  | inl f => raise (failed f path)
  end.

(** [os.makedirs(path, exist_ok=True)]: the directories made before a
    failure stay. *)
Definition makedirs (path : str) : M World unit :=
  emit (EvMakedirs path) ;;
  w ← get_state;
  let '(t, r) := FS.makedirs (fs w) (cwd w) path in
  set_fs t ;;
  match r with
  | None => mret tt
  | Some (f, p) => raise (failed f p)
  end.

(** [list(os.walk(top))]: [scandir] refuses a path with a NUL in it, its
    other errors are passed over. *)
Definition walk (top : str) : M World (list (str * list str * list str)) :=
  emit (EvWalk top) ;;
  w ← get_state;
  if bool_decide (NUL ∈ top) then raise ValueError
  else mret (FS.walk (fs w) (cwd w) top).

(** The result of a collaborator: a value, or the description of what it
    raised. *)
Definition call {A} (who : str) (r : str + A) : M World A :=
  match r with
  | inr a => mret a
  | inl descr => raise (ExternalError who descr)
  end.

End Sys.

(** ** [project_centric_path] *)

Definition quoted (s : str) : str := [DQUOTE] ++ s ++ [DQUOTE].

Definition project_centric_path (cwd projroot path : str) : exn + str :=
  let abspath := PosixPath.abspath cwd path in
  if decide (abspath = projroot) then inr (lit ".")
  else
    let projprefix := projroot ++ "/" in
    if negb (PyStr.startswith abspath projprefix) then
      inl (RuntimeError ("Path " ++ quoted abspath
                         ++ " is not under project root " ++ quoted projprefix))
    else inr (drop (length projprefix) abspath).

(** ** Values found in the project configuration *)

Inductive pyval :=
  | PyBool (b : bool)
  | PyStrList (l : list str)
  | PyOther (truthy : bool) (tyname : str).

(** [bool(v)] and [f'{type(v)}'] *)
Definition truthy_of (v : pyval) : bool :=
  match v with
  | PyBool b => b
  | PyStrList l => negb (bool_decide (l = []))
  | PyOther b _ => b
  end.

Definition type_repr (v : pyval) : str :=
  "<class '" ++
  match v with
  | PyBool _ => lit "bool"
  | PyStrList _ => lit "list"
  | PyOther _ n => n
  end ++ "'>".

(** ** Collaborators outside this module

    The renderers, the configuration readers, the feature-set registry and the
    terminal colours live in other modules of the project; the updater only
    calls them.  Each is a function of what it is given and of the files it can
    see, returning its result or the description of the exception it raised. *)

Class Collaborators := {
  FeatureSet : Type;
  FeatureSet_name : FeatureSet -> str;
  FeatureSet_get_all_for_project : fsnode -> str -> str -> str + list FeatureSet;
  getprojectconfig : fsnode -> str -> str -> str + PyDict.t pyval;
  getlocalconfig : fsnode -> str -> str -> str + PyDict.t pyval;
  update_xcode_project :
    fsnode -> str -> str -> str -> str -> list str -> str -> str + str;
  generate_top_level_makefile : fsnode -> str -> str -> str -> str + str;
  generate_assets_makefile :
    fsnode -> str -> str -> str -> str -> PyDict.t str -> gset str
    -> str + PyDict.t str;
  generate_app_module :
    fsnode -> str -> str -> PyDict.t FeatureSet -> str -> str + str;
  generate_meta_makefile : fsnode -> str -> str -> str -> str + PyDict.t str;
  ResourcesMakefileGenerator_run : fsnode -> str -> str -> str -> str -> str + str;
  Clr_RED : str;
  Clr_BLU : str;
  Clr_BLD : str;
  Clr_RST : str;
}.

(** ** The updater object *)

Record _LineChange := {
  line_number : Z;
  expected : str;
  can_auto_update : bool;
}.

Section updater.
Context `{C : Collaborators}.

Record ProjectUpdater := {
  projname : str;
  projroot : str;
  check : bool;
  fix_ : bool;
  public : bool;
  _source_files : option (list str);
  _header_files : option (list str);
  _enqueued_updates : PyDict.t (option str);
  _line_corrections : PyDict.t (list _LineChange);
  _can_generate_files : bool;
  _generated_files : PyDict.t str;
  _feature_sets : option (PyDict.t FeatureSet);
  license_line_checks : bool;
  _internal_source_dirs : option (gset str);
  _internal_source_files : option (gset str);
  run_file_checks : bool;
}.

Record State := {
  self : ProjectUpdater;
  world : World;
}.

Definition with_inventory (srcs hdrs : list str) (u : ProjectUpdater) : ProjectUpdater :=
  {| projname := projname u; projroot := projroot u; check := check u;
     fix_ := fix_ u; public := public u;
     _source_files := Some srcs; _header_files := Some hdrs;
     _enqueued_updates := _enqueued_updates u;
     _line_corrections := _line_corrections u;
     _can_generate_files := _can_generate_files u;
     _generated_files := _generated_files u;
     _feature_sets := _feature_sets u;
     license_line_checks := license_line_checks u;
     _internal_source_dirs := _internal_source_dirs u;
     _internal_source_files := _internal_source_files u;
     run_file_checks := run_file_checks u |}.

Definition with_enqueued_updates (d : PyDict.t (option str)) (u : ProjectUpdater) : ProjectUpdater :=
  {| projname := projname u; projroot := projroot u; check := check u;
     fix_ := fix_ u; public := public u;
     _source_files := _source_files u; _header_files := _header_files u;
     _enqueued_updates := d;
     _line_corrections := _line_corrections u;
     _can_generate_files := _can_generate_files u;
     _generated_files := _generated_files u;
     _feature_sets := _feature_sets u;
     license_line_checks := license_line_checks u;
     _internal_source_dirs := _internal_source_dirs u;
     _internal_source_files := _internal_source_files u;
     run_file_checks := run_file_checks u |}.

Definition with_line_corrections (d : PyDict.t (list _LineChange)) (u : ProjectUpdater) : ProjectUpdater :=
  {| projname := projname u; projroot := projroot u; check := check u;
     fix_ := fix_ u; public := public u;
     _source_files := _source_files u; _header_files := _header_files u;
     _enqueued_updates := _enqueued_updates u;
     _line_corrections := d;
     _can_generate_files := _can_generate_files u;
     _generated_files := _generated_files u;
     _feature_sets := _feature_sets u;
     license_line_checks := license_line_checks u;
     _internal_source_dirs := _internal_source_dirs u;
     _internal_source_files := _internal_source_files u;
     run_file_checks := run_file_checks u |}.

Definition with_can_generate_files (b : bool) (u : ProjectUpdater) : ProjectUpdater :=
  {| projname := projname u; projroot := projroot u; check := check u;
     fix_ := fix_ u; public := public u;
     _source_files := _source_files u; _header_files := _header_files u;
     _enqueued_updates := _enqueued_updates u;
     _line_corrections := _line_corrections u;
     _can_generate_files := b;
     _generated_files := _generated_files u;
     _feature_sets := _feature_sets u;
     license_line_checks := license_line_checks u;
     _internal_source_dirs := _internal_source_dirs u;
     _internal_source_files := _internal_source_files u;
     run_file_checks := run_file_checks u |}.

Definition with_generated_files (d : PyDict.t str) (u : ProjectUpdater) : ProjectUpdater :=
  {| projname := projname u; projroot := projroot u; check := check u;
     fix_ := fix_ u; public := public u;
     _source_files := _source_files u; _header_files := _header_files u;
     _enqueued_updates := _enqueued_updates u;
     _line_corrections := _line_corrections u;
     _can_generate_files := _can_generate_files u;
     _generated_files := d;
     _feature_sets := _feature_sets u;
     license_line_checks := license_line_checks u;
     _internal_source_dirs := _internal_source_dirs u;
     _internal_source_files := _internal_source_files u;
     run_file_checks := run_file_checks u |}.

Definition with_feature_sets (d : PyDict.t FeatureSet) (u : ProjectUpdater) : ProjectUpdater :=
  {| projname := projname u; projroot := projroot u; check := check u;
     fix_ := fix_ u; public := public u;
     _source_files := _source_files u; _header_files := _header_files u;
     _enqueued_updates := _enqueued_updates u;
     _line_corrections := _line_corrections u;
     _can_generate_files := _can_generate_files u;
     _generated_files := _generated_files u;
     _feature_sets := Some d;
     license_line_checks := license_line_checks u;
     _internal_source_dirs := _internal_source_dirs u;
     _internal_source_files := _internal_source_files u;
     run_file_checks := run_file_checks u |}.

Definition with_internal_source_dirs (d : gset str) (u : ProjectUpdater) : ProjectUpdater :=
  {| projname := projname u; projroot := projroot u; check := check u;
     fix_ := fix_ u; public := public u;
     _source_files := _source_files u; _header_files := _header_files u;
     _enqueued_updates := _enqueued_updates u;
     _line_corrections := _line_corrections u;
     _can_generate_files := _can_generate_files u;
     _generated_files := _generated_files u;
     _feature_sets := _feature_sets u;
     license_line_checks := license_line_checks u;
     _internal_source_dirs := Some d;
     _internal_source_files := _internal_source_files u;
     run_file_checks := run_file_checks u |}.

Definition with_internal_source_files (d : gset str) (u : ProjectUpdater) : ProjectUpdater :=
  {| projname := projname u; projroot := projroot u; check := check u;
     fix_ := fix_ u; public := public u;
     _source_files := _source_files u; _header_files := _header_files u;
     _enqueued_updates := _enqueued_updates u;
     _line_corrections := _line_corrections u;
     _can_generate_files := _can_generate_files u;
     _generated_files := _generated_files u;
     _feature_sets := _feature_sets u;
     license_line_checks := license_line_checks u;
     _internal_source_dirs := _internal_source_dirs u;
     _internal_source_files := Some d;
     run_file_checks := run_file_checks u |}.

Definition with_run_file_checks (b : bool) (u : ProjectUpdater) : ProjectUpdater :=
  {| projname := projname u; projroot := projroot u; check := check u;
     fix_ := fix_ u; public := public u;
     _source_files := _source_files u; _header_files := _header_files u;
     _enqueued_updates := _enqueued_updates u;
     _line_corrections := _line_corrections u;
     _can_generate_files := _can_generate_files u;
     _generated_files := _generated_files u;
     _feature_sets := _feature_sets u;
     license_line_checks := license_line_checks u;
     _internal_source_dirs := _internal_source_dirs u;
     _internal_source_files := _internal_source_files u;
     run_file_checks := b |}.

(** Lifting what happens in the world to the state of a run, and access to
    the object. *)
Definition sys {A} (m : M World A) : M State A := fun st =>
  match m (world st) with
  | Ok a w => Ok a {| self := self st; world := w |}
  | Raise e w => Raise e {| self := self st; world := w |}
  | Timeout => Timeout
  end.

Definition get_self : M State ProjectUpdater := fun st => Ok (self st) st.

Definition update_self (f : ProjectUpdater -> ProjectUpdater) : M State unit :=
  modify (fun st => {| self := f (self st); world := world st |}).

Definition print (line : str) : M State unit := sys (Sys.print line).

(** A pure step that may raise. *)
Definition lift_exn {A} (r : exn + A) : M State A :=
  match r with
  | inr a => mret a
  | inl e => raise e
  end.

(** ** Properties and small methods *)

Definition source_files : M State (list str) :=
  u ← get_self;
  match _source_files u with
  | Some l => mret l
  | None => raise AssertionError
  end.

Definition header_files : M State (list str) :=
  u ← get_self;
  match _header_files u with
  | Some l => mret l
  | None => raise AssertionError
  end.

Definition feature_sets : M State (PyDict.t FeatureSet) :=
  u ← get_self;
  match _feature_sets u with
  | Some d => mret d
  | None =>
      w ← sys get_state;
      sys (Sys.emit (EvFeatureSets (projroot u))) ;;
      l ← sys (Sys.call "FeatureSet.get_all_for_project"
                 (FeatureSet_get_all_for_project (fs w) (cwd w) (projroot u)));
      let d := foldl (fun acc f => PyDict.set acc (FeatureSet_name f) f) [] l in
      update_self (with_feature_sets d) ;;
      mret d
  end.

Definition enqueue_update (path : str) (data : option str) : M State unit :=
  update_self (fun u => with_enqueued_updates (PyDict.set (_enqueued_updates u) path data) u).

Definition add_line_correction (filename : str) (line_number : Z)
    (expected : str) (can_auto_update : bool) : M State unit :=
  assert_ (bool_decide (0 <= line_number)) ;;
  update_self (fun u =>
    let entry := {| line_number := line_number; expected := expected;
                    can_auto_update := can_auto_update |} in
    let old := default [] (PyDict.get (_line_corrections u) filename) in
    with_line_corrections (PyDict.set (_line_corrections u) filename (old ++ [entry])) u).

Definition read_config (which : str)
    (reader : fsnode -> str -> str -> str + PyDict.t pyval) (root : str)
    : M World (PyDict.t pyval) :=
  w ← get_state;
  Sys.emit (EvConfig which root) ;;
  Sys.call which (reader (fs w) (cwd w) root).

Definition _get_internal_source_files : M State (gset str) :=
  u ← get_self;
  match _internal_source_files u with
  | Some s => mret s
  | None =>
      sources ←
        (if public u then mret (PyStrList [])
         else
           cfg ← sys (read_config "getprojectconfig" getprojectconfig (projroot u));
           mret (default (PyStrList []) (PyDict.get cfg "internal_source_files")));
      match sources with
      | PyStrList l =>
          update_self (with_internal_source_files (list_to_set l)) ;;
          mret (list_to_set l)
      | other =>
          raise (CleanError ("Expected list for internal_source_files;"
                             ++ " got " ++ type_repr other))
      end
  end.

Definition _get_internal_source_dirs : M State (gset str) :=
  u ← get_self;
  match _internal_source_dirs u with
  | Some s => mret s
  | None =>
      sources ←
        (if public u then mret (PyStrList [])
         else
           cfg ← sys (read_config "getprojectconfig" getprojectconfig (projroot u));
           mret (default (PyStrList []) (PyDict.get cfg "internal_source_dirs")));
      match sources with
      | PyStrList l =>
          update_self (with_internal_source_dirs (list_to_set l)) ;;
          mret (list_to_set l)
      | other =>
          raise (CleanError ("Expected list for internal_source_dirs;"
                             ++ " got " ++ type_repr other))
      end
  end.

(** The loop of [_is_public_source_file] over the internal source dirs:
    [inr true] when it returns [False] from inside the loop. *)
Fixpoint under_internal_dir (filename : str) (dirs : list str) : exn + bool :=
  match dirs with
  | [] => inr false
  | srcdir :: r =>
      if PyStr.startswith srcdir "/" then inl AssertionError
      else if PyStr.endswith srcdir "/" then inl AssertionError
      else if PyStr.startswith filename (srcdir ++ "/") then inr true
      else under_internal_dir filename r
  end.

(** A set is visited in the order of [elements]; Python leaves the order of a
    set of strings open. *)
Definition _is_public_source_file (filename : str) : M State bool :=
  assert_ (PyStr.startswith filename "/") ;;
  let filename : str := "src/ballistica" ++ filename in
  dirs ← _get_internal_source_dirs;
  internal ← lift_exn (under_internal_dir filename (elements dirs));
  if internal : bool then mret false
  else
    files ← _get_internal_source_files;
    mret (negb (bool_decide (filename ∈ files))).

(** ** The source scan *)

Definition exts : list str :=
  [lit ".c"; lit ".cc"; lit ".cpp"; lit ".cxx"; lit ".m"; lit ".mm"; lit ".swift"].
Definition header_exts : list str := [lit ".h"].

Definition has_ext (es : list str) (ftst : str) : bool :=
  existsb (fun ext => PyStr.endswith ftst ext) es.

(** One file name met by the walk: it may join either set. *)
Definition scan_file (scan_dir root : str) (acc : gset str * gset str) (ftst : str)
    : gset str * gset str :=
  let acc :=
    if has_ext exts ftst
    then (acc.1 ∪ {[ drop (length scan_dir) (PosixPath.join root ftst) ]}, acc.2)
    else acc in
  if has_ext header_exts ftst
  then (acc.1, acc.2 ∪ {[ drop (length scan_dir) (PosixPath.join root ftst) ]})
  else acc.

(** [for root, _dirs, files in os.walk(scan_dir): for ftst in files: ...] *)
Definition scan_triples (scan_dir : str)
    (triples : list (str * list str * list str)) : gset str * gset str :=
  foldl (fun acc triple => foldl (scan_file scan_dir triple.1.1) acc triple.2)
        (∅, ∅) triples.

Definition not_generated (s : str) : bool := negb (PyStr.contains "/mgen/" s).

(** [sorted(s for s in files if '/mgen/' not in s)] *)
Definition without_generated (files : gset str) : list str :=
  PyStr.sorted (List.filter not_generated (elements files)).

Definition _find_sources_and_headers (scan_dir : str) : M State unit :=
  triples ← sys (Sys.walk scan_dir);
  let '(src_files, header_files) := scan_triples scan_dir triples in
  update_self (with_inventory (without_generated src_files)
                              (without_generated header_files)).

Definition prepare_to_generate : M State unit :=
  u ← get_self;
  has_config ← sys (Sys.isdir (PosixPath.join (projroot u) "config"));
  has_tools ←
    (if has_config : bool then sys (Sys.isdir (PosixPath.join (projroot u) "tools"))
     else mret false);
  (if negb has_config || negb has_tools then
     raise (RuntimeError ("ProjectUpdater projroot '" ++ projroot u ++ "' is not valid."))
   else mret tt) ;;
  _find_sources_and_headers (PosixPath.join (projroot u) "src/ballistica") ;;
  update_self (with_can_generate_files true).

(** ** Renderers *)

Definition set_generated (path content : str) : M State unit :=
  update_self (fun u => with_generated_files (PyDict.set (_generated_files u) path content) u).

(** [for out_path, out_contents in outfiles.items(): ...] *)
Definition set_generated_all (outfiles : PyDict.t str) : M State unit :=
  for_each (PyDict.items outfiles) (fun kv => set_generated kv.1 kv.2).

Definition call_renderer {A} (who : str) (f : fsnode -> str -> str + A) : M State A :=
  w ← sys get_state;
  sys (Sys.call who (f (fs w) (cwd w))).

Definition _generate_xcode_project (path existing_data : str) : M State unit :=
  srcs ← source_files;
  hdrs ← header_files;
  let all_files := PyStr.sorted (map (fun p : str => "ballistica" ++ p) (srcs ++ hdrs)) in
  assert_ (PyStr.endswith path ".pbxproj") ;;
  u ← get_self;
  out ← call_renderer "update_xcode_project" (fun t d =>
           update_xcode_project t d (projroot u) (PosixPath.dirname path)
             existing_data all_files (projname u));
  set_generated path out.

Definition src_root : str := lit "..\..\src".

(** [while lines[i] != target: i -= 1] from [i]; an index below [-len(lines)]
    is an [IndexError].  [steps] is the number of indices left below [i]. *)
Fixpoint scan_down (lines : list str) (target : str) (steps : nat) (i : Z) : option Z :=
  match PyList.getitem lines i with
  | None => None
  | Some l =>
      if decide (l = target) then Some i
      else match steps with
           | O => None
           | S k => scan_down lines target k (i - 1)
           end
  end.

(** [while lines[i] != target: i += 1] from [i]. *)
Fixpoint scan_up (lines : list str) (target : str) (steps : nat) (i : Z) : option Z :=
  match PyList.getitem lines i with
  | None => None
  | Some l =>
      if decide (l = target) then Some i
      else match steps with
           | O => None
           | S k => scan_up lines target k (i + 1)
           end
  end.

Definition or_raise {A} (e : exn) (o : option A) : exn + A :=
  match o with
  | Some a => inr a
  | None => inl e
  end.

(** The text of the project file once the list of files is known. *)
Definition visual_studio_project_text (existing_data : str) (all_files : list str)
    : exn + str :=
  let lines := PyStr.splitlines existing_data in
  match PyList.index lines ("    <ClCompile Include=" ++ quoted "stdafx.cpp" ++ ">") with
  | None => inl ValueError
  | Some index =>
      match scan_down lines "  <ItemGroup>"
              (Z.to_nat (index + Z.of_nat (length lines))) index with
      | None => inl IndexError
      | Some begin_index =>
          match scan_up lines "  </ItemGroup>"
                  (Z.to_nat (Z.of_nat (length lines) - index)) index with
          | None => inl IndexError
          | Some end_index =>
              let group_lines := PyList.slice lines (begin_index + 1) end_index in
              let group_lines :=
                List.filter
                  (fun l => negb (PyStr.contains (src_root ++ "\ballistica\") l))
                  group_lines in
              let group_lines :=
                map (fun src : str =>
                       "    <"
                       ++ (if PyStr.endswith src ".h" then lit "ClInclude" else lit "ClCompile")
                       ++ " Include=" ++ [DQUOTE]
                       ++ src_root
                       ++ "\ballistica"
                       ++ PyStr.replace src "/" "\"
                       ++ [DQUOTE] ++ " />")
                    all_files
                ++ group_lines in
              let filtered :=
                PyList.slice_to lines (begin_index + 1) ++ group_lines
                ++ PyList.slice_from lines end_index in
              inr (PyStr.join [CR; LF] filtered ++ [CR; LF])
          end
      end
  end.

Definition _generate_visual_studio_project (fname existing_data : str) : M State unit :=
  let public_project := negb (PyStr.contains "Plus" (PosixPath.basename fname)) in
  srcs ← source_files;
  hdrs ← header_files;
  all_files ←
    filter_m (fun f =>
                if PyStr.endswith f ".m" then mret false
                else if PyStr.endswith f ".mm" then mret false
                else if PyStr.endswith f ".c" then mret false
                else if PyStr.endswith f ".swift" then mret false
                else
                  is_public ← _is_public_source_file f;
                  mret (bool_decide (is_public = public_project)))
             (srcs ++ hdrs);
  out ← lift_exn (visual_studio_project_text existing_data (PyStr.sorted all_files));
  set_generated fname out.

(** One round of the loop over [sourcelines]. *)
Definition filters_entry (line : str) (acc : list str * gset str)
    : exn + (list str * gset str) :=
  let '(filterlines, filterpaths) := acc in
  match PyStr.split_ws (PyStr.strip line) with
  | [] => inl IndexError
  | word :: _ =>
      let entrytype := drop 1 word in
      match PyStr.split line [DQUOTE] !! 1%nat with
      | None => inl IndexError
      | Some path =>
          let filterlines :=
            filterlines ++ ["    <" ++ entrytype ++ " Include=" ++ quoted path ++ ">"] in
          let splits := PyStr.split (drop (length src_root) path) [BACKSLASH] in
          let splits := List.filter (fun s => negb (bool_decide (s = []))) splits in
          let splits := PyList.slice_to splits (-1) in
          let filterpaths :=
            foldl (fun fp i => fp ∪ {[ PyStr.join [BACKSLASH] (take (S i) splits) ]})
                  filterpaths (seq 0 (length splits)) in
          let filterlines :=
            filterlines
            ++ ["      <Filter>" ++ PyStr.join [BACKSLASH] splits ++ "</Filter>"]
            ++ ["    </" ++ entrytype ++ ">"] in
          inr (filterlines, filterpaths)
      end
  end.

Fixpoint filters_entries (sourcelines : list str) (acc : list str * gset str)
    : exn + (list str * gset str) :=
  match sourcelines with
  | [] => inr acc
  | line :: r =>
      match filters_entry line acc with
      | inr acc' => filters_entries r acc'
      | inl e => inl e
      end
  end.

Definition visual_studio_project_filters_text (project : str) : exn + str :=
  let lines_in := PyStr.splitlines project in
  let filterlines : list str :=
    [ "<?xml version=" ++ quoted "1.0" ++ " encoding=" ++ quoted "utf-8" ++ "?>";
      "<Project ToolsVersion=" ++ quoted "4.0"
      ++ " xmlns=" ++ quoted "http://schemas.microsoft.com/developer/msbuild/2003" ++ ">";
      lit "  <ItemGroup>" ] in
  let sourcelines :=
    List.filter (PyStr.contains ("Include=" ++ [DQUOTE] ++ src_root)) lines_in in
  match filters_entries sourcelines (filterlines, ∅) with
  | inl e => inl e
  | inr (filterlines, filterpaths) =>
      let filterlines := filterlines ++ [lit "  </ItemGroup>"; lit "  <ItemGroup>"] in
      let filterlines :=
        filterlines
        ++ map (fun filterpath : str => "    <Filter Include=" ++ quoted filterpath ++ " />")
               (PyStr.sorted (elements filterpaths)) in
      let filterlines := filterlines ++ [lit "  </ItemGroup>"; lit "</Project>"] in
      inr (PyStr.join [CR; LF] filterlines ++ [CR; LF])
  end.

(** [generate_file] is passed in: the renderer asks it for the project file. *)
Definition _generate_visual_studio_project_filters
    (generate_file : str -> M State str) (fname existing_data : str) : M State unit :=
  assert_ (PyStr.endswith fname ".filters") ;;
  project ← generate_file (PyStr.removesuffix fname ".filters");
  out ← lift_exn (visual_studio_project_filters_text project);
  set_generated fname out.

Definition cmake_section_begin (section : str) : str :=
  "  # AUTOGENERATED_" ++ section ++ "_BEGIN (this section"
  ++ " is managed by the " ++ quoted "update_project" ++ " tool)".

Definition cmake_section_end (section : str) : str :=
  "  # AUTOGENERATED_" ++ section ++ "_END".

Definition _generate_cmake_file (fname existing_data : str) : M State unit :=
  let lines := PyStr.splitlines existing_data in
  lines ←
    for_fold [lit "PUBLIC"; lit "PRIVATE"] lines (fun section lines =>
      u ← get_self;
      if public u && bool_decide (section = lit "PRIVATE") then mret lines
      else
        auto_start ← lift_exn (or_raise ValueError
                                 (PyList.index lines (cmake_section_begin section)));
        auto_end ← lift_exn (or_raise ValueError
                               (PyList.index lines (cmake_section_end section)));
        srcs ← source_files;
        hdrs ← header_files;
        ours ←
          filter_m (fun f =>
                      if PyStr.endswith f ".mm" then mret false
                      else if PyStr.endswith f ".m" then mret false
                      else if PyStr.endswith f ".swift" then mret false
                      else
                        is_public ← _is_public_source_file f;
                        mret (bool_decide
                                (is_public = bool_decide (section = lit "PUBLIC"))))
                   (PyStr.sorted (srcs ++ hdrs));
        let our_lines := map (fun f : str => "  ${BA_SRC_ROOT}/ballistica" ++ f) ours in
        mret (PyList.slice_to lines (auto_start + 1) ++ our_lines
              ++ PyList.slice_from lines auto_end));
  set_generated fname (PyStr.join [LF] lines ++ [LF]).

Definition _generate_assets_makefile
    (generate_file : str -> M State str) (path existing_data : str) : M State unit :=
  meta_manifests ←
    for_fold [lit "public"; lit "private"] ([] : PyDict.t str) (fun mantype acc =>
      let manifest_file_name : str := "src/meta/.meta_manifest_" ++ mantype ++ ".json" in
      content ← generate_file manifest_file_name;
      mret (PyDict.set acc manifest_file_name content));
  fsets ← feature_sets;
  let explicit_sources : gset str :=
    if PyDict.mem fsets "base"
    then {[ lit "src/assets/ba_data/python/babase/_app.py" ]}
    else ∅ in
  u ← get_self;
  outfiles ← call_renderer "generate_assets_makefile" (fun t d =>
                generate_assets_makefile t d (projroot u) path existing_data
                  meta_manifests explicit_sources);
  set_generated_all outfiles.

Definition _generate_top_level_makefile (path existing_data : str) : M State unit :=
  u ← get_self;
  out ← call_renderer "generate_top_level_makefile" (fun t d =>
           generate_top_level_makefile t d (projroot u) existing_data);
  set_generated path out.

Definition _generate_app_module (path existing_data : str) : M State unit :=
  u ← get_self;
  fsets ← feature_sets;
  out ← call_renderer "generate_app_module" (fun t d =>
           generate_app_module t d (projroot u) fsets existing_data);
  set_generated path out.

Definition _generate_passthrough_file (path existing_data : str) : M State unit :=
  set_generated path existing_data.

Definition _generate_meta_makefile (existing_data : str) : M State unit :=
  u ← get_self;
  outfiles ← call_renderer "generate_meta_makefile" (fun t d =>
                generate_meta_makefile t d (projroot u) existing_data);
  set_generated_all outfiles.

Definition _generate_resources_makefile (path existing_data : str) : M State unit :=
  u ← get_self;
  out ← call_renderer "ResourcesMakefileGenerator.run" (fun t d =>
           ResourcesMakefileGenerator_run t d (projroot u) existing_data (projname u));
  set_generated path out.

(** ** [generate_file]

    The method calls itself, directly and through two of the renderers.  Its
    body is written over the function to call for that; [generate_file_fuel]
    ties the knot with [fuel] bounding the depth of the calls, and [Timeout]
    is the outcome when it is used up. *)

Definition generate_file_body (generate_file : str -> M State str) (path : str)
    : M State str :=
  u ← get_self;
  (if negb (_can_generate_files u) then
     raise (RuntimeError "Generate cannot be called right now.")
   else mret tt) ;;
  (if negb (PyDict.mem (_generated_files u) path) then
     existing_data ←
       match default None (PyDict.get (_enqueued_updates u) path) with
       | Some data => mret data
       | None => sys (Sys.read_text (PosixPath.join (projroot u) path))
       end;
     sys (Sys.emit (EvRender path)) ;;
     if PyStr.endswith path "/project.pbxproj" then
       _generate_xcode_project path existing_data
     else if PyStr.endswith path ".vcxproj.filters" then
       _generate_visual_studio_project_filters generate_file path existing_data
     else if PyStr.endswith path ".vcxproj" then
       _generate_visual_studio_project path existing_data
     else if PyStr.endswith path "CMakeLists.txt" then
       _generate_cmake_file path existing_data
     else if bool_decide (path = lit "Makefile") then
       _generate_top_level_makefile path existing_data
     else if bool_decide (path = lit "src/assets/Makefile") then
       _generate_assets_makefile generate_file path existing_data
     else if PyStr.startswith path "src/assets/.asset_manifest_public" then
       generate_file "src/assets/Makefile" ;; mret tt
     else if PyStr.startswith path "src/assets/.asset_manifest_private" then
       if public u then _generate_passthrough_file path existing_data
       else generate_file "src/assets/Makefile" ;; mret tt
     else if bool_decide (path = lit "src/resources/Makefile") then
       _generate_resources_makefile path existing_data
     else if bool_decide (path = lit "src/meta/Makefile") then
       _generate_meta_makefile existing_data
     else if bool_decide (path = lit "src/assets/ba_data/python/babase/_app.py") then
       _generate_app_module path existing_data
     else if PyStr.startswith path "src/meta/.meta_manifest_" then
       generate_file "src/meta/Makefile" ;;
       u' ← get_self;
       assert_ (PyDict.mem (_generated_files u') path)
     else
       raise (RuntimeError ("No known formula to create project file: '"
                            ++ path ++ "'."))
   else mret tt) ;;
  u' ← get_self;
  match PyDict.get (_generated_files u') path with
  | Some content => mret content
  | None => raise AssertionError
  end.

Fixpoint generate_file_fuel (fuel : nat) : str -> M State str :=
  match fuel with
  | O => fun _ _ => Timeout
  | S fuel' => generate_file_body (generate_file_fuel fuel')
  end.

(** No chain of calls is longer than four: a manifest of the assets asks for
    the assets Makefile, which asks for a manifest of meta, which asks for the
    meta Makefile. *)
Definition generate_file_depth : nat := 4.

Definition generate_file (path : str) : M State str :=
  generate_file_fuel generate_file_depth path.

(** ** The two apply passes *)

(** The flat lists of [_apply_line_changes], in the order of the ledger. *)
Definition flat_changes (auto : bool) (ledger : PyDict.t (list _LineChange))
    : list (str * _LineChange) :=
  flat_map (fun kv =>
              omap (fun entry =>
                      if bool_decide (can_auto_update entry = auto)
                      then Some (kv.1, entry) else None)
                   kv.2)
           (PyDict.items ledger).

Definition manual_header : str :=
  Clr_RED ++ "Found erroneous lines "
  ++ "requiring manual correction:" ++ Clr_RST.

Definition manual_message (change : str * _LineChange) : str :=
  Clr_RED ++ change.1 ++ ":" ++ PyStr.of_int (line_number change.2 + 1) ++ ":"
  ++ " Expected line to be:" ++ [LF] ++ "  " ++ expected change.2 ++ Clr_RST.

Definition auto_fixable_message (n : nat) : str :=
  "All " ++ PyStr.of_int (Z.of_nat n) ++ " errors are"
  ++ " auto-fixable; run tools/pcommand update_project"
  ++ " --fix to apply corrections.".

(** One round of the loop that lists the auto-fixable entries. *)
Definition report_auto_change (i : nat) (change : str * _LineChange) : M State unit :=
  u ← get_self;
  print (Clr_RED ++ "#" ++ PyStr.of_int (Z.of_nat i) ++ ":"
         ++ " " ++ change.1 ++ ":" ++ PyStr.of_int (line_number change.2 + 1) ++ ":"
         ++ Clr_RST) ;;
  print (Clr_RED ++ "  Expected " ++ quoted (expected change.2) ++ Clr_RST) ;;
  data ← sys (Sys.read_text (PosixPath.join (projroot u) change.1));
  let lines := PyStr.splitlines data in
  line ← lift_exn (or_raise IndexError (PyList.getitem lines (line_number change.2)));
  print (Clr_RED ++ "  Found " ++ quoted line ++ Clr_RST).

Definition correcting_message (change : str * _LineChange) : str :=
  Clr_BLU ++ Clr_BLD ++ "Correcting"
  ++ " " ++ change.1 ++ " line " ++ PyStr.of_int (line_number change.2 + 1)
  ++ Clr_RST.

(** One round of the loop that corrects the auto-fixable entries. *)
Definition correct_auto_change (change : str * _LineChange) : M State unit :=
  u ← get_self;
  print (correcting_message change) ;;
  data ← sys (Sys.read_text (PosixPath.join (projroot u) change.1));
  let lines := PyStr.splitlines data in
  lines ← lift_exn (or_raise IndexError
                      (PyList.setitem lines (line_number change.2) (expected change.2)));
  sys (Sys.write_text (PosixPath.join (projroot u) change.1)
                      (PyStr.join [LF] lines ++ [LF])).

Fixpoint enumerate_from {A} (i : nat) (l : list A) : list (nat * A) :=
  match l with
  | [] => []
  | x :: r => (i, x) :: enumerate_from (S i) r
  end.

Definition _apply_line_changes : M State unit :=
  u ← get_self;
  let manual_changes := flat_changes false (_line_corrections u) in
  let auto_changes := flat_changes true (_line_corrections u) in
  (match manual_changes with
   | [] => mret tt
   | _ =>
       print manual_header ;;
       for_each manual_changes (fun change => print (manual_message change)) ;;
       raise (CleanError [])
   end) ;;
  (match auto_changes with
   | [] => mret tt
   | _ =>
       (if negb (fix_ u) then
          for_each (enumerate_from 0 auto_changes)
                   (fun ic => report_auto_change ic.1 ic.2) ;;
          raise (CleanError (auto_fixable_message (length auto_changes)))
        else mret tt) ;;
       for_each auto_changes correct_auto_change
   end) ;;
  match manual_changes, auto_changes with
  | [], [] =>
      hdrs ← header_files;
      srcs ← source_files;
      let fcount := (length hdrs + length srcs)%nat in
      print ("No issues found in " ++ PyStr.of_int (Z.of_nat fcount) ++ " source files.")
  | _, _ => mret tt
  end.

Definition errfile_of (u : ProjectUpdater) : str :=
  PosixPath.join (projroot u) "build/project_check_error_file".

Definition writing_message (fname : str) : str :=
  Clr_BLU ++ "Writing project file: " ++ fname ++ Clr_RST.

Definition up_to_date_message (unchanged_file_count : nat) : str :=
  PyStr.of_int (Z.of_nat unchanged_file_count) ++ " project files are up to date.".

Definition out_of_date_message (fname path1 path2 : str) : str :=
  "Found out-of-date project file: '" ++ fname ++ "'." ++ [LF]
  ++ "To see what would change, run:" ++ [LF]
  ++ "  diff '" ++ path1 ++ "' '" ++ path2 ++ "'" ++ [LF].

(** One round of the loop of [_apply_file_changes]; the count of unchanged
    files is passed along. *)
Definition apply_file_change (item : str * str) (unchanged_file_count : nat)
    : M State nat :=
  let '(fname, fcode) := item in
  u ← get_self;
  let f_path_abs := PosixPath.join (projroot u) fname in
  let fcodefin := PyStr.replace fcode [CR; LF] [LF] in
  present ← sys (Sys.exists_ f_path_abs);
  f_orig ←
    (if present : bool then data ← sys (Sys.read_text f_path_abs); mret (Some data)
     else mret None);
  if bool_decide (f_orig = Some fcodefin) then mret (S unchanged_file_count)
  else
    (if check u then
       let errfile := errfile_of u in
       sys (Sys.makedirs (PosixPath.dirname errfile)) ;;
       sys (Sys.write_text errfile fcodefin) ;;
       raise (CleanError (out_of_date_message fname f_path_abs errfile))
     else mret tt) ;;
    print (writing_message fname) ;;
    sys (Sys.write_text f_path_abs fcode) ;;
    mret unchanged_file_count.

Definition _apply_file_changes : M State unit :=
  u ← get_self;
  unchanged_file_count ←
    for_fold (PyDict.items (_generated_files u)) 0%nat apply_file_change;
  if bool_decide (0 < unchanged_file_count)%nat then
    print (up_to_date_message unchanged_file_count)
  else mret tt.

(** ** The checks and [run] *)

(** The checks of [batools.project._checks] are handed the updater and may use
    it in any way. *)
Class Checks := {
  check_makefiles : M State unit;
  check_python_files : M State unit;
  check_sync_states : M State unit;
  check_misc : M State unit;
  check_source_files : M State unit;
  check_headers : M State unit;
}.

Context `{K : Checks}.

(** [run] up to the point where the writes begin.  The loop goes through the
    keys of the queue as they are when it starts; [generate_file] does not
    touch the queue. *)
Definition run_generate_and_check : M State unit :=
  prepare_to_generate ;;
  u ← get_self;
  let start_updates := _enqueued_updates u in
  for_each (PyDict.keys (_enqueued_updates u)) (fun path => generate_file path ;; mret tt) ;;
  u ← get_self;
  (if run_file_checks u then
     check_makefiles ;;
     check_python_files ;;
     check_sync_states ;;
     check_misc ;;
     check_source_files ;;
     check_headers
   else mret tt) ;;
  update_self (with_can_generate_files false) ;;
  u' ← get_self;
  assert_ (PyDict.eqb start_updates (_enqueued_updates u')).

Definition apply_phase : M State unit :=
  _apply_line_changes ;;
  _apply_file_changes.

Definition run : M State unit :=
  run_generate_and_check ;;
  apply_phase.

(** ** Construction *)

Definition _update_app_module : M State unit :=
  enqueue_update "src/assets/ba_data/python/babase/_app.py" None.

Definition _update_xcode_projects : M State unit :=
  for_each [lit "ballisticakit-xcode/BallisticaKit.xcodeproj/project.pbxproj"]
    (fun projpath =>
       u ← get_self;
       if public u then
         present ← sys (Sys.exists_ projpath);
         assert_ (negb present)
       else enqueue_update projpath None).

Definition _update_visual_studio_project (basename : str) : M State unit :=
  let fname : str :=
    "ballisticakit-windows/" ++ basename ++ "/"
    ++ "BallisticaKit" ++ basename ++ ".vcxproj" in
  enqueue_update (fname ++ ".filters") None ;;
  enqueue_update fname None.

Definition _update_visual_studio_projects : M State unit :=
  _update_visual_studio_project "Generic" ;;
  _update_visual_studio_project "Headless" ;;
  u ← get_self;
  if negb (public u) then
    _update_visual_studio_project "GenericPlus" ;;
    _update_visual_studio_project "HeadlessPlus" ;;
    _update_visual_studio_project "Oculus" ;;
    _update_visual_studio_project "OculusPlus"
  else mret tt.

Definition _update_cmake_files : M State unit :=
  enqueue_update "ballisticakit-cmake/CMakeLists.txt" None ;;
  let fname : str :=
    lit "ballisticakit-android/BallisticaKit/src/main/cpp/CMakeLists.txt" in
  u ← get_self;
  if negb (public u) then enqueue_update fname None
  else
    present ← sys (Sys.exists_ fname);
    assert_ (negb present).

Definition _update_assets_makefile : M State unit :=
  enqueue_update "src/assets/Makefile" None.

Definition _update_top_level_makefile : M State unit :=
  enqueue_update "Makefile" None.

Definition _update_meta_makefile : M State unit :=
  enqueue_update "src/meta/Makefile" None.

Definition _update_resources_makefile : M State unit :=
  enqueue_update "src/resources/Makefile" None.

Definition mode_conflict : exn :=
  RuntimeError "fix and check cannot both be enabled".

(** Running methods on an object under construction. *)
Definition on_object (u : ProjectUpdater) (m : M State unit) : M World ProjectUpdater :=
  fun w =>
    match m {| self := u; world := w |} with
    | Ok _ st => Ok (self st) (world st)
    | Raise e st => Raise e (world st)
    | Timeout => Timeout
    end.

(** [ProjectUpdater(projroot, check=..., fix=..., empty=..., projname=...)] *)
Definition __init__ (projroot_arg : str) (check_arg fix_arg empty : bool)
    (projname_arg : str) : M World ProjectUpdater :=
  w ← get_state;
  let projroot_abs := PosixPath.abspath (cwd w) projroot_arg in
  (if fix_arg && check_arg then raise mode_conflict else mret tt) ;;
  config ← read_config "getprojectconfig" getprojectconfig projroot_arg;
  public_flag ←
    match default (PyBool false) (PyDict.get config "public") with
    | PyBool b => mret b
    | _ => raise AssertionError
    end;
  localconfig ← read_config "getlocalconfig" getlocalconfig projroot_arg;
  let u :=
    {| projname := projname_arg; projroot := projroot_abs;
       check := check_arg; fix_ := fix_arg; public := public_flag;
       _source_files := None; _header_files := None;
       _enqueued_updates := []; _line_corrections := [];
       _can_generate_files := false; _generated_files := [];
       _feature_sets := None;
       license_line_checks :=
         truthy_of (default (PyBool true) (PyDict.get localconfig "license_line_checks"));
       _internal_source_dirs := None; _internal_source_files := None;
       run_file_checks := true |} in
  if empty then mret (with_run_file_checks false u)
  else
    on_object u
      (_update_meta_makefile ;;
       _update_resources_makefile ;;
       _update_assets_makefile ;;
       _update_top_level_makefile ;;
       _update_cmake_files ;;
       _update_visual_studio_projects ;;
       _update_xcode_projects ;;
       _update_app_module).

End updater.

(** ** States that differ by output only *)

Section observations.
Context `{C : Collaborators}.

(** The state after printing [out] and performing [evs], nothing else
    changed. *)
Definition after_output (out : list str) (evs : list event) (st : State) : State :=
  {| self := self st;
     world := {| fs := fs (world st); cwd := cwd (world st);
                 stdout := stdout (world st) ++ out;
                 trace := trace (world st) ++ evs |} |}.

(** The state after the file tree became [t], [out] was printed and [evs]
    performed. *)
Definition after_write (t : fsnode) (out : list str) (evs : list event) (st : State)
    : State :=
  {| self := self st;
     world := {| fs := t; cwd := cwd (world st);
                 stdout := stdout (world st) ++ out;
                 trace := trace (world st) ++ evs |} |}.

Definition is_write (ev : event) : bool :=
  match ev with
  | EvWrite _ _ | EvMakedirs _ => true
  | _ => false
  end.

(** Where the file of a project file is, and whether the file there already
    has the generated content (line ends apart). *)
Definition loc_in_project (st : State) (fname : str) : failure + FS.loc :=
  FS.locate (fs (world st)) (cwd (world st)) (PosixPath.join (projroot (self st)) fname).

Definition up_to_date (st : State) (item : str * str) : Prop :=
  FS.read (fs (world st)) (cwd (world st)) (PosixPath.join (projroot (self st)) item.1)
  = inr (PyStr.replace item.2 [CR; LF] [LF]).

#[global] Instance up_to_date_dec st item : Decision (up_to_date st item).
Proof. unfold up_to_date. apply _. Defined.

(** What check mode reports as out of date: an artifact with nothing at its
    path, or with a regular file there whose text, read in text mode, is not
    the generated content with CR LF turned into LF. *)
Definition out_of_date (st : State) (item : str * str) : Prop :=
  match FS.find (fs (world st)) (cwd (world st))
          (PosixPath.join (projroot (self st)) item.1) with
  | None => True
  | Some (FFile raw) =>
      FS.universal_newlines raw <> PyStr.replace item.2 [CR; LF] [LF]
  | Some (FDir _) => False
  end.

(** What a round of the whole-file pass does before it compares: it tests
    for the file and, if it is there, reads it. *)
Definition looked_at (st : State) (fname : str) : list event :=
  let path := PosixPath.join (projroot (self st)) fname in
  EvExists path
  :: (if FS.exists_ (fs (world st)) (cwd (world st)) path then [EvRead path] else []).

(** What the listing of the auto-fixable entries prints for the entry
    [change], number [i]: two lines before the file is opened, and a third
    with the line that was found there. *)
Definition listed_entry (i : nat) (change : str * _LineChange) : list str :=
  [ Clr_RED ++ "#" ++ PyStr.of_int (Z.of_nat i) ++ ":" ++ " " ++ change.1 ++ ":"
    ++ PyStr.of_int (line_number change.2 + 1) ++ ":" ++ Clr_RST;
    Clr_RED ++ "  Expected " ++ quoted (expected change.2) ++ Clr_RST ].

Definition listed_found (line : str) : str :=
  Clr_RED ++ "  Found " ++ quoted line ++ Clr_RST.

(** The line of the file of [change] that the entry is about, as the files
    of [st] have it, or the exception that looking for it raises. *)
Definition found_line (st : State) (change : str * _LineChange) : exn + str :=
  let path := PosixPath.join (projroot (self st)) change.1 in
  match FS.read (fs (world st)) (cwd (world st)) path with
  | inl f => inl (Sys.failed f path)
  | inr data =>
      or_raise IndexError (PyList.getitem (PyStr.splitlines data) (line_number change.2))
  end.

(** The listing of [changes], numbered from [i], over the files of [st]: the
    lines printed, the files opened, and the exception that cut it short, if
    one did. *)
Fixpoint listing (st : State) (i : nat) (changes : list (str * _LineChange))
    : list str * list event * option exn :=
  match changes with
  | [] => ([], [], None)
  | change :: rest =>
      let path := PosixPath.join (projroot (self st)) change.1 in
      match found_line st change with
      | inl e => (listed_entry i change, [EvRead path], Some e)
      | inr line =>
          let '(out, evs, e) := listing st (S i) rest in
          (listed_entry i change ++ listed_found line :: out, EvRead path :: evs, e)
      end
  end.

(** What generating files leaves as it is: the files, the output, and all of
    the object but the cache of generated files and the cached feature sets
    and internal sources. *)
Definition quiet (w w' : World) : Prop :=
  fs w' = fs w /\ cwd w' = cwd w /\ stdout w' = stdout w.

Definition same_settings (u u' : ProjectUpdater) : Prop :=
  projname u' = projname u /\ projroot u' = projroot u
  /\ check u' = check u /\ fix_ u' = fix_ u /\ public u' = public u
  /\ _source_files u' = _source_files u /\ _header_files u' = _header_files u
  /\ _enqueued_updates u' = _enqueued_updates u
  /\ _line_corrections u' = _line_corrections u
  /\ _can_generate_files u' = _can_generate_files u
  /\ license_line_checks u' = license_line_checks u
  /\ run_file_checks u' = run_file_checks u.

Definition generating (st st' : State) : Prop :=
  same_settings (self st) (self st') /\ quiet (world st) (world st').

Definition any_exn (e : exn) : Prop := True.

Definition same_queue (st st' : State) : Prop :=
  _enqueued_updates (self st') = _enqueued_updates (self st).

Definition not_mode_conflict (e : exn) : Prop := e <> mode_conflict.

(** What the source scan is to find below the node [scan_root] for the
    extensions [es]: the path, from the scan root and with a separator in
    front of every name, of a file whose name ends with one of the extensions
    and whose path has no [/mgen/] in it. *)
Definition scanned (scan_root : option fsnode) (es : list str) (s : str) : Prop :=
  exists t names name,
    scan_root = Some t
    /\ FS.file_at t names /\ last names = Some name
    /\ (exists ext, ext ∈ es /\ ext `suffix_of` name)
    /\ s = FS.rel_path names
    /\ ~ (exists a b : str, s = a ++ "/mgen/" ++ b).

(** What the loops of the scan collect from the triples of a walk. *)
Definition reported (scan_dir : str) (es : list str)
    (triples : list (str * list str * list str)) (s : str) : Prop :=
  exists root dirs files f,
    (root, dirs, files) ∈ triples /\ f ∈ files /\ has_ext es f = true
    /\ s = drop (length scan_dir) (PosixPath.join root f).

End observations.

(** ** A small project to run the definitions on *)

Module Demo.

#[export] Instance collaborators : Collaborators := {|
  FeatureSet := str;
  FeatureSet_name := fun f => f;
  FeatureSet_get_all_for_project := fun _ _ _ => inr [lit "base"];
  getprojectconfig := fun _ _ _ => inr [];
  getlocalconfig := fun _ _ _ => inr [];
  update_xcode_project := fun _ _ _ _ existing _ _ => inr existing;
  generate_top_level_makefile := fun _ _ _ existing => inr ("# generated" ++ [LF] ++ existing);
  generate_assets_makefile := fun _ _ _ path existing _ _ => inr [(path, existing)];
  generate_app_module := fun _ _ _ _ existing => inr existing;
  generate_meta_makefile := fun _ _ _ existing =>
    inr [(lit "src/meta/Makefile", existing);
         (lit "src/meta/.meta_manifest_public.json", lit "{}");
         (lit "src/meta/.meta_manifest_private.json", lit "{}")];
  ResourcesMakefileGenerator_run := fun _ _ _ existing _ => inr existing;
  Clr_RED := [];
  Clr_BLU := [];
  Clr_BLD := [];
  Clr_RST := [];
|}.

(** The same collaborators, with a project configuration whose [public] is
    not a bool. *)
Definition collaborators_odd_config : Collaborators := {|
  FeatureSet := str;
  FeatureSet_name := fun f => f;
  FeatureSet_get_all_for_project := fun _ _ _ => inr [lit "base"];
  getprojectconfig := fun _ _ _ => inr [(lit "public", PyStrList [])];
  getlocalconfig := fun _ _ _ => inr [];
  update_xcode_project := fun _ _ _ _ existing _ _ => inr existing;
  generate_top_level_makefile := fun _ _ _ existing => inr existing;
  generate_assets_makefile := fun _ _ _ path existing _ _ => inr [(path, existing)];
  generate_app_module := fun _ _ _ _ existing => inr existing;
  generate_meta_makefile := fun _ _ _ existing => inr [(lit "src/meta/Makefile", existing)];
  ResourcesMakefileGenerator_run := fun _ _ _ existing _ => inr existing;
  Clr_RED := [];
  Clr_BLU := [];
  Clr_BLD := [];
  Clr_RST := [];
|}.

#[export] Instance checks : Checks := {|
  check_makefiles := mret tt;
  check_python_files := mret tt;
  check_sync_states := mret tt;
  check_misc := mret tt;
  check_source_files := mret tt;
  check_headers := mret tt;
|}.

(** The project [/proj]: a Makefile, two sources, a header and a generated
    header. *)
Definition tree : fsnode :=
  FDir [(lit "proj", FDir [
    (lit "config", FDir []);
    (lit "tools", FDir []);
    (lit "Makefile", FFile ("all:" ++ [LF]));
    (lit "notes.txt", FFile ("one" ++ [LF] ++ "two" ++ [LF] ++ "three" ++ [LF]));
    (lit "src", FDir [
      (lit "ballistica", FDir [
        (lit "foo.cpp", FFile []);
        (lit "bar.h", FFile []);
        (lit "base", FDir [(lit "app.cc", FFile []); (lit "README", FFile [])]);
        (lit "mgen", FDir [(lit "gen.h", FFile [])])])])])].

Definition world0 : World :=
  {| fs := tree; cwd := lit "/proj"; stdout := []; trace := [] |}.

Definition updater (check_arg fix_arg : bool) : ProjectUpdater :=
  {| projname := lit "BallisticaKit"; projroot := lit "/proj";
     check := check_arg; fix_ := fix_arg; public := true;
     _source_files := Some []; _header_files := Some [];
     _enqueued_updates := []; _line_corrections := [];
     _can_generate_files := false; _generated_files := [];
     _feature_sets := None; license_line_checks := true;
     _internal_source_dirs := None; _internal_source_files := None;
     run_file_checks := false |}.

Definition auto_entry : _LineChange :=
  {| line_number := 1; expected := lit "TWO"; can_auto_update := true |}.

Definition manual_entry : _LineChange :=
  {| line_number := 0; expected := lit "ONE"; can_auto_update := false |}.

(** A run ready for its apply phase: the given ledger, and a generated
    Makefile that differs from the one on disk. *)
Definition at_apply (check_arg fix_arg : bool) (ledger : PyDict.t (list _LineChange))
    : State :=
  {| self :=
       with_generated_files [(lit "Makefile", "all: build" ++ [LF])]
         (with_line_corrections ledger (updater check_arg fix_arg));
     world := world0 |}.

(** A run that may generate files, and one with the Makefile in its queue. *)
Definition ready : State :=
  {| self := with_can_generate_files true (updater false false); world := world0 |}.

Definition queued : State :=
  {| self := with_run_file_checks true
               (with_enqueued_updates [(lit "Makefile", None)] (updater false false));
     world := world0 |}.

End Demo.

(** ** Further observations on a run *)

(** Every CR of [s] is followed by LF: the text has no line end that reading
    in text mode would turn into something [replace] leaves alone. *)
Fixpoint no_lone_CR (s : str) : bool :=
  match s with
  | [] => true
  | c :: s' =>
      (if decide (c = CR)
       then match s' with c' :: _ => bool_decide (c' = LF) | [] => false end
       else true)
      && no_lone_CR s'
  end.

Section generation.
Context `{C : Collaborators}.

(** The tests of the dispatch in [generate_file], in its order: whether the
    method has a formula for the path. *)
Definition has_formula (path : str) : bool :=
  PyStr.endswith path "/project.pbxproj"
  || PyStr.endswith path ".vcxproj.filters"
  || PyStr.endswith path ".vcxproj"
  || PyStr.endswith path "CMakeLists.txt"
  || bool_decide (path = lit "Makefile")
  || bool_decide (path = lit "src/assets/Makefile")
  || PyStr.startswith path "src/assets/.asset_manifest_public"
  || PyStr.startswith path "src/assets/.asset_manifest_private"
  || bool_decide (path = lit "src/resources/Makefile")
  || bool_decide (path = lit "src/meta/Makefile")
  || bool_decide (path = lit "src/assets/ba_data/python/babase/_app.py")
  || PyStr.startswith path "src/meta/.meta_manifest_".

(** The two errors [generate_file] raises itself. *)
Definition generation_closed : exn :=
  RuntimeError "Generate cannot be called right now.".

Definition no_formula (path : str) : exn :=
  RuntimeError ("No known formula to create project file: '" ++ path ++ "'.").

Definition not_no_formula (e : exn) : Prop := forall path, e <> no_formula path.

(** The cache of generated files only grows: a path that has content keeps
    having some. *)
Definition caching (st st' : State) : Prop :=
  forall path,
    PyDict.mem (_generated_files (self st)) path = true ->
    PyDict.mem (_generated_files (self st')) path = true.

End generation.

(** [preserving I]: what holds of the state before holds of it after. *)
Definition preserving {S} (I : S -> Prop) : S -> S -> Prop :=
  fun s s' => I s -> I s'.

(** An updater on which nothing has run yet: no inventory, nothing
    generated, no correction, no cached configuration. *)
Definition fresh `{C : Collaborators} (u : ProjectUpdater) : Prop :=
  _source_files u = None /\ _header_files u = None
  /\ _line_corrections u = [] /\ _generated_files u = []
  /\ _can_generate_files u = false /\ _feature_sets u = None
  /\ _internal_source_dirs u = None /\ _internal_source_files u = None.

(** The files are the same. *)
Definition keeps_files `{C : Collaborators} (st st' : State) : Prop :=
  fs (world st') = fs (world st).


(** The cached internal sources of an updater are not set, or empty. *)
Definition no_internal_sources `{C : Collaborators} (u : ProjectUpdater) : Prop :=
  (_internal_source_dirs u = None \/ _internal_source_dirs u = Some ∅)
  /\ (_internal_source_files u = None \/ _internal_source_files u = Some ∅).

(** What an entry adds to the flat list of the auto-fixable or of the manual
    corrections of the apply pass. *)
Definition listed (auto : bool) (filename : str) (entry : _LineChange)
    : list (str * _LineChange) :=
  if bool_decide (can_auto_update entry = auto) then [(filename, entry)] else [].

(** The lines the renderer of a Visual Studio project looks for and writes:
    the entry of [stdafx.cpp], the ends of an item group, the entry of a
    source file, and the test for an entry of a file from [src/ballistica]. *)
Definition stdafx_line : str := "    <ClCompile Include=" ++ quoted "stdafx.cpp" ++ ">".
Definition item_group_open : str := lit "  <ItemGroup>".
Definition item_group_close : str := lit "  </ItemGroup>".

Definition vs_entry (src : str) : str :=
  "    <"
  ++ (if PyStr.endswith src ".h" then lit "ClInclude" else lit "ClCompile")
  ++ " Include=" ++ [DQUOTE]
  ++ src_root
  ++ "\ballistica"
  ++ PyStr.replace src "/" "\"
  ++ [DQUOTE] ++ " />".

Definition from_ballistica (l : str) : bool :=
  PyStr.contains (src_root ++ "\ballistica\") l.

(** The path an entry of a project names, between its first two quotes, and
    the directories of the path below the source root: what the renderer of
    the filters file makes its filters of. *)
Definition entry_path (line : str) : option str := PyStr.split line [DQUOTE] !! 1%nat.

Definition entry_splits (path : str) : list str :=
  PyList.slice_to
    (List.filter (fun s => negb (bool_decide (s = [])))
                 (PyStr.split (drop (length src_root) path) [BACKSLASH]))
    (-1).

Definition is_source_entry (line : str) : bool :=
  PyStr.contains ("Include=" ++ [DQUOTE] ++ src_root) line.

(** What the renderer of a CMake file does with a file of the inventory: it
    lists it unless it is Objective-C or Swift, as an entry below the source
    root; and the test that makes a file of a project with internal sources
    an internal one. *)
Definition cmake_listed (f : str) : bool :=
  negb (PyStr.endswith f ".mm") && negb (PyStr.endswith f ".m")
  && negb (PyStr.endswith f ".swift").

Definition cmake_entry (f : str) : str := "  ${BA_SRC_ROOT}/ballistica" ++ f.

Definition internal_source (dirs files : gset str) (f : str) : bool :=
  existsb (fun d => PyStr.startswith ("src/ballistica" ++ f) (d ++ "/")) (elements dirs)
  || bool_decide ("src/ballistica" ++ f ∈ files).

(** What the renderer of a Visual Studio project does with a file of the
    inventory: it takes it unless it is C, Objective-C or Swift; and the
    projects that take the internal sources. *)
Definition vs_listed (f : str) : bool :=
  negb (PyStr.endswith f ".m") && negb (PyStr.endswith f ".mm")
  && negb (PyStr.endswith f ".c") && negb (PyStr.endswith f ".swift").

Definition plus_project (fname : str) : bool :=
  PyStr.contains "Plus" (PosixPath.basename fname).

(** ** More of the small project: a Visual Studio project and a CMake file *)

Module Samples.

#[local] Existing Instance Demo.collaborators.

Definition vcxproj_lines : list str :=
  [ lit "<Project>";
    lit "  <ItemGroup>";
    "    <ClCompile Include=" ++ quoted "..\..\src\ballistica\old.cc" ++ " />";
    "    <ClCompile Include=" ++ quoted "stdafx.cpp" ++ ">";
    lit "    </ClCompile>";
    lit "  </ItemGroup>";
    lit "</Project>" ].

Definition vcxproj : str := PyStr.join [CR; LF] vcxproj_lines ++ [CR; LF].

Definition vcxproj_path : str :=
  lit "ballisticakit-windows/Generic/BallisticaKitGeneric.vcxproj".

(** A run that may generate files, with the scan done and the project file
    and its filters file in the queue, the project with its data. *)
Definition generating : State :=
  {| self :=
       with_inventory [lit "/base/app.cc"; lit "/foo.cpp"] [lit "/bar.h"]
         (with_can_generate_files true
            (with_enqueued_updates
               [(vcxproj_path ++ ".filters", Some []); (vcxproj_path, Some vcxproj)]
               (Demo.updater false false)));
     world := Demo.world0 |}.

(** A public project with the manifest of its private assets on disk, ready
    to generate. *)
Definition manifest_path : str := lit "src/assets/.asset_manifest_private.json".

Definition public_tree : fsnode :=
  FDir [(lit "proj", FDir [
    (lit "config", FDir []);
    (lit "tools", FDir []);
    (lit "src", FDir [
      (lit "assets", FDir [
        (lit ".asset_manifest_private.json", FFile ("{}" ++ [CR; LF]))])])])].

Definition public_ready : State :=
  {| self := with_can_generate_files true (Demo.updater false false);
     world := {| fs := public_tree; cwd := lit "/proj"; stdout := []; trace := [] |} |}.

(** An updater of a project with internal sources, loaded. *)
Definition with_internal : State :=
  {| self := with_internal_source_files {[ lit "src/ballistica/foo.cpp" ]}
               (with_internal_source_dirs {[ lit "src/ballistica/base" ]}
                  (Demo.updater false false));
     world := Demo.world0 |}.

(** A CMake file with both of its managed sections, stale. *)
Definition cmake_lines : list str :=
  [ lit "add_executable(app";
    cmake_section_begin "PUBLIC";
    lit "  ${BA_SRC_ROOT}/ballistica/old.cc";
    cmake_section_end "PUBLIC";
    lit "  # hand-written";
    cmake_section_begin "PRIVATE";
    cmake_section_end "PRIVATE";
    lit ")" ].

Definition cmake : str := PyStr.join [LF] cmake_lines ++ [LF].

Definition cmake_inventory : list str * list str :=
  ([lit "/foo.cpp"; lit "/base/app.cc"; lit "/mac/view.mm"], [lit "/bar.h"]).

Definition cmake_public : State :=
  {| self := with_inventory cmake_inventory.1 cmake_inventory.2 (Demo.updater false false);
     world := Demo.world0 |}.

(** The same inventory in a project that is not public, its internal sources
    loaded. *)
Definition cmake_private : State :=
  {| self :=
       {| projname := lit "BallisticaKit"; projroot := lit "/proj";
          check := false; fix_ := false; public := false;
          _source_files := Some cmake_inventory.1;
          _header_files := Some cmake_inventory.2;
          _enqueued_updates := []; _line_corrections := [];
          _can_generate_files := true; _generated_files := [];
          _feature_sets := None; license_line_checks := true;
          _internal_source_dirs := Some {[ lit "src/ballistica/base" ]};
          _internal_source_files := Some {[ lit "src/ballistica/foo.cpp" ]};
          run_file_checks := false |};
     world := Demo.world0 |}.

(** A project with two text files whose lines do not end in a bare LF: one
    with a CR inside its first line and one with lines ending in CR LF. *)
Definition mac_text : str := "a" ++ [CR] ++ "b" ++ [LF].

Definition dos_text : str := "a" ++ [CR; LF] ++ "b" ++ [CR; LF].

Definition line_ends_tree : fsnode :=
  FDir [(lit "proj", FDir [
    (lit "mac.txt", FFile mac_text);
    (lit "dos.txt", FFile dos_text)])].

(** A run at its apply phase on that project, with the given generated files
    and ledger. *)
Definition line_ends (check_arg fix_arg : bool) (generated : PyDict.t str)
    (ledger : PyDict.t (list _LineChange)) : State :=
  {| self := with_generated_files generated
               (with_line_corrections ledger (Demo.updater check_arg fix_arg));
     world := {| fs := line_ends_tree; cwd := lit "/proj"; stdout := []; trace := [] |} |}.

End Samples.

(** * Properties *)

(** ** Strings and paths *)

Section strings.
Import PyStr.

Lemma startswith_prefix (s p : str) : startswith s p = true <-> p `prefix_of` s.
Proof. unfold startswith. apply bool_decide_eq_true. Qed.

Lemma endswith_suffix (s p : str) : endswith s p = true <-> p `suffix_of` s.
Proof. unfold endswith. apply bool_decide_eq_true. Qed.

Lemma startswith_app (p rest : str) : startswith (p ++ rest) p = true.
Proof. apply startswith_prefix. by exists rest. Qed.

End strings.

(** C10 -- [project_centric_path]: '.' for the project root itself, the part
    after [projroot + '/'] for a path below it, and a [RuntimeError] for every
    other path.  The absolute form of the path is [os.path.abspath] of it. *)
Theorem project_centric_path_cases (cwd projroot path : str) :
  let abspath := PosixPath.abspath cwd path in
  (abspath = projroot -> project_centric_path cwd projroot path = inr (lit "."))
  /\ (forall rest : str,
        abspath = projroot ++ "/" ++ rest ->
        project_centric_path cwd projroot path = inr rest)
  /\ (abspath <> projroot ->
      ~ (projroot ++ "/") `prefix_of` abspath ->
      exists msg, project_centric_path cwd projroot path = inl (RuntimeError msg)).
Proof.
  intros abspath. unfold project_centric_path. fold abspath.
  split; [|split].
  - intros ->. by rewrite decide_True.
  - intros rest Hrest.
    assert (abspath <> projroot) as Hne.
    { intros Heq. apply (f_equal length) in Hrest.
      rewrite Heq, !length_app in Hrest. simpl in Hrest. lia. }
    rewrite decide_False by done.
    rewrite Hrest at 1.
    replace (projroot ++ "/" ++ rest) with ((projroot ++ "/") ++ rest)
      by (by rewrite <- app_assoc).
    rewrite startswith_app. simpl.
    rewrite Hrest.
    replace (projroot ++ "/" ++ rest) with ((projroot ++ "/") ++ rest)
      by (by rewrite <- app_assoc).
    by rewrite drop_app_length.
  - intros Hne Hpre. rewrite decide_False by done.
    destruct (PyStr.startswith abspath (projroot ++ "/")) eqn:Hs.
    + by apply startswith_prefix in Hs.
    + simpl. eauto.
Qed.

(** ** Lines *)

Section lines.
Import PyStr.

Lemma splitlines_go_app (x cur rest : str) :
  no_linebreak x -> splitlines_go cur (x ++ rest) = splitlines_go (cur ++ x) rest.
Proof.
  revert cur. induction x as [|c x IH]; intros cur Hx; simpl.
  - by rewrite app_nil_r.
  - apply Forall_cons in Hx as [Hc Hx]. rewrite Hc, IH by done.
    by rewrite <- app_assoc.
Qed.

Lemma join_cons_cons (sep x y : str) (r : list str) :
  join sep (x :: y :: r) = x ++ sep ++ join sep (y :: r).
Proof. done. Qed.

(** Splitting what [join] and a final LF put together gives the lines back. *)
Lemma splitlines_go_join (cur x : str) (r : list str) :
  Forall no_linebreak (x :: r) ->
  splitlines_go cur (join [LF] (x :: r) ++ [LF]) = (cur ++ x) :: r.
Proof.
  revert cur x. induction r as [|y r IH]; intros cur x Hls.
  - apply Forall_cons in Hls as [Hx _]. cbn [join].
    rewrite splitlines_go_app by done. reflexivity.
  - apply Forall_cons in Hls as [Hx Hr]. rewrite join_cons_cons.
    rewrite <- !app_assoc. rewrite splitlines_go_app by done.
    change ([LF] ++ join [LF] (y :: r) ++ [LF])
      with (LF :: (join [LF] (y :: r) ++ [LF])).
    cbn [splitlines_go].
    replace (is_linebreak LF) with true by reflexivity.
    rewrite decide_False by discriminate.
    by rewrite IH.
Qed.

Lemma splitlines_join (ls : list str) :
  ls <> [] -> Forall no_linebreak ls -> splitlines (join [LF] ls ++ [LF]) = ls.
Proof.
  intros Hne Hls. destruct ls as [|x r]; [done|].
  unfold splitlines. by rewrite splitlines_go_join.
Qed.

Lemma splitlines_go_no_linebreak (n : nat) (s cur : str) :
  (length s <= n)%nat -> no_linebreak cur -> Forall no_linebreak (splitlines_go cur s).
Proof.
  revert s cur. induction n as [|n IH]; intros s cur Hlen Hcur.
  { destruct s; [|simpl in Hlen; lia]. simpl.
    destruct cur; [constructor|constructor; [done|constructor]]. }
  destruct s as [|c s]; simpl.
  { destruct cur; [constructor|constructor; [done|constructor]]. }
  simpl in Hlen.
  destruct (is_linebreak c) eqn:Hc.
  - constructor; [done|].
    destruct (decide (c = CR)); [|apply IH; [lia|constructor]].
    destruct s as [|c' s']; [apply IH; [simpl; lia|constructor]|].
    destruct (decide (c' = LF)); apply IH; simpl in *; try lia; constructor.
  - apply IH; [lia|]. apply Forall_app. split; [done|]. by repeat constructor.
Qed.

Lemma splitlines_no_linebreak (s : str) : Forall no_linebreak (splitlines s).
Proof. apply (splitlines_go_no_linebreak (length s)); [lia|constructor]. Qed.


Lemma universal_newlines_id (n : nat) (s : str) :
  (length s <= n)%nat -> CR ∉ s -> FS.universal_newlines s = s.
Proof.
  revert s. induction n as [|n IH]; intros s Hlen Hs.
  { destruct s; [done|simpl in Hlen; lia]. }
  destruct s as [|c s]; [done|]. simpl in *.
  apply not_elem_of_cons in Hs as [Hc Hs].
  rewrite decide_False by done. f_equal. apply IH; [lia|done].
Qed.


End lines.

(** ** Computations *)

Section monad_facts.
Context {S : Type}.

Lemma bind_ok {A B} (m : M S A) (k : A -> M S B) s a s' :
  m s = Ok a s' -> (m ≫= k) s = k a s'.
Proof. unfold mbind, M_bind. by intros ->. Qed.

Lemma bind_raise {A B} (m : M S A) (k : A -> M S B) s e s' :
  m s = Raise e s' -> (m ≫= k) s = Raise e s'.
Proof. unfold mbind, M_bind. by intros ->. Qed.

Lemma bind_timeout {A B} (m : M S A) (k : A -> M S B) s :
  m s = Timeout -> (m ≫= k) s = Timeout.
Proof. unfold mbind, M_bind. by intros ->. Qed.



Lemma for_fold_app {A B} (l1 l2 : list A) (acc : B) (body : A -> B -> M S B) s :
  for_fold (l1 ++ l2) acc body s
  = (acc' ← for_fold l1 acc body; for_fold l2 acc' body) s.
Proof.
  revert acc s. induction l1 as [|x l1 IH]; intros acc s; simpl; [done|].
  unfold mbind, M_bind in *. destruct (body x acc s); [|done..]. apply IH.
Qed.

End monad_facts.

Ltac unfold_m :=
  unfold mbind, M_bind, mret, M_ret, raise, get_state, modify, assert_ in *.

Section updater_facts.
Context `{C : Collaborators}.

Lemma after_output_nil st : after_output [] [] st = st.
Proof. destruct st as [u [? ? ? ?]]. unfold after_output. simpl. by rewrite !app_nil_r. Qed.

Lemma after_output_after_output o1 e1 o2 e2 st :
  after_output o2 e2 (after_output o1 e1 st) = after_output (o1 ++ o2) (e1 ++ e2) st.
Proof. unfold after_output. simpl. by rewrite !app_assoc. Qed.

Lemma print_spec line st : print line st = Ok tt (after_output [line] [] st).
Proof. unfold print, sys, Sys.print, after_output. unfold_m. simpl. by rewrite app_nil_r. Qed.

Lemma for_each_print {A} (l : list A) (f : A -> str) st :
  for_each l (fun x => print (f x)) st = Ok tt (after_output (map f l) [] st).
Proof.
  revert st. induction l as [|x l IH]; intros st; simpl.
  - by rewrite after_output_nil.
  - erewrite bind_ok by apply print_spec. rewrite IH.
    by rewrite after_output_after_output.
Qed.

(** ** The ledger *)

Lemma elem_of_flat_changes auto (ledger : PyDict.t (list _LineChange)) fname entry :
  (fname, entry) ∈ flat_changes auto ledger <->
  exists entries, (fname, entries) ∈ PyDict.items ledger /\ entry ∈ entries
                  /\ can_auto_update entry = auto.
Proof.
  unfold flat_changes, PyDict.items. rewrite list_elem_of_In, in_flat_map. split.
  - intros [[k es] [Hin Hx]]. apply list_elem_of_In in Hin, Hx.
    apply list_elem_of_omap in Hx as (e & He & Hsome). simpl in *.
    case_bool_decide; [|done]. simplify_eq. eauto.
  - intros (es & Hin & He & Hauto). exists (fname, es). split.
    + by apply list_elem_of_In.
    + apply list_elem_of_In, list_elem_of_omap. exists entry. split; [done|].
      simpl. by rewrite bool_decide_true.
Qed.

(** C1 -- with a manual correction in the ledger, the line-correction pass
    prints the heading and one line for every manual entry (file, line number
    counted from one, expected text) and raises [CleanError], whatever the
    mode and whatever auto-fixable entries there are; the object, the files and
    the trace of file operations are as before. *)
Theorem manual_corrections_stop_the_pass (st : State) :
  (exists fname entries entry,
      (fname, entries) ∈ PyDict.items (_line_corrections (self st))
      /\ entry ∈ entries /\ can_auto_update entry = false) ->
  let manual := flat_changes false (_line_corrections (self st)) in
  let st' := after_output (manual_header :: map manual_message manual) [] st in
  _apply_line_changes st = Raise (CleanError []) st'
  /\ (forall fname entries entry,
        (fname, entries) ∈ PyDict.items (_line_corrections (self st)) ->
        entry ∈ entries -> can_auto_update entry = false ->
        Clr_RED ++ fname ++ ":" ++ PyStr.of_int (line_number entry + 1) ++ ":"
          ++ " Expected line to be:" ++ [LF] ++ "  " ++ expected entry ++ Clr_RST
        ∈ stdout (world st'))
  /\ self st' = self st
  /\ fs (world st') = fs (world st)
  /\ trace (world st') = trace (world st).
Proof.
  intros (fname & entries & entry & Hin & He & Hman) manual st'.
  assert ((fname, entry) ∈ manual) as Hne.
  { apply elem_of_flat_changes. eauto. }
  split; [|split; [|split; [|split]]].
  - unfold _apply_line_changes.
    erewrite bind_ok by reflexivity.
    fold manual. destruct manual as [|m0 manual'] eqn:Hm.
    { by apply elem_of_nil in Hne. }
    erewrite bind_raise; [reflexivity|].
    erewrite bind_ok by apply print_spec.
    erewrite bind_ok by apply for_each_print.
    unfold raise. rewrite after_output_after_output. done.
  - intros fname' entries' entry' Hin' He' Hman'.
    subst st'. simpl. apply elem_of_app. right. apply elem_of_cons. right.
    apply (list_elem_of_fmap_2 manual_message _ (fname', entry')).
    apply elem_of_flat_changes. eauto.
  - done.
  - done.
  - subst st'. simpl. by rewrite app_nil_r.
Qed.

End updater_facts.

(** ** Dicts *)

Section dict_facts.
Context {V : Type}.
Implicit Types (d : PyDict.t V) (k : str) (v : V).

Lemma dict_get_set_eq d k v : PyDict.get (PyDict.set d k v) k = Some v.
Proof.
  induction d as [|[k' v'] d IH]; simpl.
  - by rewrite decide_True.
  - destruct (decide (k' = k)) as [->|Hne]; simpl.
    + by rewrite decide_True.
    + by rewrite decide_False.
Qed.

Lemma dict_get_set_ne d k k' v :
  k <> k' -> PyDict.get (PyDict.set d k v) k' = PyDict.get d k'.
Proof.
  intros Hne. induction d as [|[k0 v0] d IH]; simpl.
  - by rewrite decide_False.
  - destruct (decide (k0 = k)) as [->|Hne0]; simpl.
    + by rewrite !decide_False.
    + by rewrite IH.
Qed.

Lemma dict_get_Some_elem_of d k v : PyDict.get d k = Some v -> (k, v) ∈ d.
Proof.
  induction d as [|[k' v'] d IH]; simpl; [done|].
  destruct (decide (k' = k)) as [->|Hne].
  - intros [= ->]. apply elem_of_cons. by left.
  - intros H. apply elem_of_cons. right. by apply IH.
Qed.

Lemma dict_get_None_keys d k : PyDict.get d k = None <-> k ∉ PyDict.keys d.
Proof.
  unfold PyDict.keys. induction d as [|[k' v'] d IH]; simpl.
  - split; [intros _; apply not_elem_of_nil|done].
  - rewrite not_elem_of_cons. destruct (decide (k' = k)) as [->|Hne].
    + split; [done|]. by intros [? _].
    + rewrite IH. split; [by split|by intros [_ ?]].
Qed.

End dict_facts.

(** ** The file tree *)

Section fs_facts.
Implicit Types (t new : fsnode) (l k : FS.loc) (d cwd path : str).

Lemma fs_lookup_app t l1 l2 :
  FS.lookup t (l1 ++ l2) = FS.lookup t l1 ≫= fun t' => FS.lookup t' l2.
Proof.
  revert t. induction l1 as [|c cs IH]; intros t; [done|].
  cbn [app FS.lookup]. destruct t as [|es]; [done|].
  destruct (PyDict.get es c); [apply IH|done].
Qed.

(** What has something below it is a directory. *)
Lemma fs_lookup_below t l c k n :
  FS.lookup t (l ++ c :: k) = Some n -> FS.dir_at t l.
Proof.
  rewrite fs_lookup_app.
  destruct (FS.lookup t l) as [[|es]|] eqn:Hl; simpl; [done| |done].
  intros _. by exists es.
Qed.

Lemma fs_not_dir_below t l c k :
  ~ FS.dir_at t l -> FS.lookup t (l ++ c :: k) = None.
Proof.
  intros Hl. destruct (FS.lookup t (l ++ c :: k)) eqn:Hk; [|done].
  destruct Hl. by eapply fs_lookup_below.
Qed.

Lemma fs_dir_at_above t l c : FS.dir_at t (l ++ [c]) -> FS.dir_at t l.
Proof. intros [es Hes]. by eapply fs_lookup_below. Qed.

Lemma fs_dir_at_removelast t l : FS.dir_at t l -> FS.dir_at t (removelast l).
Proof.
  destruct (decide (l = [])) as [->|Hne]; [done|].
  destruct (exists_last Hne) as (l0 & c & ->). rewrite removelast_last.
  apply fs_dir_at_above.
Qed.

(** *** [put] *)

Lemma fs_put_lookup t l new :
  is_Some (FS.lookup t l) \/ (exists l0 c, l = l0 ++ [c] /\ FS.dir_at t l0) ->
  FS.lookup (FS.put t l new) l = Some new.
Proof.
  revert t. induction l as [|c cs IH]; intros t Hl; [done|].
  cbn [FS.put FS.lookup] in *.
  destruct t as [raw|es].
  { exfalso. destruct Hl as [[? ?]|(l0 & c0 & Hl0 & [es Hes])]; [done|].
    destruct l0 as [|c1 l0]; by simplify_eq/=. }
  destruct (PyDict.get es c) as [t0|] eqn:Hg.
  - cbn [FS.lookup]. rewrite dict_get_set_eq. apply IH.
    destruct Hl as [Hl|(l0 & c0 & Hl0 & [es0 Hes])]; [by left|].
    destruct l0 as [|c1 l0]; simplify_eq/=.
    + left. by eexists.
    + right. exists l0, c0. split; [done|]. rewrite Hg in Hes. by exists es0.
  - destruct cs as [|c' cs].
    + cbn [FS.lookup]. by rewrite dict_get_set_eq.
    + exfalso. destruct Hl as [[? ?]|(l0 & c0 & Hl0 & [es0 Hes])]; [done|].
      destruct l0 as [|c1 l0]; simplify_eq/=. by rewrite Hg in Hes.
Qed.

(** Putting a file or an empty directory where no directory is changes
    nothing but that place and the directories above it. *)
Lemma fs_put_frame t l new l' :
  ~ FS.dir_at t l -> (forall c k, FS.lookup new (c :: k) = None) ->
  ~ l' `prefix_of` l ->
  FS.lookup (FS.put t l new) l' = FS.lookup t l'.
Proof.
  intros Hl Hnew. revert t l' Hl. induction l as [|c cs IH]; intros t l' Hl Hpre.
  { destruct l' as [|c' k']; [destruct Hpre; apply prefix_nil|].
    cbn [FS.put]. rewrite Hnew. symmetry.
    by apply (fs_not_dir_below t [] c' k'). }
  destruct l' as [|c' cs']; [destruct Hpre; apply prefix_nil|].
  cbn [FS.put]. destruct t as [raw|es]; [done|].
  destruct (PyDict.get es c) as [t0|] eqn:Hg.
  - cbn [FS.lookup]. destruct (decide (c = c')) as [<-|Hne].
    + rewrite dict_get_set_eq, Hg. apply IH.
      * intros [es0 Hes]. apply Hl. exists es0. cbn [FS.lookup]. by rewrite Hg.
      * intros Hp. apply Hpre. by apply prefix_cons.
    + by rewrite dict_get_set_ne.
  - destruct cs as [|c1 cs]; [|done].
    cbn [FS.lookup]. destruct (decide (c = c')) as [<-|Hne].
    + rewrite dict_get_set_eq, Hg.
      destruct cs' as [|c2 cs']; [destruct Hpre; by apply prefix_cons|].
      apply Hnew.
    + by rewrite dict_get_set_ne.
Qed.

(** A file put where no directory is leaves the directories what they are. *)
Lemma fs_put_file_dirs t l d l' :
  ~ FS.dir_at t l -> FS.dir_at (FS.put t l (FFile d)) l' <-> FS.dir_at t l'.
Proof.
  revert t l'. induction l as [|c cs IH]; intros t l' Hl.
  { cbn [FS.put]. split.
    - intros [es Hes]. destruct l'; [done|done].
    - intros [es Hes]. destruct l' as [|c' k'].
      + destruct Hl. by exists es.
      + destruct Hl. by apply (fs_lookup_below t [] c' k' (FDir es)). }
  cbn [FS.put]. destruct t as [raw|es]; [done|].
  destruct (PyDict.get es c) as [t0|] eqn:Hg.
  - destruct l' as [|c' cs'].
    { split; intros _; by eexists. }
    unfold FS.dir_at. cbn [FS.lookup].
    destruct (decide (c = c')) as [<-|Hne].
    + rewrite dict_get_set_eq, Hg. apply IH.
      intros [es0 Hes]. apply Hl. exists es0. cbn [FS.lookup]. by rewrite Hg.
    + by rewrite dict_get_set_ne.
  - destruct cs as [|c1 cs]; [|done].
    destruct l' as [|c' cs'].
    { split; intros _; by eexists. }
    unfold FS.dir_at. cbn [FS.lookup].
    destruct (decide (c = c')) as [<-|Hne].
    + rewrite dict_get_set_eq, Hg. split; intros [es0 Hes]; [|done].
      by destruct cs'.
    + by rewrite dict_get_set_ne.
Qed.

(** *** Walks *)

Lemma fs_walk_steps_app t cur ns1 ns2 :
  FS.walk_steps t cur (ns1 ++ ns2)
  = match FS.walk_steps t cur ns1 with
    | inr l => FS.walk_steps t l ns2
    | inl e => inl e
    end.
Proof.
  revert cur. induction ns1 as [|n ns1 IH]; intros cur; [done|].
  cbn [app FS.walk_steps]. destruct (FS.lookup t cur) as [[|es]|]; [done| |done].
  apply IH.
Qed.

(** A walk that arrives depends on the tree only through its directories. *)
Lemma fs_walk_steps_dirs t t' cur ns l :
  (forall l0, FS.dir_at t l0 -> FS.dir_at t' l0) ->
  FS.walk_steps t cur ns = inr l -> FS.walk_steps t' cur ns = inr l.
Proof.
  intros Hdirs. revert cur. induction ns as [|n ns IH]; intros cur; [done|].
  cbn [FS.walk_steps]. destruct (FS.lookup t cur) as [[|es]|] eqn:Hcur; [done| |done].
  destruct (Hdirs cur) as [es' ->]; [by exists es|]. apply IH.
Qed.

(** Where a walk arrives: where it started, at a directory, or at a name in
    a directory. *)
Lemma fs_walk_steps_end t cur ns l :
  FS.walk_steps t cur ns = inr l ->
  l = cur \/ FS.dir_at t l \/ exists l0 c, l = l0 ++ [c] /\ FS.dir_at t l0.
Proof.
  revert cur. induction ns as [|n ns IH]; intros cur.
  { intros [= ->]. by left. }
  cbn [FS.walk_steps]. destruct (FS.lookup t cur) as [[|es]|] eqn:Hcur; [done| |done].
  intros [->|H]%IH; [|by right].
  right. unfold FS.step. repeat case_bool_decide.
  - left. by exists es.
  - left. apply fs_dir_at_removelast. by exists es.
  - right. exists cur, n. split; [done|by exists es].
Qed.

Lemma fs_locate_inr t cwd path l :
  FS.locate t cwd path = inr l ->
  (NUL ∉ path) /\ path <> [] /\ FS.walk_steps t [] (FS.steps cwd path) = inr l.
Proof.
  unfold FS.locate. repeat case_bool_decide; try done.
  destruct (FS.walk_steps _ _ _); [done|]. by intros [= ->].
Qed.

Lemma fs_locate_end t cwd path l :
  FS.locate t cwd path = inr l ->
  is_Some (FS.lookup t l) \/ exists l0 c, l = l0 ++ [c] /\ FS.dir_at t l0.
Proof.
  intros (_ & _ & Hwalk)%fs_locate_inr.
  apply fs_walk_steps_end in Hwalk as [->|[[es Hes]|H]].
  - left. by eexists.
  - left. by eexists.
  - by right.
Qed.

Lemma fs_locate_dirs t t' cwd path l :
  (forall l0, FS.dir_at t l0 -> FS.dir_at t' l0) ->
  FS.locate t cwd path = inr l -> FS.locate t' cwd path = inr l.
Proof.
  intros Hdirs (Hnul & Hne & Hwalk)%fs_locate_inr. unfold FS.locate.
  rewrite bool_decide_false, bool_decide_false by done.
  by rewrite (fs_walk_steps_dirs _ _ _ _ _ Hdirs Hwalk).
Qed.

(** *** Finding and reading *)

Lemma fs_find_Some t cwd path n :
  FS.find t cwd path = Some n <->
  exists l, FS.locate t cwd path = inr l /\ FS.lookup t l = Some n
            /\ (PyStr.endswith path "/" = true -> exists es, n = FDir es).
Proof.
  unfold FS.find, FS.resolve. destruct (FS.locate t cwd path) as [f|l]; split.
  - done.
  - by intros (l & ? & _).
  - destruct (FS.lookup t l) as [[raw|es]|] eqn:Hl; [|..|done].
    + destruct (PyStr.endswith path "/"); [done|]. intros [= <-]. exists l. done.
    + intros [= <-]. exists l. eauto.
  - intros (l' & [= <-] & -> & Hend). destruct n as [raw|es]; [|done].
    destruct (PyStr.endswith path "/"); [|done]. by destruct Hend.
Qed.

Lemma fs_read_inr t cwd path d :
  FS.read t cwd path = inr d <->
  exists raw, FS.find t cwd path = Some (FFile raw) /\ d = FS.universal_newlines raw.
Proof.
  unfold FS.read, FS.find. destruct (FS.resolve t cwd path) as [f|[raw|es]]; split;
    try done.
  - by intros (raw & ? & _).
  - intros [= <-]. eauto.
  - by intros (raw' & [= <-] & ->).
  - by intros (raw & ? & _).
Qed.

Lemma fs_read_exists t cwd path d :
  FS.read t cwd path = inr d -> FS.exists_ t cwd path = true.
Proof. intros (raw & Hf & _)%fs_read_inr. unfold FS.exists_. by rewrite Hf. Qed.

Lemma fs_exists_find t cwd path :
  FS.exists_ t cwd path = true <-> is_Some (FS.find t cwd path).
Proof.
  unfold FS.exists_.
  destruct (FS.find t cwd path); split; first [done|by eexists|by intros [? ?]].
Qed.

Lemma fs_isdir_find t cwd path :
  FS.isdir t cwd path = true <-> exists es, FS.find t cwd path = Some (FDir es).
Proof.
  unfold FS.isdir.
  destruct (FS.find t cwd path) as [[|es]|]; split;
    first [done|by eexists|by intros [? ?]].
Qed.

Lemma fs_read_find t cwd path :
  FS.read t cwd path
  = match FS.resolve t cwd path with
    | inr (FFile raw) => inr (FS.universal_newlines raw)
    | inr (FDir _) => inl (Errno EISDIR)
    | inl f => inl f
    end.
Proof. done. Qed.

(** *** Writing *)

Lemma fs_write_inr t cwd path d t' :
  FS.write t cwd path d = inr t' <->
  exists l, FS.locate t cwd path = inr l /\ PyStr.endswith path "/" = false
            /\ ~ FS.dir_at t l /\ t' = FS.put t l (FFile d).
Proof.
  unfold FS.write. destruct (FS.locate t cwd path) as [f|l]; split.
  - done.
  - by intros (l & ? & _).
  - destruct (PyStr.endswith path "/"); [done|].
    destruct (FS.lookup t l) as [[raw|es]|] eqn:Hl; [|done|].
    + intros [= <-]. exists l. split; [done|]. split; [done|]. split; [|done].
      intros [es Hes]. congruence.
    + intros [= <-]. exists l. split; [done|]. split; [done|]. split; [|done].
      intros [es Hes]. congruence.
  - intros (l' & [= <-] & -> & Hd & ->).
    destruct (FS.lookup t l) as [[raw|es]|] eqn:Hl; [done| |done].
    destruct Hd. by exists es.
Qed.

(** After a write the file holds the data. *)
Lemma fs_write_lookup t cwd path d t' l :
  FS.write t cwd path d = inr t' -> FS.locate t cwd path = inr l ->
  FS.lookup t' l = Some (FFile d).
Proof.
  intros (l' & Hloc & _ & _ & ->)%fs_write_inr Hl. rewrite Hloc in Hl.
  injection Hl as ->. apply fs_put_lookup. by eapply fs_locate_end.
Qed.

(** A write changes nothing but the file and the directories above it. *)
Lemma fs_write_frame t cwd path d t' l l' :
  FS.write t cwd path d = inr t' -> FS.locate t cwd path = inr l ->
  ~ l' `prefix_of` l -> FS.lookup t' l' = FS.lookup t l'.
Proof.
  intros (l0 & Hloc & _ & Hd & ->)%fs_write_inr Hl Hpre. rewrite Hloc in Hl.
  injection Hl as ->. by apply fs_put_frame.
Qed.

(** A write makes and unmakes no directory, so every path leads where it led. *)
Lemma fs_write_dirs t cwd path d t' l :
  FS.write t cwd path d = inr t' -> FS.dir_at t' l <-> FS.dir_at t l.
Proof. intros (l0 & _ & _ & Hd & ->)%fs_write_inr. by apply fs_put_file_dirs. Qed.

Lemma fs_write_locate t cwd path d t' q l :
  FS.write t cwd path d = inr t' ->
  FS.locate t' cwd q = inr l <-> FS.locate t cwd q = inr l.
Proof.
  intros Hw. split; apply fs_locate_dirs; intros l0;
    by apply (fs_write_dirs _ _ _ _ _ l0 Hw).
Qed.

(** Read back, the file gives what was written, line ends as text mode
    reads them. *)
Lemma fs_write_read t cwd path d t' :
  FS.write t cwd path d = inr t' ->
  FS.read t' cwd path = inr (FS.universal_newlines d).
Proof.
  intros Hw. pose proof Hw as (l & Hloc & Hend & _ & _)%fs_write_inr.
  apply fs_read_inr. exists d. split; [|done]. apply fs_find_Some. exists l.
  split; [by apply (fs_write_locate _ _ _ _ _ _ _ Hw)|].
  split; [by eapply fs_write_lookup|]. by rewrite Hend.
Qed.


(** A file elsewhere is what it was after a write. *)
Lemma fs_write_find_other t cwd path d t' q raw :
  FS.write t cwd path d = inr t' ->
  FS.locate t cwd q <> FS.locate t cwd path ->
  FS.find t' cwd q = Some (FFile raw) <-> FS.find t cwd q = Some (FFile raw).
Proof.
  intros Hw Hne. pose proof Hw as (l & Hloc & _ & Hd & _)%fs_write_inr.
  rewrite !fs_find_Some.
  assert (Hframe : forall lq, FS.locate t cwd q = inr lq ->
                     (FS.lookup t lq = Some (FFile raw)
                      \/ FS.lookup t' lq = Some (FFile raw)) ->
                     FS.lookup t' lq = FS.lookup t lq).
  { intros lq Hq Hfile. eapply fs_write_frame; [exact Hw|exact Hloc|].
    intros [k Hk]. destruct k as [|c k].
    { rewrite app_nil_r in Hk. subst. congruence. }
    assert (FS.dir_at t lq) as [es Hes].
    { destruct (fs_locate_end _ _ _ _ Hloc) as [[n Hn]|(l0 & c0 & Hl0 & Hdir)].
      - subst l. by eapply fs_lookup_below.
      - subst l. destruct (decide (k = [])) as [->|Hk].
        + by apply app_inj_tail in Hl0 as [<- _].
        + destruct (exists_last Hk) as (k0 & c1 & ->).
          replace (lq ++ c :: k0 ++ [c1]) with ((lq ++ c :: k0) ++ [c1]) in Hl0
            by (by rewrite <- app_assoc).
          apply app_inj_tail in Hl0 as [<- _].
          destruct Hdir as [es Hes]. by eapply fs_lookup_below. }
    assert (FS.dir_at t' lq) as [es' Hes'].
    { apply (fs_write_dirs _ _ _ _ _ lq Hw). by exists es. }
    destruct Hfile; congruence. }
  split; intros (lq & Hq & Hl & Hend).
  - apply (fs_write_locate _ _ _ _ _ _ _ Hw) in Hq. exists lq.
    split; [done|]. split; [|done]. rewrite <- (Hframe lq Hq); [done|by right].
  - exists lq. split; [by apply (fs_write_locate _ _ _ _ _ _ _ Hw)|].
    split; [|done]. rewrite (Hframe lq Hq); [done|by left].
Qed.

End fs_facts.
(** ** File operations on the state of a run *)

Ltac proj_simpl :=
  cbn [after_write after_output self world fs cwd trace stdout fst snd] in *.

Section io_facts.
Context `{C : Collaborators}.

Lemma sys_exists_spec p st :
  sys (Sys.exists_ p) st
  = Ok (FS.exists_ (fs (world st)) (cwd (world st)) p)
       (after_output [] [EvExists p] st).
Proof.
  unfold sys, Sys.exists_, Sys.emit, after_output. unfold_m. simpl.
  by rewrite app_nil_r.
Qed.

Lemma sys_read_spec p st :
  sys (Sys.read_text p) st
  = match FS.read (fs (world st)) (cwd (world st)) p with
    | inr data => Ok data (after_output [] [EvRead p] st)
    | inl f => Raise (Sys.failed f p) (after_output [] [EvRead p] st)
    end.
Proof.
  unfold sys, Sys.read_text, Sys.emit, after_output. unfold_m. simpl.
  destruct (FS.read _ _ _); simpl; by rewrite app_nil_r.
Qed.

Lemma sys_write_spec p data st :
  sys (Sys.write_text p data) st
  = match FS.write (fs (world st)) (cwd (world st)) p data with
    | inr t => Ok tt (after_write t [] [EvWrite p data] st)
    | inl f => Raise (Sys.failed f p) (after_output [] [EvWrite p data] st)
    end.
Proof.
  unfold sys, Sys.write_text, Sys.emit, Sys.set_fs, after_output, after_write.
  unfold_m. simpl.
  destruct (FS.write _ _ _ _); simpl; by rewrite app_nil_r.
Qed.

Lemma sys_makedirs_spec p st :
  sys (Sys.makedirs p) st
  = match FS.makedirs (fs (world st)) (cwd (world st)) p with
    | (t, None) => Ok tt (after_write t [] [EvMakedirs p] st)
    | (t, Some (f, q)) => Raise (Sys.failed f q) (after_write t [] [EvMakedirs p] st)
    end.
Proof.
  unfold sys, Sys.makedirs, Sys.emit, Sys.set_fs, after_output, after_write.
  unfold_m. simpl.
  destruct (FS.makedirs _ _ _) as [t [[f q]|]]; simpl; by rewrite app_nil_r.
Qed.

Lemma after_write_after_output t o1 e1 o2 e2 st :
  after_write t o2 e2 (after_output o1 e1 st) = after_write t (o1 ++ o2) (e1 ++ e2) st.
Proof. unfold after_write, after_output. simpl. by rewrite !app_assoc. Qed.

Lemma after_output_after_write t o1 e1 o2 e2 st :
  after_output o2 e2 (after_write t o1 e1 st) = after_write t (o1 ++ o2) (e1 ++ e2) st.
Proof. unfold after_write, after_output. simpl. by rewrite !app_assoc. Qed.

Lemma after_write_after_write t1 t2 o1 e1 o2 e2 st :
  after_write t2 o2 e2 (after_write t1 o1 e1 st) = after_write t2 (o1 ++ o2) (e1 ++ e2) st.
Proof. unfold after_write. simpl. by rewrite !app_assoc. Qed.

Lemma after_write_same o e st : after_write (fs (world st)) o e st = after_output o e st.
Proof. done. Qed.

(** One round of the whole-file pass, outcome by outcome: what is at the
    path decides whether the artifact is counted, and a difference is
    written out (or, in check mode, dumped and reported). *)
Lemma apply_file_change_spec (st : State) (fname fcode : str) (n : nat) :
  let u := self st in
  let t := fs (world st) in
  let wd := cwd (world st) in
  let path := PosixPath.join (projroot u) fname in
  let fcodefin := PyStr.replace fcode [CR; LF] [LF] in
  let errfile := errfile_of u in
  let dir := PosixPath.dirname errfile in
  let differs (evs : list event) : Res State nat :=
    if check u then
      match FS.makedirs t wd dir with
      | (t1, Some (f, q)) =>
          Raise (Sys.failed f q) (after_write t1 [] (evs ++ [EvMakedirs dir]) st)
      | (t1, None) =>
          match FS.write t1 wd errfile fcodefin with
          | inl f =>
              Raise (Sys.failed f errfile)
                (after_write t1 [] (evs ++ [EvMakedirs dir; EvWrite errfile fcodefin]) st)
          | inr t2 =>
              Raise (CleanError (out_of_date_message fname path errfile))
                (after_write t2 [] (evs ++ [EvMakedirs dir; EvWrite errfile fcodefin]) st)
          end
      end
    else
      match FS.write t wd path fcode with
      | inr t' =>
          Ok n (after_write t' [writing_message fname] (evs ++ [EvWrite path fcode]) st)
      | inl f =>
          Raise (Sys.failed f path)
            (after_output [writing_message fname] (evs ++ [EvWrite path fcode]) st)
      end in
  apply_file_change (fname, fcode) n st
  = if FS.exists_ t wd path then
      match FS.read t wd path with
      | inl f => Raise (Sys.failed f path) (after_output [] [EvExists path; EvRead path] st)
      | inr data =>
          if bool_decide (data = fcodefin)
          then Ok (S n) (after_output [] [EvExists path; EvRead path] st)
          else differs [EvExists path; EvRead path]
      end
    else differs [EvExists path].
Proof.
  intros u t wd path fcodefin errfile dir differs.
  assert (Hdiffers : forall evs,
             ((if check u then
                 sys (Sys.makedirs dir) ;;
                 sys (Sys.write_text errfile fcodefin) ;;
                 raise (CleanError (out_of_date_message fname path errfile))
               else mret tt) ;;
              print (writing_message fname) ;;
              sys (Sys.write_text path fcode) ;;
              mret n) (after_output [] evs st) = differs evs).
  { intros evs. subst differs. cbv beta. destruct (check u).
    - unfold mbind at 1, M_bind at 1. unfold mbind at 1, M_bind at 1.
      rewrite sys_makedirs_spec. proj_simpl. fold t wd.
      destruct (FS.makedirs t wd dir) as [t1 [[f q]|]].
      { by rewrite after_write_after_output. }
      unfold mbind at 1, M_bind at 1. rewrite sys_write_spec. proj_simpl. fold wd.
      destruct (FS.write t1 wd errfile fcodefin) as [f|t2].
      + by rewrite after_output_after_write, after_write_after_output.
      + unfold raise. by rewrite after_write_after_write, after_write_after_output.
    - erewrite bind_ok by reflexivity.
      erewrite bind_ok by apply print_spec.
      unfold mbind at 1, M_bind at 1. rewrite sys_write_spec. proj_simpl. fold t wd.
      destruct (FS.write t wd path fcode).
      + by rewrite !after_output_after_output, !app_nil_r.
      + unfold mret, M_ret.
        by rewrite after_output_after_output, after_write_after_output, !app_nil_r. }
  unfold apply_file_change.
  erewrite bind_ok by reflexivity. fold u path fcodefin errfile dir.
  erewrite bind_ok by apply sys_exists_spec.
  proj_simpl. fold t wd.
  destruct (FS.exists_ t wd path) eqn:Hex.
  - unfold mbind at 1, M_bind at 1. unfold mbind at 1, M_bind at 1.
    rewrite sys_read_spec. proj_simpl. fold t wd.
    destruct (FS.read t wd path) as [f|data] eqn:Hrd.
    { by rewrite after_output_after_output. }
    unfold mret at 1, M_ret at 1. rewrite after_output_after_output.
    destruct (decide (data = fcodefin)) as [->|Hne].
    + by rewrite !bool_decide_true by done.
    + rewrite !bool_decide_false by congruence. apply Hdiffers.
  - unfold mbind at 1, M_bind at 1. unfold mret at 1, M_ret at 1.
    rewrite bool_decide_false by done. apply Hdiffers.
Qed.

Lemma apply_file_change_up_to_date (st : State) (fname fcode : str) (n : nat) :
  up_to_date st (fname, fcode) ->
  apply_file_change (fname, fcode) n st
  = Ok (S n) (after_output []
                [EvExists (PosixPath.join (projroot (self st)) fname);
                 EvRead (PosixPath.join (projroot (self st)) fname)] st).
Proof.
  intros Hup. rewrite apply_file_change_spec. cbv zeta.
  unfold up_to_date in Hup. cbn [fst snd] in Hup.
  rewrite (fs_read_exists _ _ _ _ Hup), Hup. by rewrite bool_decide_true.
Qed.

(** A round that counts the artifact found it up to date. *)
Lemma apply_file_change_counted (st st' : State) (fname fcode : str) (n : nat) :
  apply_file_change (fname, fcode) n st = Ok (S n) st' -> up_to_date st (fname, fcode).
Proof.
  rewrite apply_file_change_spec. cbv zeta. unfold up_to_date. cbn [fst snd].
  assert (Hn : forall (s1 : State), Ok (A:=nat) n s1 <> Ok (S n) st').
  { intros s1 [= Hn _]. lia. }
  destruct (FS.exists_ _ _ _).
  - destruct (FS.read _ _ _) as [f|data]; [done|].
    case_bool_decide as Hd; [by subst|].
    destruct (check (self st)).
    + destruct (FS.makedirs _ _ _) as [t1 [[f q]|]]; [done|].
      by destruct (FS.write _ _ _ _).
    + destruct (FS.write _ _ _ _); [done|]. intros Hrun. by apply Hn in Hrun.
  - destruct (check (self st)).
    + destruct (FS.makedirs _ _ _) as [t1 [[f q]|]]; [done|].
      by destruct (FS.write _ _ _ _).
    + destruct (FS.write _ _ _ _); [done|]. intros Hrun. by apply Hn in Hrun.
Qed.

Lemma universal_newlines_no_CR (s : str) (n : nat) :
  (length s <= n)%nat -> CR ∉ FS.universal_newlines s.
Proof.
  revert s. induction n as [|n IH]; intros s Hlen.
  { destruct s; [apply not_elem_of_nil|simpl in Hlen; lia]. }
  destruct s as [|c s]; [apply not_elem_of_nil|]. simpl in Hlen.
  cbn [FS.universal_newlines]. destruct (decide (c = CR)) as [->|Hc].
  - apply not_elem_of_cons. split; [done|].
    destruct s as [|c' s']; [apply not_elem_of_nil|].
    destruct (decide (c' = LF)); apply IH; simpl in *; lia.
  - apply not_elem_of_cons. split; [done|]. apply IH. lia.
Qed.

(** C4, amended -- an artifact with a regular file at its path, in every
    mode.  When the content of the file, read in text mode (CR LF and CR
    turned into LF), is the generated content with CR LF turned into LF, the
    round of the whole-file pass for the artifact tests for the file, reads
    it, counts the artifact as unchanged and does nothing else; so the pass,
    come to the artifact with [n] files counted, goes on with the artifacts
    after it from the same files and with [n + 1] counted.  When the two
    differ the artifact is not counted: a round that returns has written the
    file as generated.  For a file that holds, byte for byte, the generated
    content with CR LF turned into LF, the first is the case exactly when
    that content has no CR in it. *)
Theorem up_to_date_artifact_is_not_written
    (st : State) (fname fcode raw : str) (n : nat) :
  let path := PosixPath.join (projroot (self st)) fname in
  let fcodefin := PyStr.replace fcode [CR; LF] [LF] in
  FS.find (fs (world st)) (cwd (world st)) path = Some (FFile raw) ->
  (FS.universal_newlines raw = fcodefin ->
   let st' := after_output [] [EvExists path; EvRead path] st in
   apply_file_change (fname, fcode) n st = Ok (S n) st'
   /\ fs (world st') = fs (world st)
   /\ Forall (fun ev => is_write ev = false)
             (drop (length (trace (world st))) (trace (world st')))
   /\ (forall (st0 : State) (pre post : list (str * str)),
         for_fold pre 0%nat apply_file_change st0 = Ok n st ->
         for_fold (pre ++ (fname, fcode) :: post) 0%nat apply_file_change st0
         = for_fold post (S n) apply_file_change st'))
  /\ (FS.universal_newlines raw <> fcodefin ->
      forall n' st',
        apply_file_change (fname, fcode) n st = Ok n' st' ->
        n' = n
        /\ EvWrite path fcode ∈ trace (world st')
        /\ FS.find (fs (world st')) (cwd (world st')) path = Some (FFile fcode))
  /\ (fcodefin = raw -> FS.universal_newlines raw = fcodefin <-> CR ∉ raw).
Proof.
  intros path fcodefin Hfind.
  assert (Hread : FS.read (fs (world st)) (cwd (world st)) path
                  = inr (FS.universal_newlines raw)).
  { apply fs_read_inr. by exists raw. }
  split; [|split].
  - intros Heq st'.
    assert (Hup : up_to_date st (fname, fcode)).
    { unfold up_to_date. cbn [fst snd]. fold path fcodefin. by rewrite Hread, Heq. }
    split; [by apply apply_file_change_up_to_date|]. split; [done|]. split.
    + subst st'. simpl. rewrite drop_app_length. by repeat constructor.
    + intros st0 pre post Hpre. rewrite for_fold_app.
      erewrite bind_ok by exact Hpre. cbn [for_fold].
      by erewrite bind_ok by (by apply apply_file_change_up_to_date).
  - intros Hne n' st'. rewrite apply_file_change_spec. cbv zeta. fold path fcodefin.
    rewrite (fs_read_exists _ _ _ _ Hread), Hread.
    rewrite bool_decide_false by done.
    destruct (check (self st)).
    { destruct (FS.makedirs _ _ _) as [t1 [[f q]|]]; [done|].
      by destruct (FS.write _ _ _ _). }
    destruct (FS.write _ _ _ _) as [f|t'] eqn:Hw; [done|].
    intros [= <- <-]. split; [done|]. proj_simpl. split.
    + apply elem_of_app. right. cbn [app].
      do 2 apply list_elem_of_further. apply list_elem_of_here.
    + pose proof Hw as (l & Hloc & Hend & _ & _)%fs_write_inr.
      apply fs_find_Some. exists l.
      split; [by apply (fs_write_locate _ _ _ _ _ _ _ Hw)|].
      split; [by eapply fs_write_lookup|]. by rewrite Hend.
  - intros ->. split.
    + intros Heq. rewrite <- Heq.
      by apply (universal_newlines_no_CR raw (length raw)).
    + intros Hcr. by apply (universal_newlines_id (length raw)).
Qed.

(** When every artifact is up to date the whole pass only looks at the
    files and reports their number. *)
Lemma up_to_date_loop (items : list (str * str)) (n : nat) (st : State) :
  Forall (up_to_date st) items ->
  exists evs,
    for_fold items n apply_file_change st
    = Ok (length items + n)%nat (after_output [] evs st)
    /\ Forall (fun ev => is_write ev = false) evs.
Proof.
  revert n st. induction items as [|[f c] items IH]; intros n st Hall.
  { exists []. split; [by rewrite after_output_nil|constructor]. }
  apply Forall_cons in Hall as [Hup Hall]. cbn [for_fold].
  erewrite bind_ok by (by apply apply_file_change_up_to_date).
  destruct (IH (S n) (after_output []
                        [EvExists (PosixPath.join (projroot (self st)) f);
                         EvRead (PosixPath.join (projroot (self st)) f)] st))
    as (evs & Hrun & Hevs); [done|].
  eexists. split.
  - rewrite Hrun, after_output_after_output. cbn [length]. f_equal. lia.
  - apply Forall_app. split; [by repeat constructor|done].
Qed.

Lemma up_to_date_pass (st : State) :
  Forall (up_to_date st) (PyDict.items (_generated_files (self st))) ->
  exists evs,
    _apply_file_changes st
    = Ok tt (after_output
               (match _generated_files (self st) with
                | [] => []
                | items => [up_to_date_message (length items)]
                end) evs st)
    /\ Forall (fun ev => is_write ev = false) evs.
Proof.
  intros Hall. destruct (up_to_date_loop _ 0%nat st Hall) as (evs & Hrun & Hevs).
  exists evs. split; [|done].
  unfold _apply_file_changes. erewrite bind_ok by reflexivity.
  erewrite bind_ok by exact Hrun. unfold PyDict.items.
  destruct (_generated_files (self st)) as [|item items].
  - by rewrite bool_decide_false by (simpl; lia).
  - rewrite bool_decide_true by (simpl; lia).
    rewrite print_spec, after_output_after_output, Nat.add_0_r.
    by rewrite app_nil_r.
Qed.

End io_facts.
(** ** Making directories *)

Section makedirs_facts.
Implicit Types (t : fsnode) (l : FS.loc) (cwd name path : str).





Lemma length_dropwhile (p : ascii -> bool) (s : str) :
  (length (PyStr.dropwhile p s) <= length s)%nat.
Proof.
  induction s as [|c s IH]; [done|]. cbn [PyStr.dropwhile].
  destruct (p c); cbn [length]; lia.
Qed.

Lemma length_rstrip_char (c : ascii) (s : str) :
  (length (PyStr.rstrip_char c s) <= length s)%nat.
Proof.
  unfold PyStr.rstrip_char. rewrite length_reverse.
  etrans; [apply length_dropwhile|]. by rewrite length_reverse.
Qed.

Lemma length_dirname (p : str) : (length (PosixPath.dirname p) <= length p)%nat.
Proof.
  unfold PosixPath.dirname. cbv zeta.
  assert (length (take (PyStr.after_last SLASH p) p) <= length p)%nat
    by (rewrite length_take; lia).
  destruct (_ && _); [|done]. etrans; [apply length_rstrip_char|done].
Qed.

(** The directory part of a path with something after its last separator is
    shorter than the path. *)
Lemma dirname_shorter (p : str) :
  PosixPath.basename p <> [] -> (length (PosixPath.dirname p) < length p)%nat.
Proof.
  unfold PosixPath.basename, PosixPath.dirname. cbv zeta. intros Hb.
  assert (PyStr.after_last SLASH p < length p)%nat as Hlt.
  { destruct (decide (PyStr.after_last SLASH p < length p)%nat); [done|].
    destruct Hb. apply drop_ge. lia. }
  assert (length (take (PyStr.after_last SLASH p) p) < length p)%nat
    by (rewrite length_take; lia).
  destruct (_ && _); [|done].
  eapply Nat.le_lt_trans; [apply length_rstrip_char|done].
Qed.

(** The bound on the depth of [makedirs] is never reached: with the length
    of the name, or more, the result is the same. *)
Lemma makedirs_depth_enough (depth depth' : nat) t cwd name :
  (length name <= depth)%nat -> (length name <= depth')%nat ->
  FS.makedirs_go depth t cwd name = FS.makedirs_go depth' t cwd name.
Proof.
  revert depth' t name.
  induction depth as [|depth IH]; intros depth' t name Hd Hd'.
  { destruct name; [|simpl in Hd; lia]. by destruct depth'. }
  destruct depth' as [|depth'].
  { destruct name; [done|simpl in Hd'; lia]. }
  cbn [FS.makedirs_go].
  set (head := if bool_decide (PosixPath.basename name = []) then _ else _).
  set (tail := if bool_decide (PosixPath.basename name = []) then _ else _).
  destruct (negb (bool_decide (head = []))) eqn:Hhead; [|done].
  destruct (negb (bool_decide (tail = []))) eqn:Htail; [|done].
  destruct (negb (FS.exists_ t cwd head)); [|done]. cbn [andb].
  assert (length head < length name)%nat as Hlt.
  { apply negb_true_iff, bool_decide_eq_false in Htail. subst head tail.
    case_bool_decide.
    - eapply Nat.lt_le_trans; [by apply dirname_shorter|apply length_dirname].
    - by apply dirname_shorter. }
  by rewrite (IH depth' t head) by lia.
Qed.

End makedirs_facts.

(** ** The whole-file pass in check mode *)

Section check_mode.
Context `{C : Collaborators}.





End check_mode.
(** ** The line-correction pass in fix mode *)

Section fix_mode.
Context `{C : Collaborators}.




End fix_mode.

(** ** Reasoning about what a computation may change and raise *)

Section sound_facts.
Context {S : Type} (R : S -> S -> Prop) `{!PreOrder R} (P : exn -> Prop) (T : Prop).

Lemma sound_ret {A} (a : A) : sound R P T (mret a).
Proof. intros s. unfold mret, M_ret. reflexivity. Qed.

Lemma sound_raise {A} (e : exn) : P e -> sound R P T (raise (A:=A) e).
Proof. intros He s. unfold raise. split; [reflexivity|done]. Qed.

Lemma sound_bind {A B} (m : M S A) (k : A -> M S B) :
  sound R P T m -> (forall a, sound R P T (k a)) -> sound R P T (m ≫= k).
Proof.
  intros Hm Hk s. unfold mbind, M_bind. specialize (Hm s).
  destruct (m s) as [a s1|e s1|]; [|done..].
  specialize (Hk a s1). destruct (k a s1) as [b s2|e s2|]; [| |done].
  - by etrans.
  - destruct Hk. split; [by etrans|done].
Qed.

Lemma sound_get_state : sound R P T get_state.
Proof. intros s. unfold get_state. reflexivity. Qed.

Lemma sound_modify (f : S -> S) : (forall s, R s (f s)) -> sound R P T (modify f).
Proof. intros Hf s. apply Hf. Qed.

Lemma sound_assert (b : bool) : P AssertionError -> sound R P T (assert_ b).
Proof. intros HP. destruct b; [apply sound_ret|by apply sound_raise]. Qed.

Lemma sound_for_each {A} (l : list A) (body : A -> M S unit) :
  (forall x, sound R P T (body x)) -> sound R P T (for_each l body).
Proof.
  intros Hb. induction l as [|x l IH]; simpl; [apply sound_ret|].
  apply sound_bind; [apply Hb|done].
Qed.

Lemma sound_for_fold {A B} (l : list A) (acc : B) (body : A -> B -> M S B) :
  (forall x acc, sound R P T (body x acc)) -> sound R P T (for_fold l acc body).
Proof.
  intros Hb. revert acc. induction l as [|x l IH]; intros acc; simpl;
    [apply sound_ret|].
  apply sound_bind; [apply Hb|done].
Qed.

Lemma sound_filter_m {A} (cond : A -> M S bool) (l : list A) :
  (forall x, sound R P T (cond x)) -> sound R P T (filter_m cond l).
Proof.
  intros Hc. induction l as [|x l IH]; simpl; [apply sound_ret|].
  apply sound_bind; [apply Hc|intros b].
  apply sound_bind; [done|intros r]. apply sound_ret.
Qed.

End sound_facts.

Lemma sound_weaken {S A} (R R' : S -> S -> Prop) (P P' : exn -> Prop) (T T' : Prop)
    (m : M S A) :
  (forall s s', R s s' -> R' s s') -> (forall e, P e -> P' e) -> (T -> T') ->
  sound R P T m -> sound R' P' T' m.
Proof.
  intros HR HP HT Hm s. specialize (Hm s).
  destruct (m s) as [a s'|e s'|]; [by apply HR| |by apply HT].
  destruct Hm. split; [by apply HR|by apply HP].
Qed.

Section sound_state.
Context `{C : Collaborators}.
Context (RW : World -> World -> Prop) (R : State -> State -> Prop) `{!PreOrder R}.
Context (P : exn -> Prop) (T : Prop).
Context (HRW : forall st w', RW (world st) w' -> R st {| self := self st; world := w' |}).

Lemma sound_sys {A} (m : M World A) : sound RW P T m -> sound R P T (sys m).
Proof.
  intros Hm st. unfold sys. specialize (Hm (world st)).
  destruct (m (world st)) as [a w'|e w'|]; [by apply HRW| |done].
  destruct Hm. split; [by apply HRW|done].
Qed.

Lemma sound_get_self : sound R P T get_self.
Proof. intros st. unfold get_self. reflexivity. Qed.

Lemma sound_update_self (f : ProjectUpdater -> ProjectUpdater) :
  (forall st, R st {| self := f (self st); world := world st |}) ->
  sound R P T (update_self f).
Proof. intros Hf st. apply Hf. Qed.

Lemma sound_lift_exn {A} (r : exn + A) :
  (forall e, r = inl e -> P e) -> sound R P T (lift_exn r).
Proof.
  intros Hr. destruct r as [e|a]; simpl; [|apply sound_ret; apply _].
  apply sound_raise; [apply _|]. by apply Hr.
Qed.

End sound_state.

(** One step of a proof of [sound]: follow the shape of the computation. *)
Ltac sound_step :=
  lazymatch goal with
  | |- sound _ _ _ (mbind _ _) => apply sound_bind; [try apply _| |intros ?]
  | |- sound _ _ _ (mret _) => apply sound_ret; try apply _
  | |- sound _ _ _ get_state => apply sound_get_state; try apply _
  | |- sound _ _ _ get_self => apply sound_get_self; try apply _
  | |- sound _ _ _ (for_each _ _) => apply sound_for_each; [try apply _|intros ?]
  | |- sound _ _ _ (for_fold _ _ _) => apply sound_for_fold; [try apply _|intros ? ?]
  | |- sound _ _ _ (filter_m _ _) => apply sound_filter_m; [try apply _|intros ?]
  | |- sound _ _ _ (if ?b then _ else _) => destruct b
  | |- sound _ _ _ (match ?x with _ => _ end) => destruct x
  | |- sound _ _ _ (let '(_, _) := ?x in _) => destruct x
  end.
(** ** The apply phase outside fix mode *)

Section plain_mode.
Context `{C : Collaborators}.

Lemma report_auto_change_spec (i : nat) (change : str * _LineChange) (st : State) :
  let path := PosixPath.join (projroot (self st)) change.1 in
  report_auto_change i change st
  = match found_line st change with
    | inl e => Raise e (after_output (listed_entry i change) [EvRead path] st)
    | inr line =>
        Ok tt (after_output (listed_entry i change ++ [listed_found line]) [EvRead path] st)
    end.
Proof.
  intros path. unfold report_auto_change, found_line.
  erewrite bind_ok by reflexivity.
  erewrite bind_ok by apply print_spec.
  erewrite bind_ok by apply print_spec.
  rewrite after_output_after_output.
  unfold mbind at 1, M_bind at 1. rewrite sys_read_spec. proj_simpl. fold path.
  destruct (FS.read _ _ path) as [f|data].
  { by rewrite after_output_after_output. }
  rewrite after_output_after_output.
  destruct (PyList.getitem _ _) as [line|]; cbn [or_raise lift_exn].
  - unfold mbind at 1, M_bind at 1. cbn [mret M_ret]. rewrite print_spec.
    by rewrite after_output_after_output.
  - done.
Qed.

Lemma listing_spec (st : State) (changes : list (str * _LineChange)) :
  forall (i : nat) (out0 : list str) (evs0 : list event),
    for_each (enumerate_from i changes) (fun ic => report_auto_change ic.1 ic.2)
      (after_output out0 evs0 st)
    = match listing st i changes with
      | (out, evs, None) => Ok tt (after_output (out0 ++ out) (evs0 ++ evs) st)
      | (out, evs, Some e) => Raise e (after_output (out0 ++ out) (evs0 ++ evs) st)
      end.
Proof.
  induction changes as [|change rest IH]; intros i out0 evs0.
  - cbn [enumerate_from for_each listing]. by rewrite !app_nil_r.
  - cbn [enumerate_from for_each listing].
    unfold mbind at 1, M_bind at 1. cbn [fst snd].
    rewrite report_auto_change_spec.
    change (found_line (after_output out0 evs0 st) change) with (found_line st change).
    change (projroot (self (after_output out0 evs0 st))) with (projroot (self st)).
    destruct (found_line st change) as [e|line].
    + by rewrite after_output_after_output.
    + rewrite after_output_after_output, IH.
      destruct (listing st (S i) rest) as [[out evs] [e|]];
        by rewrite <- !app_assoc.
Qed.

Lemma listing_reads (st : State) (changes : list (str * _LineChange)) (i : nat) :
  Forall (fun ev => is_write ev = false) (listing st i changes).1.2.
Proof.
  revert i. induction changes as [|change rest IH]; intros i; cbn [listing].
  - constructor.
  - destruct (found_line st change).
    + by repeat constructor.
    + specialize (IH (S i)). destruct (listing st (S i) rest) as [[out evs] e].
      by constructor.
Qed.

Lemma listing_found (st : State) (changes : list (str * _LineChange)) (lines : list str) :
  Forall2 (fun change line => found_line st change = inr line) changes lines ->
  forall i,
    listing st i changes
    = (concat (imap (fun k cl => listed_entry (i + k) cl.1 ++ [listed_found cl.2])
                 (zip changes lines)),
       map (fun change => EvRead (PosixPath.join (projroot (self st)) change.1)) changes,
       None).
Proof.
  induction 1 as [|change line rest lines' Hf _ IH]; intros i; [done|].
  cbn [listing zip zip_with map]. rewrite Hf, (IH (S i)).
  rewrite imap_cons. cbn [concat fst snd].
  rewrite Nat.add_0_r. rewrite <- app_assoc. cbn [app].
  do 5 f_equal. apply imap_ext. intros k cl _. cbn [compose]. do 2 f_equal. lia.
Qed.

(** C3, as the code has it -- outside fix mode (plain mode in particular),
    with a ledger that is not empty and holds only auto-fixable corrections,
    the apply phase ends in the line-correction pass.  The corrections are
    listed on the output in the order of the ledger, each with its number
    from 0, its file and 1-based line, the expected text and the line found
    in the file; the files are only read for that.  Then [CleanError] with
    the count is raised; if a file cannot be read or lacks the line, the
    listing stops there, after the two lines of that entry, with the
    exception of the failure.  The whole-file pass is not reached: the file
    tree is the one before, and no file is written, neither for a correction
    nor for an out-of-date artifact. *)
Theorem unfixed_corrections_stop_the_apply_phase (st : State) :
  fix_ (self st) = false ->
  flat_changes false (_line_corrections (self st)) = [] ->
  flat_changes true (_line_corrections (self st)) <> [] ->
  let autos := flat_changes true (_line_corrections (self st)) in
  exists out evs failure,
    listing st 0 autos = (out, evs, failure)
    /\ apply_phase st
       = Raise (default (CleanError (auto_fixable_message (length autos))) failure)
               (after_output out evs st)
    /\ Forall (fun ev => is_write ev = false) evs
    /\ (forall lines,
          Forall2 (fun change line => found_line st change = inr line) autos lines ->
          failure = None
          /\ out = concat (imap (fun i cl => listed_entry i cl.1 ++ [listed_found cl.2])
                             (zip autos lines))
          /\ evs = map (fun change =>
                          EvRead (PosixPath.join (projroot (self st)) change.1)) autos).
Proof.
  intros Hfix Hman Hauto autos.
  destruct (listing st 0 autos) as [[out evs] failure] eqn:Hl.
  exists out, evs, failure. split; [done|].
  split; [|split].
  - pose proof (listing_spec st autos 0 [] []) as Hloop.
    rewrite after_output_nil, Hl in Hloop. cbn [app] in Hloop.
    unfold apply_phase, _apply_line_changes.
    erewrite bind_raise; [reflexivity|].
    erewrite bind_ok by reflexivity.
    rewrite Hman. fold autos. rewrite Hfix.
    erewrite bind_ok by reflexivity.
    destruct autos as [|c0 cs] eqn:Ha; [done|]. rewrite <- Ha in *. cbn [negb].
    erewrite bind_raise; [reflexivity|].
    erewrite bind_raise; [reflexivity|].
    destruct failure as [e|]; cbn [default].
    + by erewrite bind_raise by exact Hloop.
    + by erewrite bind_ok by exact Hloop.
  - pose proof (listing_reads st autos 0) as Hr. by rewrite Hl in Hr.
  - intros lines Hlines.
    pose proof (listing_found st autos lines Hlines 0) as Hf.
    rewrite Hl in Hf. by simplify_eq.
Qed.

End plain_mode.

(** ** Construction *)

#[global] Instance any_change_preorder {S} : PreOrder (@any_change S).
Proof. split; by repeat intros ?. Qed.

Section construction.
Context `{C : Collaborators}.

Lemma any_modify {S} (f : S -> S) P T : sound any_change P T (modify f).
Proof. by apply sound_modify. Qed.

Lemma any_sys {A} (m : M World A) P T :
  sound any_change P T m -> sound any_change P T (sys m).
Proof. apply (sound_sys any_change any_change). done. Qed.

Lemma any_update_self f P T : sound any_change P T (update_self f).
Proof. by apply sound_update_self. Qed.

Lemma any_exists path P T : sound any_change P T (Sys.exists_ path).
Proof.
  unfold Sys.exists_, Sys.emit.
  sound_step; [apply any_modify|]. sound_step; [sound_step|sound_step].
Qed.

Lemma any_read_config which reader root T :
  sound any_change not_mode_conflict T (read_config which reader root).
Proof.
  unfold read_config, Sys.emit, Sys.call.
  sound_step; [sound_step|]. sound_step; [apply any_modify|].
  sound_step; [|sound_step]. by apply sound_raise; [apply _|].
Qed.

Lemma any_enqueue_update path data P T : sound any_change P T (enqueue_update path data).
Proof. apply any_update_self. Qed.

Lemma any_on_object u (m : M State unit) P T :
  sound any_change P T m -> sound any_change P T (on_object u m).
Proof.
  intros Hm w. unfold on_object. specialize (Hm {| self := u; world := w |}).
  destruct (m _) as [a st|e st|]; [done| |done]. by destruct Hm.
Qed.

Ltac any_step :=
  first
    [ sound_step
    | apply any_enqueue_update
    | apply any_update_self
    | apply any_sys, any_exists
    | apply sound_assert; [apply _|done]
    | apply sound_raise; [apply _|done] ].

Lemma any_updates T :
  sound any_change not_mode_conflict T
    (_update_meta_makefile ;;
     _update_resources_makefile ;;
     _update_assets_makefile ;;
     _update_top_level_makefile ;;
     _update_cmake_files ;;
     _update_visual_studio_projects ;;
     _update_xcode_projects ;;
     _update_app_module).
Proof.
  unfold _update_meta_makefile, _update_resources_makefile, _update_assets_makefile,
    _update_top_level_makefile, _update_cmake_files, _update_visual_studio_projects,
    _update_visual_studio_project, _update_xcode_projects, _update_app_module.
  repeat any_step.
Qed.

Lemma init_rest_never_mode_conflict projroot_arg check_arg fix_arg empty projname_arg :
  fix_arg && check_arg = false ->
  sound any_change not_mode_conflict True
    (__init__ projroot_arg check_arg fix_arg empty projname_arg).
Proof.
  intros Hmode. unfold __init__. rewrite Hmode.
  sound_step; [sound_step|].
  sound_step; [sound_step|].
  sound_step; [apply any_read_config|].
  sound_step.
  { destruct (default _ _); [sound_step| |]; by apply sound_raise; [apply _|]. }
  sound_step; [apply any_read_config|].
  destruct empty; [sound_step|].
  apply any_on_object, any_updates.
Qed.

(** C7 -- constructing a [ProjectUpdater] with both [check] and [fix] raises
    the configuration error at once: the world is as it was, nothing has been
    read or written.  With at most one of the two set, whatever the
    constructor may raise, it is not that error. *)
Theorem both_modes_is_an_error_at_construction :
  (forall projroot_arg empty projname_arg w,
      __init__ projroot_arg true true empty projname_arg w = Raise mode_conflict w)
  /\ (forall projroot_arg check_arg fix_arg empty projname_arg w,
        check_arg && fix_arg = false ->
        match __init__ projroot_arg check_arg fix_arg empty projname_arg w with
        | Raise e _ => e <> mode_conflict
        | _ => True
        end).
Proof.
  split.
  - intros. reflexivity.
  - intros projroot_arg check_arg fix_arg empty projname_arg w Hmode.
    pose proof (init_rest_never_mode_conflict projroot_arg check_arg fix_arg empty
                  projname_arg) as Hs.
    rewrite andb_comm in Hmode. specialize (Hs Hmode w).
    destruct (__init__ _ _ _ _ _ w); [done| |done]. by destruct Hs.
Qed.

End construction.

(** ** What generating files leaves alone *)

#[global] Instance quiet_preorder : PreOrder quiet.
Proof.
  split.
  - by intros w.
  - intros w1 w2 w3 (? & ? & ?) (? & ? & ?). repeat split; congruence.
Qed.

Section generating.
Context `{C : Collaborators}.

#[global] Instance same_settings_preorder : PreOrder same_settings.
Proof.
  split.
  - intros u. by repeat split.
  - intros u1 u2 u3 H1 H2. unfold same_settings in *.
    destruct H1 as (? & ? & ? & ? & ? & ? & ? & ? & ? & ? & ? & ?).
    destruct H2 as (? & ? & ? & ? & ? & ? & ? & ? & ? & ? & ? & ?).
    repeat split; congruence.
Qed.

#[global] Instance generating_preorder : PreOrder generating.
Proof.
  split.
  - intros st. split; reflexivity.
  - intros st1 st2 st3 [? ?] [? ?]. split; by etrans.
Qed.

Lemma generating_lift st w' :
  quiet (world st) w' -> generating st {| self := self st; world := w' |}.
Proof. intros Hq. split; [reflexivity|done]. Qed.

Lemma quiet_emit ev P T : sound quiet P T (Sys.emit ev).
Proof. by apply sound_modify. Qed.

Lemma quiet_call {A} who (r : str + A) T : sound quiet any_exn T (Sys.call who r).
Proof. destruct r; simpl; [by apply sound_raise; [apply _|]|apply sound_ret; apply _]. Qed.

Lemma quiet_read_text path T : sound quiet any_exn T (Sys.read_text path).
Proof.
  unfold Sys.read_text.
  sound_step; [apply quiet_emit|]. sound_step; [sound_step|].
  sound_step; [|sound_step]. by apply sound_raise; [apply _|].
Qed.

Lemma generating_sys {A} (m : M World A) T :
  sound quiet any_exn T m -> sound generating any_exn T (sys m).
Proof. apply (sound_sys quiet generating). apply generating_lift. Qed.

Lemma generating_update_self f T :
  (forall u, same_settings u (f u)) -> sound generating any_exn T (update_self f).
Proof.
  intros Hf. apply sound_update_self. intros st. split; [apply Hf|reflexivity].
Qed.

Lemma generating_raise {A} e T : sound generating any_exn T (raise (A:=A) e).
Proof. by apply sound_raise; [apply _|]. Qed.

Lemma generating_lift_exn {A} (r : exn + A) T : sound generating any_exn T (lift_exn r).
Proof. by apply sound_lift_exn; [apply _|]. Qed.

Lemma generating_assert b T : sound generating any_exn T (assert_ b).
Proof. by apply sound_assert; [apply _|]. Qed.

Lemma generating_set_generated path content T :
  sound generating any_exn T (set_generated path content).
Proof. apply generating_update_self. intros u. by repeat split. Qed.

Ltac gen_step :=
  first
    [ sound_step
    | apply generating_set_generated
    | apply generating_raise
    | apply generating_lift_exn
    | apply generating_assert
    | apply generating_sys, quiet_call
    | apply generating_sys, quiet_emit
    | apply generating_sys, quiet_read_text
    | apply generating_sys, sound_get_state; apply _
    | apply generating_update_self; intros ?; by repeat split ].

Lemma generating_set_generated_all outfiles T :
  sound generating any_exn T (set_generated_all outfiles).
Proof. unfold set_generated_all. repeat gen_step. Qed.

Lemma generating_call_renderer {A} who (f : fsnode -> str -> str + A) T :
  sound generating any_exn T (call_renderer who f).
Proof. unfold call_renderer. repeat gen_step. Qed.

Lemma generating_source_files T : sound generating any_exn T source_files.
Proof. unfold source_files. repeat gen_step. Qed.

Lemma generating_header_files T : sound generating any_exn T header_files.
Proof. unfold header_files. repeat gen_step. Qed.

Lemma generating_feature_sets T : sound generating any_exn T feature_sets.
Proof. unfold feature_sets. repeat gen_step. Qed.

Lemma generating_read_config which reader root T :
  sound generating any_exn T (sys (read_config which reader root)).
Proof.
  apply generating_sys. unfold read_config.
  sound_step; [sound_step|]. sound_step; [apply quiet_emit|apply quiet_call].
Qed.

Lemma generating_internal_source_files T :
  sound generating any_exn T _get_internal_source_files.
Proof.
  unfold _get_internal_source_files.
  repeat first [gen_step | apply generating_read_config].
Qed.

Lemma generating_internal_source_dirs T :
  sound generating any_exn T _get_internal_source_dirs.
Proof.
  unfold _get_internal_source_dirs.
  repeat first [gen_step | apply generating_read_config].
Qed.

Lemma generating_is_public_source_file filename T :
  sound generating any_exn T (_is_public_source_file filename).
Proof.
  unfold _is_public_source_file.
  repeat first [gen_step | apply generating_internal_source_dirs
                | apply generating_internal_source_files].
Qed.

Ltac gen_auto :=
  repeat first
    [ gen_step
    | apply generating_set_generated_all
    | apply generating_call_renderer
    | apply generating_source_files
    | apply generating_header_files
    | apply generating_feature_sets
    | apply generating_is_public_source_file ].

Lemma generating_xcode_project path existing T :
  sound generating any_exn T (_generate_xcode_project path existing).
Proof. unfold _generate_xcode_project. gen_auto. Qed.

Lemma generating_visual_studio_project fname existing T :
  sound generating any_exn T (_generate_visual_studio_project fname existing).
Proof. unfold _generate_visual_studio_project. gen_auto. Qed.

Lemma generating_visual_studio_project_filters gen fname existing T :
  (forall p, sound generating any_exn T (gen p)) ->
  sound generating any_exn T (_generate_visual_studio_project_filters gen fname existing).
Proof. intros Hgen. unfold _generate_visual_studio_project_filters. gen_auto. apply Hgen. Qed.

Lemma generating_cmake_file fname existing T :
  sound generating any_exn T (_generate_cmake_file fname existing).
Proof. unfold _generate_cmake_file. gen_auto. Qed.

Lemma generating_assets_makefile gen path existing T :
  (forall p, sound generating any_exn T (gen p)) ->
  sound generating any_exn T (_generate_assets_makefile gen path existing).
Proof. intros Hgen. unfold _generate_assets_makefile. gen_auto. apply Hgen. Qed.

Lemma generating_top_level_makefile path existing T :
  sound generating any_exn T (_generate_top_level_makefile path existing).
Proof. unfold _generate_top_level_makefile. gen_auto. Qed.

Lemma generating_app_module path existing T :
  sound generating any_exn T (_generate_app_module path existing).
Proof. unfold _generate_app_module. gen_auto. Qed.

Lemma generating_meta_makefile existing T :
  sound generating any_exn T (_generate_meta_makefile existing).
Proof. unfold _generate_meta_makefile. gen_auto. Qed.

Lemma generating_resources_makefile path existing T :
  sound generating any_exn T (_generate_resources_makefile path existing).
Proof. unfold _generate_resources_makefile. gen_auto. Qed.

(** Whatever the fuel and the outcome, [generate_file] changes neither the
    files nor the queue, the ledger or the settings of the object. *)
Lemma generating_generate_file fuel path :
  sound generating any_exn True (generate_file_fuel fuel path).
Proof.
  revert path. induction fuel as [|fuel IH]; intros path; [by intros st|].
  cbn [generate_file_fuel]. unfold generate_file_body.
  repeat first
    [ gen_step
    | apply IH
    | apply generating_xcode_project
    | apply generating_visual_studio_project
    | apply generating_visual_studio_project_filters; apply IH
    | apply generating_cmake_file
    | apply generating_assets_makefile; apply IH
    | apply generating_top_level_makefile
    | apply generating_app_module
    | apply generating_meta_makefile
    | apply generating_resources_makefile
    | apply generating_set_generated ].
Qed.

End generating.

(** ** Memoization and the queue *)

Section bind_inversion.
Context {S : Type}.

Lemma bind_Ok_inv {A B} (m : M S A) (k : A -> M S B) s b s' :
  (m ≫= k) s = Ok b s' -> exists a s1, m s = Ok a s1 /\ k a s1 = Ok b s'.
Proof.
  unfold mbind, M_bind. destruct (m s) as [a s1| |]; [|done..]. eauto.
Qed.

End bind_inversion.

Lemma dict_eqb_true {V} `{EqDecision V} (d1 d2 : PyDict.t V) :
  PyDict.eqb d1 d2 = true -> forall k, PyDict.get d1 k = PyDict.get d2 k.
Proof.
  unfold PyDict.eqb. rewrite forallb_forall. intros Hall k.
  destruct (decide (k ∈ PyDict.keys d1 ++ PyDict.keys d2)) as [Hin|Hout].
  - apply list_elem_of_In in Hin. apply Hall in Hin.
    by apply bool_decide_eq_true in Hin.
  - apply not_elem_of_app in Hout as [H1 H2].
    apply dict_get_None_keys in H1, H2. congruence.
Qed.

Section memo.
Context `{C : Collaborators}.

Lemma dict_mem_true {V} (d : PyDict.t V) k v :
  PyDict.get d k = Some v -> PyDict.mem d k = true.
Proof. intros Hg. unfold PyDict.mem. apply bool_decide_eq_true. rewrite Hg. eauto. Qed.

(** C2 -- after a call of [generate_file] for a path has returned, a second
    call for that path returns the same content straight from the cache: the
    state is the one the first call left, trace included, so nothing was read
    and no renderer was dispatched again. *)
Theorem generate_file_is_memoized
    (fuel fuel' : nat) (path content : str) (st st' : State) :
  generate_file_fuel fuel path st = Ok content st' ->
  generate_file_fuel (S fuel') path st' = Ok content st'
  /\ PyDict.get (_generated_files (self st')) path = Some content
  /\ trace (world (state_of (generate_file_fuel (S fuel') path st') st'))
     = trace (world st').
Proof.
  intros Hfirst.
  pose proof (generating_generate_file fuel path st) as Hframe.
  rewrite Hfirst in Hframe.
  destruct Hframe as [(_ & _ & _ & _ & _ & _ & _ & _ & _ & Hflag & _) _].
  destruct fuel as [|fuel]; [done|]. cbn [generate_file_fuel] in Hfirst. unfold generate_file_body in Hfirst.
  apply bind_Ok_inv in Hfirst as (u & s0 & [= <- <-] & Hfirst).
  apply bind_Ok_inv in Hfirst as ([] & s1 & Hcan & Hfirst).
  destruct (_can_generate_files (self st)) eqn:Hcan'; [|done].
  apply bind_Ok_inv in Hfirst as ([] & s2 & _ & Hfirst).
  apply bind_Ok_inv in Hfirst as (u' & s3 & [= <- <-] & Hfirst).
  destruct (PyDict.get (_generated_files (self s2)) path) as [c|] eqn:Hget; [|done].
  injection Hfirst as <- <-.
  assert (generate_file_fuel (S fuel') path s2 = Ok c s2) as Hsecond.
  { cbn [generate_file_fuel]. unfold generate_file_body.
    erewrite bind_ok by reflexivity. rewrite Hflag. cbn [negb].
    erewrite bind_ok by reflexivity.
    rewrite (dict_mem_true _ _ _ Hget). cbn [negb].
    erewrite bind_ok by reflexivity.
    erewrite bind_ok by reflexivity.
    by rewrite Hget. }
  split; [done|]. split; [done|]. by rewrite Hsecond.
Qed.

#[global] Instance same_queue_preorder : PreOrder same_queue.
Proof.
  split; [by intros st|]. intros st1 st2 st3. unfold same_queue. congruence.
Qed.

Lemma generating_same_queue st st' : generating st st' -> same_queue st st'.
Proof. intros [(_ & _ & _ & _ & _ & _ & _ & Hq & _) _]. done. Qed.

Lemma same_queue_sys {A} (m : M World A) :
  sound any_change any_exn True m -> sound same_queue any_exn True (sys m).
Proof. apply (sound_sys any_change same_queue). done. Qed.

Lemma any_emit ev T : sound any_change any_exn T (Sys.emit ev).
Proof. by apply sound_modify. Qed.

Lemma same_queue_prepare_to_generate :
  sound same_queue any_exn True prepare_to_generate.
Proof.
  unfold prepare_to_generate, _find_sources_and_headers, Sys.isdir, Sys.walk.
  repeat first
    [ sound_step
    | apply sound_raise; [apply _|done]
    | apply same_queue_sys
    | apply any_emit
    | apply sound_update_self; by intros ? ].
Qed.

End memo.

Section queue.
Context `{C : Collaborators} `{K : @Checks C}.

(** C8 -- the queue of updates is not touched while files are generated, in
    the loop of [run] or in any call, nested ones included; and when [run]
    gets as far as the apply phase, the queue is what it was when the run
    began, key by key: the checks have not changed it either. *)
Theorem queue_is_unchanged_up_to_the_apply_phase :
  (forall (paths : list str) (st : State),
      _enqueued_updates
        (self (state_of (for_each paths (fun path => generate_file path ;; mret tt) st) st))
      = _enqueued_updates (self st))
  /\ (forall st st' : State,
        run_generate_and_check st = Ok tt st' ->
        forall path,
          PyDict.get (_enqueued_updates (self st')) path
          = PyDict.get (_enqueued_updates (self st)) path).
Proof.
  split.
  - intros paths st.
    assert (sound generating any_exn True
              (for_each paths (fun path => generate_file path ;; mret tt))) as Hs.
    { apply sound_for_each; [apply _|]. intros p.
      apply sound_bind; [apply _|apply generating_generate_file|].
      intros ?. apply sound_ret. apply _. }
    specialize (Hs st).
    destruct (for_each paths _ st) as [a s1|e s1|]; simpl; [| |done].
    + by apply generating_same_queue.
    + destruct Hs as [Hs _]. by apply generating_same_queue.
  - intros st st' Hrun path. unfold run_generate_and_check in Hrun.
    apply bind_Ok_inv in Hrun as ([] & s1 & Hprep & Hrun).
    pose proof (same_queue_prepare_to_generate st) as Hq1. rewrite Hprep in Hq1.
    apply bind_Ok_inv in Hrun as (u & s1' & [= <- <-] & Hrun).
    apply bind_Ok_inv in Hrun as ([] & s2 & Hloop & Hrun).
    apply bind_Ok_inv in Hrun as (u2 & s2' & [= <- <-] & Hrun).
    apply bind_Ok_inv in Hrun as ([] & s3 & Hchecks & Hrun).
    apply bind_Ok_inv in Hrun as ([] & s4 & [= <-] & Hrun).
    apply bind_Ok_inv in Hrun as (u4 & s4' & [= <- <-] & Hrun).
    cbn [self with_can_generate_files _enqueued_updates] in Hrun.
    unfold assert_ in Hrun.
    destruct (PyDict.eqb _ _) eqn:Heq; [|done].
    injection Hrun as <-.
    cbn [self with_can_generate_files _enqueued_updates].
    rewrite <- (dict_eqb_true _ _ Heq path). by rewrite Hq1.
Qed.

End queue.

(** ** The walk over the tree *)

Section walk.

(** Induction over a tree with the hypothesis for every entry of a
    directory. *)
Lemma fsnode_rect_entries (P : fsnode -> Prop) :
  (forall data, P (FFile data)) ->
  (forall es, Forall (fun e => P e.2) es -> P (FDir es)) ->
  forall t, P t.
Proof.
  intros Hfile Hdir. fix IH 1. intros [data|es]; [apply Hfile|].
  apply Hdir. induction es as [|[n c] es IHes]; constructor; [apply IH|apply IHes].
Qed.

Lemma walk_tree_dir (top : str) (es : list (str * fsnode)) :
  FS.walk_tree top (FDir es)
  = (top, FS.dirnames es, FS.filenames es)
    :: flat_map (fun e => FS.walk_tree (PosixPath.join top e.1) e.2) es.
Proof.
  reflexivity.
Qed.

Lemma wf_dir (es : list (str * fsnode)) :
  FS.wf (FDir es) <-> NoDup es.*1 /\ Forall (fun e => FS.valid_name e.1 /\ FS.wf e.2) es.
Proof.
  cbn [FS.wf]. apply and_iff_compat_l.
  induction es as [|e es IH]; [by split; [constructor|]|].
  rewrite Forall_cons, <- IH. tauto.
Qed.

Lemma elem_of_filenames (es : list (str * fsnode)) (f : str) :
  f ∈ FS.filenames es <-> exists data, (f, FFile data) ∈ es.
Proof.
  unfold FS.filenames. rewrite list_elem_of_omap. split.
  - intros ([n [data|es']] & Hin & Hf); simplify_eq/=. eauto.
  - intros (data & Hin). exists (f, FFile data). by split.
Qed.

Lemma startswith_slash_valid (n : str) : FS.valid_name n -> PyStr.startswith n "/" = false.
Proof.
  intros (_ & Hs & _). apply bool_decide_eq_false. intros [k ->].
  apply Hs. apply elem_of_cons. by left.
Qed.

Lemma endswith_slash_app_valid (top n : str) :
  FS.valid_name n -> PyStr.endswith (top ++ "/" ++ n) "/" = false.
Proof.
  intros (Hne & Hs & _). apply bool_decide_eq_false. intros [k Hk].
  apply Hs. destruct (decide (n = [])) as [->|_]; [done|].
  assert (last (top ++ "/" ++ n) = last n) as Hl1.
  { rewrite app_assoc. destruct n using rev_ind; [done|].
    by rewrite !app_assoc, !last_snoc. }
  rewrite Hk in Hl1. change (k ++ "/") with (k ++ [SLASH]) in Hl1.
  rewrite last_snoc in Hl1. symmetry in Hl1.
  apply last_Some in Hl1 as (l' & ->). apply elem_of_app. right.
  apply elem_of_cons. by left.
Qed.

Lemma join_plain (top n : str) :
  FS.plain_root top -> PyStr.startswith n "/" = false ->
  PosixPath.join top n = top ++ "/" ++ n.
Proof.
  intros [Hne Hend] Hn. unfold PosixPath.join. rewrite Hn, Hend.
  by rewrite bool_decide_false.
Qed.

Lemma plain_root_join (top n : str) :
  FS.plain_root top -> FS.valid_name n -> FS.plain_root (top ++ "/" ++ n).
Proof.
  intros Htop Hn. split; [by destruct top|]. by apply endswith_slash_app_valid.
Qed.

(** The files the walk reports are the files of the tree, each under the
    directory it is in. *)
Lemma walk_tree_files (t : fsnode) :
  forall top root f,
    FS.wf t -> FS.plain_root top ->
    (exists dirs files, (root, dirs, files) ∈ FS.walk_tree top t /\ f ∈ files)
    <-> exists names, FS.file_at t (names ++ [f]) /\ root = top ++ FS.rel_path names.
Proof.
  induction t as [data|es IH] using fsnode_rect_entries; intros top root f Hwf Htop.
  { split.
    - intros (dirs & files & Hin & _). by apply elem_of_nil in Hin.
    - intros (names & Hat & _). inversion Hat. }
  apply wf_dir in Hwf as [_ Hwf]. rewrite walk_tree_dir. split.
  - intros (dirs & files & Hin & Hf).
    apply elem_of_cons in Hin as [[= -> -> ->]|Hin].
    + apply elem_of_filenames in Hf as (data & Hf).
      exists []. split; [by eapply FS.file_here|by rewrite app_nil_r].
    + apply list_elem_of_In, in_flat_map in Hin as ([n c] & Hin & Hw).
      apply list_elem_of_In in Hin, Hw.
      rewrite Forall_forall in IH, Hwf.
      destruct (Hwf _ Hin) as [Hn Hc]. cbn [fst snd] in *.
      rewrite (join_plain top n Htop (startswith_slash_valid _ Hn)) in Hw.
      destruct (proj1 (IH _ Hin (top ++ "/" ++ n) root f Hc (plain_root_join _ _ Htop Hn)))
        as (names & Hat & ->); [eauto|].
      destruct c as [data|es']; [inversion Hat; by destruct names|].
      exists (n :: names). split; [by eapply FS.file_below|].
      cbn [FS.rel_path]. by rewrite <- !app_assoc.
  - intros (names & Hat & ->).
    destruct names as [|n names]; cbn [app] in Hat.
    + inversion Hat as [es0 n0 data Hin|es0 n0 es' names0 Hin Hat']; subst.
      * exists (FS.dirnames es), (FS.filenames es). split.
        -- apply elem_of_cons. left. by rewrite app_nil_r.
        -- apply elem_of_filenames. eauto.
      * inversion Hat'.
    + inversion Hat as [es0 n0 data Hin Heq|es0 n0 es' names0 Hin Hat']; subst.
      { by destruct names. }
      rewrite Forall_forall in IH, Hwf.
      destruct (Hwf _ Hin) as [Hn Hc]. cbn [fst snd] in *.
      destruct (proj2 (IH _ Hin (top ++ "/" ++ n) (top ++ FS.rel_path (n :: names)) f Hc
                         (plain_root_join _ _ Htop Hn)))
        as (dirs & files & Hw & Hf).
      { exists names. split; [done|]. cbn [FS.rel_path]. by rewrite <- !app_assoc. }
      exists dirs, files. split; [|done].
      apply elem_of_cons. right. apply list_elem_of_In, in_flat_map.
      exists (n, FDir es'). split; [by apply list_elem_of_In|].
      apply list_elem_of_In. cbn [fst snd].
      by rewrite (join_plain top n Htop (startswith_slash_valid _ Hn)).
Qed.

(** Names on the way to a file of a well-formed tree are valid. *)
Lemma file_at_valid (t : fsnode) (names : list str) :
  FS.wf t -> FS.file_at t names -> Forall FS.valid_name names.
Proof.
  intros Hwf Hat. induction Hat as [es n data Hin|es n es' names Hin Hat IH].
  - apply wf_dir in Hwf as [_ Hwf]. rewrite Forall_forall in Hwf.
    destruct (Hwf _ Hin) as [Hn _]. constructor; [done|constructor].
  - apply wf_dir in Hwf as [_ Hwf]. rewrite Forall_forall in Hwf.
    destruct (Hwf _ Hin) as [Hn Hc]. constructor; [done|]. by apply IH.
Qed.

Lemma wf_lookup (t : fsnode) (l : FS.loc) (t' : fsnode) :
  FS.wf t -> FS.lookup t l = Some t' -> FS.wf t'.
Proof.
  revert t. induction l as [|c cs IH]; intros t Hwf; simpl.
  - by intros [= <-].
  - destruct t as [?|es]; [done|].
    destruct (PyDict.get es c) as [t0|] eqn:Hg; [|done].
    apply IH. apply wf_dir in Hwf as [_ Hwf]. rewrite Forall_forall in Hwf.
    apply dict_get_Some_elem_of in Hg. by destruct (Hwf _ Hg).
Qed.

End walk.

(** ** The source scan *)

Section scan.
Context `{C : Collaborators}.
Import PyStr.

Lemma contains_spec (sub s : str) :
  contains sub s = true <-> exists a b : str, s = a ++ sub ++ b.
Proof.
  induction s as [|c s IH]; cbn [contains].
  - rewrite orb_false_r, startswith_prefix. split.
    + intros [k Hk]. exists [], k. done.
    + intros (a & b & Hab). symmetry in Hab.
      apply app_eq_nil in Hab as [-> Hab]. apply app_eq_nil in Hab as [-> ->].
      by exists [].
  - rewrite orb_true_iff, startswith_prefix, IH. split.
    + intros [[k Hk]|(a & b & ->)].
      * exists [], k. done.
      * exists (c :: a), b. done.
    + intros (a & b & Hab). destruct a as [|c' a].
      * left. exists b. done.
      * right. injection Hab as -> ->. eauto.
Qed.

Lemma has_ext_spec (es : list str) (name : str) :
  has_ext es name = true <-> exists ext, ext ∈ es /\ ext `suffix_of` name.
Proof.
  unfold has_ext. rewrite existsb_exists. split.
  - intros (ext & Hin & He). exists ext. split; [by apply list_elem_of_In|].
    by apply endswith_suffix.
  - intros (ext & Hin & He). exists ext. split; [by apply list_elem_of_In|].
    by apply endswith_suffix.
Qed.

(** The two sets after the loops. *)
Lemma scan_file_fst scan_dir root acc f :
  (scan_file scan_dir root acc f).1
  = if has_ext exts f
    then acc.1 ∪ {[ drop (length scan_dir) (PosixPath.join root f) ]} else acc.1.
Proof. unfold scan_file. by destruct (has_ext exts f), (has_ext header_exts f). Qed.

Lemma scan_file_snd scan_dir root acc f :
  (scan_file scan_dir root acc f).2
  = if has_ext header_exts f
    then acc.2 ∪ {[ drop (length scan_dir) (PosixPath.join root f) ]} else acc.2.
Proof. unfold scan_file. by destruct (has_ext exts f), (has_ext header_exts f). Qed.

Lemma elem_of_scan_files_fst scan_dir root files acc s :
  s ∈ (foldl (scan_file scan_dir root) acc files).1
  <-> s ∈ acc.1
      \/ exists f, f ∈ files /\ has_ext exts f = true
                   /\ s = drop (length scan_dir) (PosixPath.join root f).
Proof.
  revert acc. induction files as [|f files IH]; intros acc; cbn [foldl].
  - split; [by left|]. intros [?|(f & Hf & _)]; [done|]. by apply elem_of_nil in Hf.
  - rewrite IH, scan_file_fst. split.
    + intros [Hs|(f' & Hf' & He & ->)].
      * destruct (has_ext exts f) eqn:He; [|by left].
        apply elem_of_union in Hs as [Hs|Hs%elem_of_singleton]; [by left|].
        right. exists f. split; [apply elem_of_cons; by left|done].
      * right. exists f'. split; [apply elem_of_cons; by right|done].
    + intros [Hs|(f' & Hf' & He & ->)].
      * left. destruct (has_ext exts f); [|done]. apply elem_of_union. by left.
      * apply elem_of_cons in Hf' as [->|Hf'].
        -- left. rewrite He. apply elem_of_union. right. by apply elem_of_singleton.
        -- right. eauto.
Qed.

Lemma elem_of_scan_files_snd scan_dir root files acc s :
  s ∈ (foldl (scan_file scan_dir root) acc files).2
  <-> s ∈ acc.2
      \/ exists f, f ∈ files /\ has_ext header_exts f = true
                   /\ s = drop (length scan_dir) (PosixPath.join root f).
Proof.
  revert acc. induction files as [|f files IH]; intros acc; cbn [foldl].
  - split; [by left|]. intros [?|(f & Hf & _)]; [done|]. by apply elem_of_nil in Hf.
  - rewrite IH, scan_file_snd. split.
    + intros [Hs|(f' & Hf' & He & ->)].
      * destruct (has_ext header_exts f) eqn:He; [|by left].
        apply elem_of_union in Hs as [Hs|Hs%elem_of_singleton]; [by left|].
        right. exists f. split; [apply elem_of_cons; by left|done].
      * right. exists f'. split; [apply elem_of_cons; by right|done].
    + intros [Hs|(f' & Hf' & He & ->)].
      * left. destruct (has_ext header_exts f); [|done]. apply elem_of_union. by left.
      * apply elem_of_cons in Hf' as [->|Hf'].
        -- left. rewrite He. apply elem_of_union. right. by apply elem_of_singleton.
        -- right. eauto.
Qed.

Lemma elem_of_scan_triples scan_dir triples acc s :
  (s ∈ (foldl (fun acc triple => foldl (scan_file scan_dir triple.1.1) acc triple.2)
          acc triples).1
   <-> s ∈ acc.1 \/ reported scan_dir exts triples s)
  /\ (s ∈ (foldl (fun acc triple => foldl (scan_file scan_dir triple.1.1) acc triple.2)
             acc triples).2
      <-> s ∈ acc.2 \/ reported scan_dir header_exts triples s).
Proof.
  revert acc. induction triples as [|[[root dirs] files] triples IH]; intros acc;
    cbn [foldl].
  - unfold reported. split; (split; [by left|]);
      (intros [?|(? & ? & ? & ? & Hin & _)]; [done|by apply elem_of_nil in Hin]).
  - destruct (IH (foldl (scan_file scan_dir root) acc files)) as [IH1 IH2].
    cbn [fst snd]. rewrite IH1, IH2.
    rewrite elem_of_scan_files_fst, elem_of_scan_files_snd. unfold reported.
    split; split.
    + intros [[?|(f & Hf & He & ->)]|(r & d & fl & f & Hin & Hf & He & ->)]; [by left|..].
      * right. exists root, dirs, files, f. split; [apply elem_of_cons; by left|done].
      * right. exists r, d, fl, f. split; [apply elem_of_cons; by right|done].
    + intros [?|(r & d & fl & f & Hin & Hf & He & ->)]; [by left; left|].
      apply elem_of_cons in Hin as [[= -> -> ->]|Hin].
      * left. right. eauto.
      * right. exists r, d, fl, f. done.
    + intros [[?|(f & Hf & He & ->)]|(r & d & fl & f & Hin & Hf & He & ->)]; [by left|..].
      * right. exists root, dirs, files, f. split; [apply elem_of_cons; by left|done].
      * right. exists r, d, fl, f. split; [apply elem_of_cons; by right|done].
    + intros [?|(r & d & fl & f & Hin & Hf & He & ->)]; [by left; left|].
      apply elem_of_cons in Hin as [[= -> -> ->]|Hin].
      * left. right. eauto.
      * right. exists r, d, fl, f. done.
Qed.

(** *** Sorting *)

#[global] Instance str_le_total : Total str_le.
Proof. intros a b. unfold str_le. apply total, _. Qed.

#[global] Instance str_le_trans : Transitive str_le.
Proof. intros a b c. unfold str_le. apply transitivity. Qed.

#[global] Instance str_le_antisym : AntiSymm (=) str_le.
Proof.
  intros a b Hab Hba. unfold str_le in *.
  pose proof (anti_symm String.le _ _ Hab Hba) as Heq.
  apply (f_equal String.list_ascii_of_string) in Heq.
  by rewrite !String.list_ascii_of_string_of_list_ascii in Heq.
Qed.

Lemma elem_of_without_generated (files : gset str) (s : str) :
  s ∈ without_generated files <-> s ∈ files /\ not_generated s = true.
Proof.
  unfold without_generated, sorted. rewrite merge_sort_Permutation.
  rewrite list_elem_of_In, filter_In, <- list_elem_of_In, elem_of_elements. tauto.
Qed.

Lemma without_generated_sorted (files : gset str) :
  Sorted str_le (without_generated files).
Proof. unfold without_generated, sorted. apply Sorted_merge_sort, _. Qed.

Lemma without_generated_NoDup (files : gset str) : NoDup (without_generated files).
Proof.
  unfold without_generated, sorted. rewrite merge_sort_Permutation.
  apply NoDup_ListNoDup, List.NoDup_filter, NoDup_ListNoDup, NoDup_elements.
Qed.

(** A sorted list without duplicates is determined by its elements. *)
Lemma sorted_list_unique (l1 l2 : list str) :
  Sorted str_le l1 -> NoDup l1 -> Sorted str_le l2 -> NoDup l2 ->
  (forall s, s ∈ l1 <-> s ∈ l2) -> l1 = l2.
Proof.
  intros Hs1 Hn1 Hs2 Hn2 Hel.
  apply (Sorted_unique str_le); [done..|]. by apply NoDup_Permutation.
Qed.

(** *** Paths *)

Lemma rel_path_snoc (names : list str) (f : str) :
  FS.rel_path (names ++ [f]) = FS.rel_path names ++ "/" ++ f.
Proof.
  induction names as [|n names IH]; cbn [app FS.rel_path].
  - by rewrite app_nil_r.
  - rewrite IH. by rewrite <- !app_assoc.
Qed.

Lemma plain_root_rel_path (top : str) (names : list str) :
  FS.plain_root top -> Forall FS.valid_name names ->
  FS.plain_root (top ++ FS.rel_path names).
Proof.
  intros Htop Hnames. revert top Htop.
  induction Hnames as [|n names Hn Hnames IH]; intros top Htop; cbn [FS.rel_path].
  - by rewrite app_nil_r.
  - replace (top ++ SLASH :: n ++ FS.rel_path names)
      with ((top ++ "/" ++ n) ++ FS.rel_path names).
    + apply IH. by apply plain_root_join.
    + by rewrite <- !app_assoc.
Qed.

Lemma not_generated_spec (s : str) :
  not_generated s = true <-> ~ (exists a b : str, s = a ++ "/mgen/" ++ b).
Proof.
  unfold not_generated. rewrite negb_true_iff, <- not_true_iff_false.
  by rewrite contains_spec.
Qed.

(** What the walk reports for a directory is what is to be found below it. *)
Lemma reported_scanned (t : fsnode) (cwd scan_dir : str) (es : list str) (s : str) :
  FS.wf t -> FS.plain_root scan_dir ->
  reported scan_dir es (FS.walk t cwd scan_dir) s /\ not_generated s = true
  <-> scanned (FS.find t cwd scan_dir) es s.
Proof.
  intros Hwf Hroot. unfold FS.walk, reported, scanned.
  destruct (FS.find t cwd scan_dir) as [d|] eqn:Hd.
  2:{ split.
      - intros [(? & ? & ? & ? & Hin & _) _]. by apply elem_of_nil in Hin.
      - intros (? & ? & ? & ? & _). done. }
  apply fs_find_Some in Hd as (ld & _ & Hd & _).
  pose proof (wf_lookup _ _ _ Hwf Hd) as Hwfd.
  split.
  - intros [(root & dirs & files & f & Hin & Hf & He & ->) Hng].
    destruct (proj1 (walk_tree_files d scan_dir root f Hwfd Hroot)) as (names & Hat & ->);
      [eauto|].
    pose proof (file_at_valid _ _ Hwfd Hat) as Hvalid.
    apply Forall_app in Hvalid as [Hnames Hfv]. apply Forall_cons in Hfv as [Hfv _].
    exists d, (names ++ [f]), f.
    split; [done|]. split; [done|]. split; [by rewrite last_snoc|].
    split; [by apply has_ext_spec|].
    assert (drop (length scan_dir)
              (PosixPath.join (scan_dir ++ FS.rel_path names) f)
            = FS.rel_path (names ++ [f])) as Heq.
    { rewrite join_plain;
        [|by apply plain_root_rel_path|by apply startswith_slash_valid].
      rewrite <- app_assoc, drop_app_length. by rewrite rel_path_snoc. }
    split; [done|]. by apply not_generated_spec.
  - intros (t' & names & name & [= <-] & Hat & Hlast & He & -> & Hng).
    apply last_Some in Hlast as (names' & ->).
    pose proof (file_at_valid _ _ Hwfd Hat) as Hvalid.
    apply Forall_app in Hvalid as [Hnames Hfv]. apply Forall_cons in Hfv as [Hfv _].
    destruct (proj2 (walk_tree_files d scan_dir (scan_dir ++ FS.rel_path names') name
                       Hwfd Hroot)) as (dirs & files & Hin & Hf); [eauto|].
    split; [|by apply not_generated_spec].
    exists (scan_dir ++ FS.rel_path names'), dirs, files, name.
    split; [done|]. split; [done|]. split; [by apply has_ext_spec|].
    rewrite join_plain;
      [|by apply plain_root_rel_path|by apply startswith_slash_valid].
    rewrite <- app_assoc, drop_app_length. by rewrite rel_path_snoc.
Qed.

Lemma sys_walk_spec (top : str) (st : State) :
  sys (Sys.walk top) st
  = if bool_decide (NUL ∈ top) then Raise ValueError (after_output [] [EvWalk top] st)
    else Ok (FS.walk (fs (world st)) (cwd (world st)) top)
            (after_output [] [EvWalk top] st).
Proof.
  unfold sys, Sys.walk, Sys.emit, after_output. unfold_m. cbn.
  destruct (bool_decide (NUL ∈ top)); cbn; by rewrite app_nil_r.
Qed.

Lemma find_sources_and_headers_run (scan_dir : str) (st : State) :
  NUL ∉ scan_dir ->
  let triples := FS.walk (fs (world st)) (cwd (world st)) scan_dir in
  _find_sources_and_headers scan_dir st
  = Ok tt (after_output [] [EvWalk scan_dir]
             {| self := with_inventory
                          (without_generated (scan_triples scan_dir triples).1)
                          (without_generated (scan_triples scan_dir triples).2)
                          (self st);
                world := world st |}).
Proof.
  intros Hnul triples. unfold _find_sources_and_headers.
  erewrite bind_ok.
  2:{ rewrite sys_walk_spec. by rewrite bool_decide_false. }
  proj_simpl.
  fold triples. destruct (scan_triples scan_dir triples) as [srcs hdrs] eqn:Hs.
  unfold update_self, modify, after_output. cbn. done.
Qed.

Lemma find_sources_and_headers_refused (scan_dir : str) (st : State) :
  NUL ∈ scan_dir ->
  _find_sources_and_headers scan_dir st
  = Raise ValueError (after_output [] [EvWalk scan_dir] st).
Proof.
  intros Hnul. unfold _find_sources_and_headers.
  erewrite bind_raise; [reflexivity|].
  rewrite sys_walk_spec. by rewrite bool_decide_true.
Qed.

Lemma plain_root_src_ballistica (projroot : str) :
  FS.plain_root (PosixPath.join projroot "src/ballistica").
Proof.
  unfold PosixPath.join.
  replace (startswith "src/ballistica" "/") with false by reflexivity.
  assert (forall k : str, FS.plain_root (k ++ "src/ballistica")) as Hk.
  { intros k. split; [by destruct k|].
    apply bool_decide_eq_false. intros [k' Hk'].
    apply (f_equal last) in Hk'.
    change (k ++ "src/ballistica") with (k ++ "src/ballistic" ++ ["a"%char]) in Hk'.
    change (k' ++ "/") with (k' ++ [SLASH]) in Hk'.
    by rewrite !app_assoc, !last_snoc in Hk'. }
  destruct (_ || _); [apply Hk|].
  replace (projroot ++ "/" ++ "src/ballistica")
    with ((projroot ++ "/") ++ "src/ballistica") by (by rewrite <- app_assoc).
  apply Hk.
Qed.

(** The scan of any directory whose path [os.path.join] extends by a
    separator. *)
Lemma scan_of_plain_root (scan_dir : str) (st : State) :
  FS.wf (fs (world st)) -> FS.plain_root scan_dir ->
  let scan_root := FS.find (fs (world st)) (cwd (world st)) scan_dir in
  let triples := FS.walk (fs (world st)) (cwd (world st)) scan_dir in
  (forall s, s ∈ without_generated (scan_triples scan_dir triples).1
             <-> scanned scan_root exts s)
  /\ (forall s, s ∈ without_generated (scan_triples scan_dir triples).2
                <-> scanned scan_root header_exts s).
Proof.
  intros Hwf Hroot scan_root triples. split; intros s.
  - rewrite elem_of_without_generated.
    unfold scan_triples. rewrite (proj1 (elem_of_scan_triples _ _ _ _)).
    unfold scan_root. rewrite <- (reported_scanned _ _ _ _ _ Hwf Hroot).
    cbn [fst]. fold triples.
    split; [intros [[Hs|Hs] ?]; [by apply elem_of_empty in Hs|done]|].
    intros [? ?]. split; [by right|done].
  - rewrite elem_of_without_generated.
    unfold scan_triples. rewrite (proj2 (elem_of_scan_triples _ _ _ _)).
    unfold scan_root. rewrite <- (reported_scanned _ _ _ _ _ Hwf Hroot).
    cbn [snd]. fold triples.
    split; [intros [[Hs|Hs] ?]; [by apply elem_of_empty in Hs|done]|].
    intros [? ?]. split; [by right|done].
Qed.

(** C9 -- the source scan, as [prepare_to_generate] runs it on
    [src/ballistica] of the project, walks that directory once and stores two
    lists.  A path is in the list of sources exactly when it is the path, from
    the scan root and with a leading separator, of a file below it whose name
    ends with a source extension and whose path has no [/mgen/] in it; the
    same holds for the headers with the header extension.  Both lists are
    sorted and free of duplicates, so they are determined by the files alone,
    whatever the order the directories were listed in.  The one path the walk
    refuses is a path with a NUL character in it: the scan then raises
    [ValueError] and stores nothing. *)
Theorem scan_collects_sources_and_headers (st : State) :
  FS.wf (fs (world st)) ->
  let scan_dir := PosixPath.join (projroot (self st)) "src/ballistica" in
  let scan_root := FS.find (fs (world st)) (cwd (world st)) scan_dir in
  (NUL ∈ scan_dir ->
     _find_sources_and_headers scan_dir st
     = Raise ValueError (after_output [] [EvWalk scan_dir] st))
  /\ (NUL ∉ scan_dir ->
      exists srcs hdrs,
        _find_sources_and_headers scan_dir st
        = Ok tt (after_output [] [EvWalk scan_dir]
                   {| self := with_inventory srcs hdrs (self st); world := world st |})
        /\ (forall s, s ∈ srcs <-> scanned scan_root exts s)
        /\ (forall s, s ∈ hdrs <-> scanned scan_root header_exts s)
        /\ Sorted str_le srcs /\ NoDup srcs
        /\ Sorted str_le hdrs /\ NoDup hdrs
        /\ (forall srcs', Sorted str_le srcs' -> NoDup srcs' ->
                          (forall s, s ∈ srcs' <-> scanned scan_root exts s) ->
                          srcs' = srcs)
        /\ (forall hdrs', Sorted str_le hdrs' -> NoDup hdrs' ->
                          (forall s, s ∈ hdrs' <-> scanned scan_root header_exts s) ->
                          hdrs' = hdrs)).
Proof.
  intros Hwf scan_dir scan_root.
  split; [apply find_sources_and_headers_refused|]. intros Hnul.
  pose proof (plain_root_src_ballistica (projroot (self st))) as Hroot.
  fold scan_dir in Hroot.
  destruct (scan_of_plain_root scan_dir st Hwf Hroot) as [Hsrcs Hhdrs].
  fold scan_root in Hsrcs, Hhdrs.
  set (triples := FS.walk (fs (world st)) (cwd (world st)) scan_dir) in *.
  exists (without_generated (scan_triples scan_dir triples).1),
         (without_generated (scan_triples scan_dir triples).2).
  split; [by apply find_sources_and_headers_run|].
  split; [done|]. split; [done|].
  split; [apply without_generated_sorted|].
  split; [apply without_generated_NoDup|].
  split; [apply without_generated_sorted|].
  split; [apply without_generated_NoDup|].
  split.
  - intros srcs' Hs Hn Hel. apply sorted_list_unique;
      [done|done|apply without_generated_sorted|apply without_generated_NoDup|].
    intros s. by rewrite Hel, Hsrcs.
  - intros hdrs' Hs Hn Hel. apply sorted_list_unique;
      [done|done|apply without_generated_sorted|apply without_generated_NoDup|].
    intros s. by rewrite Hel, Hhdrs.
Qed.

End scan.


(** ** The depth of [generate_file] *)

Section depth.
Context `{C : Collaborators}.
Import PyStr.

Lemma suffix_of_both (a b l : str) :
  a `suffix_of` l -> b `suffix_of` l -> (length b <= length a)%nat -> b `suffix_of` a.
Proof.
  intros Ha Hb Hlen. destruct (suffix_weak_total a b l Ha Hb) as [Hab|Hba]; [|done].
  pose proof (suffix_length _ _ Hab).
  rewrite (suffix_length_eq a b Hab) by lia. done.
Qed.

Lemma endswith_app_false (k a b : str) :
  (length b <= length a)%nat -> endswith a b = false -> endswith (k ++ b) a = false.
Proof.
  intros Hlen Hab. apply bool_decide_eq_false. intros Ha.
  apply bool_decide_eq_false in Hab. apply Hab.
  apply (suffix_of_both a b (k ++ b)); [done|by apply suffix_app_r|done].
Qed.

(** Without its [.filters] a filters file is a project file. *)
Lemma removesuffix_filters (path : str) :
  endswith path ".vcxproj.filters" = true ->
  let p := removesuffix path ".filters" in
  endswith p "/project.pbxproj" = false
  /\ endswith p ".vcxproj.filters" = false
  /\ endswith p ".vcxproj" = true.
Proof.
  intros [k ->]%endswith_suffix p.
  assert (p = k ++ ".vcxproj") as ->.
  { unfold p, removesuffix.
    replace (endswith (k ++ ".vcxproj.filters") ".filters") with true.
    - change (lit ".vcxproj.filters") with (".vcxproj" ++ ".filters").
      rewrite app_assoc, length_app, Nat.add_sub. by rewrite take_app_length.
    - symmetry. apply endswith_suffix.
      change (lit ".vcxproj.filters") with (".vcxproj" ++ ".filters").
      rewrite app_assoc. by apply suffix_app_r. }
  split; [by apply endswith_app_false; [simpl; lia|]|].
  split; [by apply endswith_app_false; [simpl; lia|]|].
  apply endswith_suffix. by apply suffix_app_r.
Qed.

Lemma total_filters (gen : str -> M State str) (fname existing : str) :
  sound generating any_exn False (gen (removesuffix fname ".filters")) ->
  sound generating any_exn False (_generate_visual_studio_project_filters gen fname existing).
Proof.
  intros Hgen. unfold _generate_visual_studio_project_filters.
  sound_step; [apply generating_assert|].
  sound_step; [exact Hgen|].
  sound_step; [apply generating_lift_exn|apply generating_set_generated].
Qed.

Lemma total_assets (gen : str -> M State str) (path existing : str) :
  sound generating any_exn False (gen "src/meta/.meta_manifest_public.json") ->
  sound generating any_exn False (gen "src/meta/.meta_manifest_private.json") ->
  sound generating any_exn False (_generate_assets_makefile gen path existing).
Proof.
  intros Hpub Hpriv. unfold _generate_assets_makefile. cbn [for_fold].
  sound_step.
  { sound_step; [sound_step; [exact Hpub|sound_step]|].
    sound_step; [sound_step; [exact Hpriv|sound_step]|sound_step]. }
  sound_step; [apply generating_feature_sets|].
  sound_step; [sound_step|].
  sound_step; [apply generating_call_renderer|apply generating_set_generated_all].
Qed.

(** Tests on strings that are known are decided by computation. *)
Ltac decide_tests :=
  repeat match goal with
    | |- context [endswith ?a ?b] =>
        let v := eval vm_compute in (endswith a b) in
        lazymatch v with
        | true => change (endswith a b) with true
        | false => change (endswith a b) with false
        end
    | |- context [startswith ?a ?b] =>
        let v := eval vm_compute in (startswith a b) in
        lazymatch v with
        | true => change (startswith a b) with true
        | false => change (startswith a b) with false
        end
    | |- context [bool_decide (?a = ?b)] =>
        let v := eval vm_compute in (bool_decide (a = b)) in
        lazymatch v with
        | true => change (bool_decide (a = b)) with true
        | false => change (bool_decide (a = b)) with false
        end
    end;
  cbv beta iota.

Ltac total_step :=
  first
    [ sound_step
    | apply generating_raise
    | apply generating_sys, quiet_emit
    | apply generating_sys, quiet_read_text
    | apply generating_assert
    | apply generating_xcode_project
    | apply generating_visual_studio_project
    | apply generating_cmake_file
    | apply generating_top_level_makefile
    | apply generating_app_module
    | apply generating_meta_makefile
    | apply generating_resources_makefile
    | apply generating_set_generated ].

Lemma total_meta_makefile (n : nat) :
  sound generating any_exn False (generate_file_fuel (S n) "src/meta/Makefile").
Proof. cbn [generate_file_fuel]. unfold generate_file_body. decide_tests. repeat total_step. Qed.

Lemma total_meta_manifest_public (n : nat) :
  sound generating any_exn False
    (generate_file_fuel (S (S n)) "src/meta/.meta_manifest_public.json").
Proof.
  cbn [generate_file_fuel]. unfold generate_file_body. decide_tests.
  repeat first [total_step | apply (total_meta_makefile n)].
Qed.

Lemma total_meta_manifest_private (n : nat) :
  sound generating any_exn False
    (generate_file_fuel (S (S n)) "src/meta/.meta_manifest_private.json").
Proof.
  cbn [generate_file_fuel]. unfold generate_file_body. decide_tests.
  repeat first [total_step | apply (total_meta_makefile n)].
Qed.

Lemma total_assets_makefile (n : nat) :
  sound generating any_exn False
    (generate_file_fuel (S (S (S n))) "src/assets/Makefile").
Proof.
  cbn [generate_file_fuel]. unfold generate_file_body. decide_tests.
  repeat first
    [ total_step
    | apply total_assets;
        [apply (total_meta_manifest_public n)|apply (total_meta_manifest_private n)] ].
Qed.

Lemma total_project_file (n : nat) (p : str) :
  endswith p "/project.pbxproj" = false ->
  endswith p ".vcxproj.filters" = false ->
  endswith p ".vcxproj" = true ->
  sound generating any_exn False (generate_file_fuel (S n) p).
Proof.
  intros H1 H2 H3. cbn [generate_file_fuel]. unfold generate_file_body.
  rewrite H1, H2, H3.
  repeat total_step.
Qed.

Lemma total_meta_makefile_ge (m : nat) :
  (1 <= m)%nat ->
  sound generating any_exn False (generate_file_fuel m "src/meta/Makefile").
Proof. destruct m as [|n]; [lia|]. intros _. apply total_meta_makefile. Qed.

Lemma total_assets_makefile_ge (m : nat) :
  (3 <= m)%nat ->
  sound generating any_exn False (generate_file_fuel m "src/assets/Makefile").
Proof. destruct m as [|[|[|n]]]; [lia..|]. intros _. apply total_assets_makefile. Qed.

Lemma total_project_file_ge (m : nat) (p : str) :
  (1 <= m)%nat ->
  endswith p "/project.pbxproj" = false ->
  endswith p ".vcxproj.filters" = false ->
  endswith p ".vcxproj" = true ->
  sound generating any_exn False (generate_file_fuel m p).
Proof. destruct m as [|n]; [lia|]. intros _. apply total_project_file. Qed.

Lemma total_meta_manifests_ge (m : nat) :
  (2 <= m)%nat ->
  sound generating any_exn False
    (generate_file_fuel m "src/meta/.meta_manifest_public.json")
  /\ sound generating any_exn False
       (generate_file_fuel m "src/meta/.meta_manifest_private.json").
Proof.
  destruct m as [|[|n]]; [lia..|]. intros _.
  split; [apply total_meta_manifest_public|apply total_meta_manifest_private].
Qed.

(** With fuel for four nested calls [generate_file] is never cut off. *)
Lemma total_generate_file (m : nat) (path : str) :
  (3 <= m)%nat -> sound generating any_exn False (generate_file_fuel (S m) path).
Proof.
  intros Hm. cbn [generate_file_fuel]. unfold generate_file_body.
  sound_step; [sound_step|].
  sound_step; [repeat total_step|].
  sound_step; [|repeat total_step].
  sound_step; [|sound_step].
  sound_step; [repeat total_step|].
  sound_step; [apply generating_sys, quiet_emit|].
  destruct (endswith path "/project.pbxproj") eqn:H1; [apply generating_xcode_project|].
  destruct (endswith path ".vcxproj.filters") eqn:H2.
  { apply total_filters.
    destruct (removesuffix_filters path H2) as (? & ? & ?).
    apply total_project_file_ge; [lia|done..]. }
  repeat first
    [ total_step
    | apply total_assets_makefile_ge; lia
    | apply total_meta_makefile_ge; lia
    | apply total_assets; apply total_meta_manifests_ge; lia ].
Qed.

Lemma generate_file_returns_or_raises (path : str) (st : State) :
  generate_file path st <> Timeout.
Proof.
  pose proof (total_generate_file 3 path (le_n 3) st) as H. unfold generate_file.
  change generate_file_depth with 4%nat.
  by destruct (generate_file_fuel _ _ _).
Qed.

(** *** More fuel changes nothing *)

Lemma refines_refl {S A} (m : M S A) : refines m m.
Proof. by intros s _. Qed.

Lemma refines_bind {S A B} (m1 m2 : M S A) (k1 k2 : A -> M S B) :
  refines m1 m2 -> (forall a, refines (k1 a) (k2 a)) ->
  refines (m1 ≫= k1) (m2 ≫= k2).
Proof.
  intros Hm Hk s. unfold mbind, M_bind. specialize (Hm s).
  destruct (m1 s) as [a s1|e s1|] eqn:H1; [| |done].
  - intros Hnt. rewrite Hm by done. by apply Hk.
  - intros _. by rewrite Hm.
Qed.

Lemma refines_for_fold {S A B} (l : list A) (acc : B) (b1 b2 : A -> B -> M S B) :
  (forall x acc, refines (b1 x acc) (b2 x acc)) ->
  refines (for_fold l acc b1) (for_fold l acc b2).
Proof.
  intros Hb. revert acc. induction l as [|x l IH]; intros acc; cbn [for_fold];
    [apply refines_refl|].
  apply refines_bind; [apply Hb|intros ?; apply IH].
Qed.

Ltac refines_step :=
  lazymatch goal with
  | |- refines ?m ?m => apply refines_refl
  | |- refines (mbind _ _) (mbind _ _) => apply refines_bind; [|intros ?]
  | |- refines (for_fold _ _ _) (for_fold _ _ _) => apply refines_for_fold; intros ? ?
  | |- refines (if ?b then _ else _) (if ?b then _ else _) => destruct b
  | |- refines (match ?x with _ => _ end) (match ?x with _ => _ end) => destruct x
  end.

Lemma generate_file_fuel_S (fuel : nat) (path : str) :
  refines (generate_file_fuel fuel path) (generate_file_fuel (S fuel) path).
Proof.
  revert path. induction fuel as [|fuel IH]; intros path; [by intros st|].
  change (refines (generate_file_body (generate_file_fuel fuel) path)
                  (generate_file_body (generate_file_fuel (S fuel)) path)).
  unfold generate_file_body, _generate_visual_studio_project_filters,
    _generate_assets_makefile.
  repeat first [apply IH | refines_step].
Qed.

(** Any fuel from the depth on gives what [generate_file] gives. *)
Lemma generate_file_fuel_enough (n : nat) (path : str) (st : State) :
  generate_file_fuel (generate_file_depth + n) path st = generate_file path st.
Proof.
  induction n as [|n IH]; [by rewrite Nat.add_0_r|].
  rewrite Nat.add_succ_r. rewrite <- IH.
  apply generate_file_fuel_S. rewrite IH. apply generate_file_returns_or_raises.
Qed.

End depth.

(** ** The whole-file pass outside check mode *)

Section plain_writes.
Context `{C : Collaborators}.

Lemma universal_newlines_replace (n : nat) (s : str) :
  (length s <= n)%nat -> no_lone_CR s = true ->
  FS.universal_newlines s = PyStr.replace s [CR; LF] [LF].
Proof.
  unfold PyStr.replace. revert s. induction n as [|n IH]; intros s Hlen Hs.
  { destruct s; [done|simpl in Hlen; lia]. }
  destruct s as [|c s']; [done|].
  cbn [no_lone_CR] in Hs. apply andb_prop in Hs as [Hc Hs'].
  cbn [FS.universal_newlines PyStr.replace_go].
  destruct (decide (c = CR)) as [->|Hne].
  - destruct s' as [|c' s'']; [done|].
    apply bool_decide_eq_true in Hc as ->.
    rewrite decide_True by done.
    replace (PyStr.startswith (CR :: LF :: s'') [CR; LF]) with true.
    2:{ symmetry. apply startswith_prefix. by exists s''. }
    cbn [length Nat.sub app PyStr.replace_go]. f_equal.
    cbn [no_lone_CR] in Hs'. apply andb_prop in Hs' as [_ Hs''].
    apply IH; [simpl in Hlen; lia|done].
  - replace (PyStr.startswith (c :: s') [CR; LF]) with false.
    2:{ symmetry. apply not_true_is_false. intros Hp.
        apply startswith_prefix in Hp as [k Hk]. by injection Hk as -> _. }
    f_equal. apply IH; [simpl in Hlen; lia|done].
Qed.

(** One round of the pass outside check mode, outcome by outcome. *)
Lemma apply_file_change_plain (st : State) (fname fcode : str) (n : nat) :
  check (self st) = false ->
  let t := fs (world st) in
  let wd := cwd (world st) in
  let path := PosixPath.join (projroot (self st)) fname in
  let write (evs : list event) : Res State nat :=
    match FS.write t wd path fcode with
    | inr t' =>
        Ok n (after_write t' [writing_message fname] (evs ++ [EvWrite path fcode]) st)
    | inl f =>
        Raise (Sys.failed f path)
          (after_output [writing_message fname] (evs ++ [EvWrite path fcode]) st)
    end in
  apply_file_change (fname, fcode) n st
  = if FS.exists_ t wd path then
      match FS.read t wd path with
      | inl f => Raise (Sys.failed f path) (after_output [] [EvExists path; EvRead path] st)
      | inr data =>
          if bool_decide (data = PyStr.replace fcode [CR; LF] [LF])
          then Ok (S n) (after_output [] [EvExists path; EvRead path] st)
          else write [EvExists path; EvRead path]
      end
    else write [EvExists path].
Proof.
  intros Hcheck t wd path write.
  rewrite apply_file_change_spec. cbv zeta. by rewrite Hcheck.
Qed.

(** What cannot be located is not there. *)
Lemma fs_locate_inl_exists t cwd path f :
  FS.locate t cwd path = inl f -> FS.exists_ t cwd path = false.
Proof. intros Hl. unfold FS.exists_, FS.find, FS.resolve. by rewrite Hl. Qed.

Lemma fs_locate_inl_write t cwd path f d :
  FS.locate t cwd path = inl f -> FS.write t cwd path d = inl f.
Proof. intros Hl. unfold FS.write. by rewrite Hl. Qed.

(** X1 -- outside check mode, an artifact that is out of date and whose path
    can be followed to a place for a file (every directory on the way is
    there, the path does not end in a separator) is written as generated,
    CR LF included; the round looks at the file, prints the notice, writes,
    leaves the count of unchanged files as it was and changes no other
    location. *)
Theorem out_of_date_artifact_is_written
    (st : State) (fname fcode : str) (n : nat) (loc : FS.loc) :
  check (self st) = false ->
  let t := fs (world st) in
  let wd := cwd (world st) in
  let path := PosixPath.join (projroot (self st)) fname in
  FS.locate t wd path = inr loc ->
  PyStr.endswith path "/" = false ->
  out_of_date st (fname, fcode) ->
  exists t',
    apply_file_change (fname, fcode) n st
    = Ok n (after_write t' [writing_message fname]
              (looked_at st fname ++ [EvWrite path fcode]) st)
    /\ FS.write t wd path fcode = inr t'
    /\ FS.find t' wd path = Some (FFile fcode)
    /\ (forall l, ~ l `prefix_of` loc -> FS.lookup t' l = FS.lookup t l).
Proof.
  intros Hcheck t wd path Hloc Hend Hout.
  unfold out_of_date in Hout. cbn [fst snd] in Hout. fold t wd path in Hout.
  assert (exists t', FS.write t wd path fcode = inr t') as [t' Hw].
  { eexists. apply fs_write_inr. exists loc.
    split; [done|]. split; [done|]. split; [|done].
    intros [es Hes].
    assert (FS.find t wd path = Some (FDir es)) as Hf.
    { apply fs_find_Some. exists loc. split; [done|]. split; [done|]. by eexists. }
    by rewrite Hf in Hout. }
  exists t'.
  assert (FS.find t' wd path = Some (FFile fcode)) as Hfind'.
  { apply fs_find_Some. exists loc.
    split; [by apply (fs_write_locate _ _ _ _ _ _ _ Hw)|].
    split; [by eapply fs_write_lookup|]. by rewrite Hend. }
  pose proof (apply_file_change_plain st fname fcode n Hcheck) as Hrun.
  cbv zeta in Hrun. fold t wd path in Hrun. rewrite Hw in Hrun.
  unfold looked_at. fold t wd path.
  split; [|split; [done|split; [done|]]].
  2:{ intros l Hl. by eapply fs_write_frame. }
  rewrite Hrun. unfold FS.exists_. rewrite fs_read_find. unfold FS.find in *.
  destruct (FS.resolve t wd path) as [f|[raw|es]]; [done| |done].
  rewrite bool_decide_false; [done|]. intros Heq. by apply Hout.
Qed.

(** X2 -- the pass creates no directory for an artifact: outside check mode,
    when the path of the artifact cannot be followed (a directory on the way
    is missing or is a regular file, or the path has a NUL in it), the round
    finds no file, prints the notice of the write and then raises the error
    of the failed [open]; the files are as they were. *)
Theorem artifact_in_a_missing_directory_raises
    (st : State) (fname fcode : str) (n : nat) (f : failure) :
  check (self st) = false ->
  let path := PosixPath.join (projroot (self st)) fname in
  FS.locate (fs (world st)) (cwd (world st)) path = inl f ->
  apply_file_change (fname, fcode) n st
  = Raise (Sys.failed f path)
      (after_output [writing_message fname] [EvExists path; EvWrite path fcode] st).
Proof.
  intros Hcheck path Hloc.
  pose proof (apply_file_change_plain st fname fcode n Hcheck) as Hrun.
  cbv zeta in Hrun. fold path in Hrun.
  by rewrite (fs_locate_inl_exists _ _ _ _ Hloc),
    (fs_locate_inl_write _ _ _ _ fcode Hloc) in Hrun.
Qed.

(** What a round that returns has done, in any mode: nothing, to a file that
    was up to date, or a write of the generated content. *)
Lemma apply_file_change_returns (st st' : State) (fname fcode : str) (n n' : nat) :
  apply_file_change (fname, fcode) n st = Ok n' st' ->
  self st' = self st /\ cwd (world st') = cwd (world st)
  /\ ((up_to_date st (fname, fcode) /\ fs (world st') = fs (world st))
      \/ FS.write (fs (world st)) (cwd (world st))
           (PosixPath.join (projroot (self st)) fname) fcode = inr (fs (world st'))).
Proof.
  intros Hrun. destruct (decide (up_to_date st (fname, fcode))) as [Hup|Hup].
  { rewrite (apply_file_change_up_to_date st fname fcode n Hup) in Hrun.
    injection Hrun as _ <-. split; [done|split; [done|by left]]. }
  rewrite apply_file_change_spec in Hrun. cbv zeta in Hrun.
  unfold up_to_date in Hup. cbn [fst snd] in Hup.
  set (t := fs (world st)) in *. set (wd := cwd (world st)) in *.
  set (path := PosixPath.join (projroot (self st)) fname) in *.
  assert (Hw : forall evs,
             (if check (self st)
              then
                match FS.makedirs t wd (PosixPath.dirname (errfile_of (self st))) with
                | (t1, Some (f, q)) =>
                    Raise (Sys.failed f q)
                      (after_write t1 []
                         (evs ++ [EvMakedirs (PosixPath.dirname (errfile_of (self st)))]) st)
                | (t1, None) =>
                    match FS.write t1 wd (errfile_of (self st))
                            (PyStr.replace fcode [CR; LF] [LF]) with
                    | inl f =>
                        Raise (Sys.failed f (errfile_of (self st)))
                          (after_write t1 []
                             (evs ++ [EvMakedirs (PosixPath.dirname (errfile_of (self st)));
                                      EvWrite (errfile_of (self st))
                                        (PyStr.replace fcode [CR; LF] [LF])]) st)
                    | inr t2 =>
                        Raise (CleanError (out_of_date_message fname path
                                             (errfile_of (self st))))
                          (after_write t2 []
                             (evs ++ [EvMakedirs (PosixPath.dirname (errfile_of (self st)));
                                      EvWrite (errfile_of (self st))
                                        (PyStr.replace fcode [CR; LF] [LF])]) st)
                    end
                end
              else
                match FS.write t wd path fcode with
                | inr t' =>
                    Ok n (after_write t' [writing_message fname]
                            (evs ++ [EvWrite path fcode]) st)
                | inl f =>
                    Raise (Sys.failed f path)
                      (after_output [writing_message fname]
                         (evs ++ [EvWrite path fcode]) st)
                end) = Ok n' st' ->
             self st' = self st /\ cwd (world st') = cwd (world st)
             /\ FS.write t wd path fcode = inr (fs (world st'))).
  { intros evs Hm. destruct (check (self st)).
    - destruct (FS.makedirs _ _ _) as [t1 [[f q]|]]; [done|].
      by destruct (FS.write t1 _ _ _).
    - destruct (FS.write t wd path fcode); [done|]. by injection Hm as _ <-. }
  destruct (FS.exists_ t wd path).
  - destruct (FS.read t wd path) as [err|data] eqn:Hrd; [done|].
    rewrite bool_decide_false in Hrun by congruence.
    destruct (Hw _ Hrun) as (? & ? & ?). split; [done|split; [done|by right]].
  - destruct (Hw _ Hrun) as (? & ? & ?). split; [done|split; [done|by right]].
Qed.

(** Read back in text mode, generated content without a lone CR is what the
    pass compares the file with. *)
Lemma written_is_up_to_date (st st' : State) (fname fcode : str) :
  no_lone_CR fcode = true ->
  self st' = self st -> cwd (world st') = cwd (world st) ->
  FS.write (fs (world st)) (cwd (world st))
    (PosixPath.join (projroot (self st)) fname) fcode = inr (fs (world st')) ->
  up_to_date st' (fname, fcode).
Proof.
  intros Hcr Hself Hcwd Hw. unfold up_to_date. cbn [fst snd].
  rewrite Hself, Hcwd. rewrite (fs_write_read _ _ _ _ _ Hw).
  f_equal. by eapply universal_newlines_replace.
Qed.

(** A round that returns moves no place a path leads to. *)
Lemma loc_in_project_kept (st st' : State) (fname fcode : str) (n n' : nat)
    (q : str) (l : FS.loc) :
  apply_file_change (fname, fcode) n st = Ok n' st' ->
  loc_in_project st' q = inr l <-> loc_in_project st q = inr l.
Proof.
  intros Hrun.
  destruct (apply_file_change_returns _ _ _ _ _ _ Hrun) as (Hself & Hcwd & Hdone).
  unfold loc_in_project. rewrite Hself, Hcwd.
  destruct Hdone as [[_ ->]|Hw]; [done|]. by eapply fs_write_locate.
Qed.

(** A round that returns has found the place of its artifact. *)
Lemma apply_file_change_located (st st' : State) (fname fcode : str) (n n' : nat) :
  apply_file_change (fname, fcode) n st = Ok n' st' ->
  exists l, loc_in_project st fname = inr l.
Proof.
  intros Hrun.
  destruct (apply_file_change_returns _ _ _ _ _ _ Hrun) as (_ & _ & [[Hup _]|Hw]).
  - unfold up_to_date in Hup. cbn [fst snd] in Hup.
    apply fs_read_inr in Hup as (raw & (l & Hl & _)%fs_find_Some & _). by exists l.
  - apply fs_write_inr in Hw as (l & Hl & _). by exists l.
Qed.

(** A later round leaves an earlier artifact up to date when the two are
    different files. *)
Lemma up_to_date_kept (st st' : State) (item : str * str) (fname fcode : str) (n n' : nat) :
  up_to_date st item ->
  loc_in_project st item.1 <> loc_in_project st fname ->
  apply_file_change (fname, fcode) n st = Ok n' st' ->
  up_to_date st' item.
Proof.
  intros Hup Hne Hrun.
  destruct (apply_file_change_returns _ _ _ _ _ _ Hrun) as (Hself & Hcwd & Hdone).
  unfold up_to_date, loc_in_project in *. rewrite Hself, Hcwd.
  destruct Hdone as [[_ ->]|Hw]; [done|].
  apply fs_read_inr in Hup as (raw & Hf & Hd).
  apply fs_read_inr. exists raw. split; [|done].
  by apply (fs_write_find_other _ _ _ _ _ _ _ Hw).
Qed.

Lemma for_fold_apply_returns (items : list (str * str)) (n n' : nat) (st st' : State) :
  for_fold items n apply_file_change st = Ok n' st' ->
  self st' = self st /\ cwd (world st') = cwd (world st).
Proof.
  revert n st. induction items as [|[f c] items IH]; intros n st Hrun.
  { by injection Hrun as _ <-. }
  cbn [for_fold] in Hrun. apply bind_Ok_inv in Hrun as (n1 & st1 & H1 & Hrest).
  destruct (apply_file_change_returns _ _ _ _ _ _ H1) as (Hself & Hcwd & _).
  destruct (IH _ _ Hrest) as [-> ->]. done.
Qed.

(** A pass that returns has found the place of every artifact. *)
Lemma for_fold_apply_located (items : list (str * str)) (n n' : nat) (st st' : State) :
  for_fold items n apply_file_change st = Ok n' st' ->
  Forall (fun kv => exists l, loc_in_project st kv.1 = inr l) items.
Proof.
  revert n st. induction items as [|[f c] items IH]; intros n st Hrun.
  { constructor. }
  cbn [for_fold] in Hrun. apply bind_Ok_inv in Hrun as (n1 & st1 & H1 & Hrest).
  constructor.
  - by eapply apply_file_change_located.
  - eapply Forall_impl; [by eapply IH|].
    intros kv [l Hl]. exists l. by apply (loc_in_project_kept _ _ _ _ _ _ _ _ H1).
Qed.

Lemma loc_in_project_map (st st1 : State) (fname fcode : str) (n n1 : nat)
    (items : list (str * str)) :
  apply_file_change (fname, fcode) n st = Ok n1 st1 ->
  Forall (fun kv => exists l, loc_in_project st1 kv.1 = inr l) items ->
  map (fun kv => loc_in_project st1 kv.1) items
  = map (fun kv => loc_in_project st kv.1) items.
Proof.
  intros H1. induction 1 as [|kv items [l Hl] _ IH]; [done|].
  cbn [map]. rewrite IH, Hl. f_equal. symmetry.
  by apply (loc_in_project_kept _ _ _ _ _ _ _ _ H1).
Qed.

Lemma for_fold_apply_keeps (items : list (str * str)) (item : str * str)
    (n n' : nat) (st st' : State) :
  up_to_date st item ->
  loc_in_project st item.1 ∉ map (fun kv => loc_in_project st kv.1) items ->
  for_fold items n apply_file_change st = Ok n' st' ->
  up_to_date st' item.
Proof.
  revert n st. induction items as [|[f c] items IH]; intros n st Hup Hnot Hrun.
  { by injection Hrun as _ <-. }
  cbn [for_fold] in Hrun. apply bind_Ok_inv in Hrun as (n1 & st1 & H1 & Hrest).
  cbn [map] in Hnot. apply not_elem_of_cons in Hnot as [Hne Hnot].
  pose proof (for_fold_apply_located _ _ _ _ _ Hrest) as Hloc.
  assert (exists l, loc_in_project st item.1 = inr l) as [l Hl].
  { unfold up_to_date in Hup.
    apply fs_read_inr in Hup as (raw & (l & Hl & _)%fs_find_Some & _). by exists l. }
  eapply IH; [|..|exact Hrest].
  - by eapply up_to_date_kept.
  - rewrite (loc_in_project_map _ _ _ _ _ _ _ H1 Hloc).
    rewrite (proj2 (loc_in_project_kept _ _ _ _ _ _ item.1 l H1) Hl).
    by rewrite <- Hl.
Qed.

Lemma for_fold_apply_settles (items : list (str * str)) (n n' : nat) (st st' : State) :
  Forall (fun item => no_lone_CR item.2 = true) items ->
  NoDup (map (fun kv => loc_in_project st kv.1) items) ->
  for_fold items n apply_file_change st = Ok n' st' ->
  Forall (up_to_date st') items.
Proof.
  revert n st. induction items as [|[f c] items IH]; intros n st Hcr Hnd Hrun.
  { constructor. }
  cbn [for_fold] in Hrun. apply bind_Ok_inv in Hrun as (n1 & st1 & H1 & Hrest).
  apply Forall_cons in Hcr as [Hc Hcr]. cbn [map] in Hnd.
  apply NoDup_cons in Hnd as [Hnot Hnd].
  destruct (apply_file_change_returns _ _ _ _ _ _ H1) as (Hself & Hcwd & Hdone).
  pose proof (for_fold_apply_located _ _ _ _ _ Hrest) as Hloc.
  pose proof (loc_in_project_map _ _ _ _ _ _ _ H1 Hloc) as Hmap.
  destruct (apply_file_change_located _ _ _ _ _ _ H1) as [l Hl].
  constructor.
  - eapply (for_fold_apply_keeps items (f, c)); [| |exact Hrest].
    + destruct Hdone as [[Hup Hfs]|Hw].
      * unfold up_to_date in *. by rewrite Hself, Hcwd, Hfs.
      * by eapply written_is_up_to_date.
    + rewrite Hmap. cbn [fst].
      rewrite (proj2 (loc_in_project_kept _ _ _ _ _ _ f l H1) Hl). by rewrite <- Hl.
  - eapply IH; [done| |exact Hrest]. by rewrite Hmap.
Qed.

(** X3 -- the whole-file pass settles: when no generated content has a CR
    that is not followed by LF and no two artifacts are the same file, a pass
    that returns leaves every artifact up to date, so that the pass run again
    from there writes nothing and reports all of them as up to date. *)
Theorem whole_file_pass_settles (st st' : State) :
  let items := PyDict.items (_generated_files (self st)) in
  Forall (fun item => no_lone_CR item.2 = true) items ->
  NoDup (map (fun item => loc_in_project st item.1) items) ->
  _apply_file_changes st = Ok tt st' ->
  Forall (up_to_date st') items
  /\ exists evs,
       _apply_file_changes st'
       = Ok tt (after_output
                  (match items with
                   | [] => []
                   | _ => [up_to_date_message (length items)]
                   end) evs st')
       /\ Forall (fun ev => is_write ev = false) evs.
Proof.
  intros items Hcr Hnd Hrun.
  unfold _apply_file_changes in Hrun.
  apply bind_Ok_inv in Hrun as (u & st0 & Hu & Hrun). injection Hu as <- <-.
  apply bind_Ok_inv in Hrun as (n' & st1 & Hloop & Hprint). fold items in Hloop.
  assert (Hst' : self st' = self st1 /\ fs (world st') = fs (world st1)
                 /\ cwd (world st') = cwd (world st1)).
  { destruct (bool_decide _).
    - rewrite print_spec in Hprint. by injection Hprint as <-.
    - by injection Hprint as <-. }
  destruct Hst' as (Hself & Hfs & Hcwd).
  destruct (for_fold_apply_returns _ _ _ _ _ Hloop) as [Hself1 Hcwd1].
  assert (Hall : Forall (up_to_date st') items).
  { eapply Forall_impl; [by eapply for_fold_apply_settles|].
    intros item Hup. unfold up_to_date, loc_in_project in *.
    by rewrite Hself, Hfs, Hcwd. }
  split; [done|].
  assert (Hitems : PyDict.items (_generated_files (self st')) = items).
  { subst items. by rewrite Hself, Hself1. }
  destruct (up_to_date_pass st') as (evs & Hpass & Hevs).
  { by rewrite Hitems. }
  exists evs. split; [|done]. rewrite Hpass. unfold PyDict.items in Hitems.
  rewrite Hitems. clearbody items. by destruct items.
Qed.

End plain_writes.
(** ** What the renderers may change and raise

    The renderers and [generate_file] are followed once for any relation [R]
    between states that holds across a change of the world, of the cached
    feature sets and internal sources, and of an entry of the cache of
    generated files, and for any set [P] of exceptions with every exception
    in it that is not a [RuntimeError]. *)

Section rendering.
Context `{C : Collaborators}.
Context (R : State -> State -> Prop) `{!PreOrder R} (P : exn -> Prop) (T : Prop).
Context (R_world : forall st w', R st {| self := self st; world := w' |}).
Context (R_feature_sets :
           forall st d, R st {| self := with_feature_sets d (self st); world := world st |}).
Context (R_dirs :
           forall st d,
             R st {| self := with_internal_source_dirs d (self st); world := world st |}).
Context (R_files :
           forall st d,
             R st {| self := with_internal_source_files d (self st); world := world st |}).
Context (R_generated :
           forall st path content,
             R st {| self := with_generated_files
                               (PyDict.set (_generated_files (self st)) path content)
                               (self st);
                     world := world st |}).
Context (P_other : forall e, (forall msg, e <> RuntimeError msg) -> P e).

Lemma rend_sys {A} (m : M World A) :
  sound any_change P T m -> sound R P T (sys m).
Proof. apply (sound_sys any_change R). intros st w' _. apply R_world. Qed.

Lemma rend_raise {A} e : (forall msg, e <> RuntimeError msg) -> sound R P T (raise (A:=A) e).
Proof. intros He. apply sound_raise; [apply _|by apply P_other]. Qed.

Lemma rend_assert b : sound R P T (assert_ b).
Proof. apply sound_assert; [apply _|by apply P_other]. Qed.

Lemma rend_lift_exn {A} (r : exn + A) :
  (forall e, r = inl e -> forall msg, e <> RuntimeError msg) ->
  sound R P T (lift_exn r).
Proof.
  intros Hr. apply sound_lift_exn; [apply _|]. intros e He. apply P_other. by apply Hr.
Qed.

Lemma world_emit ev : sound any_change P T (Sys.emit ev).
Proof. by apply sound_modify. Qed.

Lemma world_call {A} who (r : str + A) : sound any_change P T (Sys.call who r).
Proof.
  destruct r; simpl; [|apply sound_ret; apply _].
  apply sound_raise; [apply _|]. by apply P_other.
Qed.

Lemma world_read_text path : sound any_change P T (Sys.read_text path).
Proof.
  unfold Sys.read_text.
  sound_step; [apply world_emit|]. sound_step; [sound_step|].
  sound_step; [|sound_step]. apply sound_raise; [apply _|].
  apply P_other. intros msg.
  match goal with |- Sys.failed ?f _ <> _ => by destruct f end.
Qed.

Lemma rend_set_generated path content : sound R P T (set_generated path content).
Proof. apply sound_update_self. intros st. apply R_generated. Qed.

Lemma rend_or_raise {A} (e : exn) (o : option A) :
  (forall msg, e <> RuntimeError msg) -> sound R P T (lift_exn (or_raise e o)).
Proof. intros He. apply rend_lift_exn. intros e' Hr. by destruct o; [|injection Hr as <-]. Qed.

Lemma under_internal_dir_raises filename dirs e :
  under_internal_dir filename dirs = inl e -> e = AssertionError.
Proof.
  induction dirs as [|d dirs IH]; [done|]. cbn [under_internal_dir].
  repeat case_match; try done; by intros [= <-].
Qed.

Lemma visual_studio_project_text_raises existing all_files e :
  visual_studio_project_text existing all_files = inl e ->
  e = ValueError \/ e = IndexError.
Proof.
  unfold visual_studio_project_text. repeat case_match; try done; intros [= <-]; eauto.
Qed.

Lemma filters_entries_raises sourcelines acc e :
  filters_entries sourcelines acc = inl e -> e = IndexError.
Proof.
  revert acc. induction sourcelines as [|l ls IH]; intros acc; [done|].
  cbn [filters_entries]. destruct (filters_entry l acc) as [e'|acc'] eqn:Hentry.
  - intros [= <-]. unfold filters_entry in Hentry. destruct acc.
    repeat case_match; try done; by injection Hentry as <-.
  - apply IH.
Qed.

Lemma visual_studio_project_filters_text_raises project e :
  visual_studio_project_filters_text project = inl e -> e = IndexError.
Proof.
  unfold visual_studio_project_filters_text.
  destruct (filters_entries _ _) as [e'|[? ?]] eqn:Hentries; [|done].
  intros [= <-]. by eapply filters_entries_raises.
Qed.

Ltac rend_step :=
  first
    [ sound_step
    | apply rend_set_generated
    | apply rend_assert
    | apply rend_raise; done
    | apply rend_or_raise; done
    | apply rend_sys, world_call
    | apply rend_sys, world_emit
    | apply rend_sys, world_read_text
    | apply rend_sys, sound_get_state; apply _
    | apply sound_update_self; intros ?;
      first [apply R_feature_sets | apply R_dirs | apply R_files] ].

Lemma rend_set_generated_all outfiles : sound R P T (set_generated_all outfiles).
Proof. unfold set_generated_all. repeat rend_step. Qed.

Lemma rend_call_renderer {A} who (f : fsnode -> str -> str + A) :
  sound R P T (call_renderer who f).
Proof. unfold call_renderer. repeat rend_step. Qed.

Lemma rend_source_files : sound R P T source_files.
Proof. unfold source_files. repeat rend_step. Qed.

Lemma rend_header_files : sound R P T header_files.
Proof. unfold header_files. repeat rend_step. Qed.

Lemma rend_feature_sets : sound R P T feature_sets.
Proof. unfold feature_sets. repeat rend_step. Qed.

Lemma rend_read_config which reader root :
  sound R P T (sys (read_config which reader root)).
Proof.
  apply rend_sys. unfold read_config.
  sound_step; [sound_step|]. sound_step; [apply world_emit|apply world_call].
Qed.

Lemma rend_internal_source_files : sound R P T _get_internal_source_files.
Proof.
  unfold _get_internal_source_files.
  repeat first [rend_step | apply rend_read_config].
Qed.

Lemma rend_internal_source_dirs : sound R P T _get_internal_source_dirs.
Proof.
  unfold _get_internal_source_dirs.
  repeat first [rend_step | apply rend_read_config].
Qed.

Lemma rend_is_public_source_file filename : sound R P T (_is_public_source_file filename).
Proof.
  unfold _is_public_source_file.
  repeat first [rend_step | apply rend_internal_source_dirs
                | apply rend_internal_source_files].
  apply rend_lift_exn. intros e He msg. by rewrite (under_internal_dir_raises _ _ _ He).
Qed.

Ltac rend_auto :=
  repeat first
    [ rend_step
    | apply rend_set_generated_all
    | apply rend_call_renderer
    | apply rend_source_files
    | apply rend_header_files
    | apply rend_feature_sets
    | apply rend_is_public_source_file ].

Lemma rend_xcode_project path existing :
  sound R P T (_generate_xcode_project path existing).
Proof. unfold _generate_xcode_project. rend_auto. Qed.

Lemma rend_visual_studio_project fname existing :
  sound R P T (_generate_visual_studio_project fname existing).
Proof.
  unfold _generate_visual_studio_project. rend_auto.
  apply rend_lift_exn. intros e He msg.
  by destruct (visual_studio_project_text_raises _ _ _ He) as [-> | ->].
Qed.

Lemma rend_visual_studio_project_filters (gen : str -> M State str) fname existing :
  sound R P T (gen (PyStr.removesuffix fname ".filters")) ->
  sound R P T (_generate_visual_studio_project_filters gen fname existing).
Proof.
  intros Hgen. unfold _generate_visual_studio_project_filters. rend_auto; [done|].
  apply rend_lift_exn. intros e He msg.
  by rewrite (visual_studio_project_filters_text_raises _ _ He).
Qed.

Lemma rend_cmake_file fname existing :
  sound R P T (_generate_cmake_file fname existing).
Proof. unfold _generate_cmake_file. rend_auto. Qed.

Lemma rend_assets_makefile (gen : str -> M State str) path existing :
  sound R P T (gen "src/meta/.meta_manifest_public.json") ->
  sound R P T (gen "src/meta/.meta_manifest_private.json") ->
  sound R P T (_generate_assets_makefile gen path existing).
Proof.
  intros Hpub Hpriv. unfold _generate_assets_makefile.
  apply sound_bind; [apply _| |intros ?; rend_auto].
  cbn [for_fold]. rend_auto; done.
Qed.

Lemma rend_top_level_makefile path existing :
  sound R P T (_generate_top_level_makefile path existing).
Proof. unfold _generate_top_level_makefile. rend_auto. Qed.

Lemma rend_app_module path existing :
  sound R P T (_generate_app_module path existing).
Proof. unfold _generate_app_module. rend_auto. Qed.

Lemma rend_meta_makefile existing : sound R P T (_generate_meta_makefile existing).
Proof. unfold _generate_meta_makefile. rend_auto. Qed.

Lemma rend_resources_makefile path existing :
  sound R P T (_generate_resources_makefile path existing).
Proof. unfold _generate_resources_makefile. rend_auto. Qed.

Lemma has_formula_project (path : str) :
  PyStr.endswith path ".vcxproj.filters" = true ->
  has_formula (PyStr.removesuffix path ".filters") = true.
Proof.
  intros H. destruct (removesuffix_filters path H) as (H1 & H2 & H3).
  unfold has_formula. by rewrite H1, H2, H3.
Qed.

(** The body of [generate_file] over a function [gen] for the calls it makes
    to itself: those calls are for paths that have a formula. *)
Lemma rend_generate_file_body (gen : str -> M State str) (path : str) :
  P generation_closed ->
  has_formula path = true \/ P (no_formula path) ->
  (forall p, has_formula p = true -> sound R P T (gen p)) ->
  sound R P T (generate_file_body gen path).
Proof.
  intros Hclosed Hpath Hgen. unfold generate_file_body.
  sound_step; [rend_step|]. sound_step.
  { sound_step; [by apply sound_raise; [apply _|]|rend_step]. }
  sound_step; [|rend_auto].
  sound_step; [|rend_step]. sound_step.
  { sound_step; rend_step. }
  sound_step; [rend_step|].
  unfold has_formula in Hpath.
  destruct (PyStr.endswith path "/project.pbxproj"); [apply rend_xcode_project|].
  destruct (PyStr.endswith path ".vcxproj.filters") eqn:Hfilters.
  { apply rend_visual_studio_project_filters, Hgen. by apply has_formula_project. }
  destruct (PyStr.endswith path ".vcxproj"); [apply rend_visual_studio_project|].
  destruct (PyStr.endswith path "CMakeLists.txt"); [apply rend_cmake_file|].
  destruct (bool_decide (path = lit "Makefile")); [apply rend_top_level_makefile|].
  destruct (bool_decide (path = lit "src/assets/Makefile")).
  { apply rend_assets_makefile; by apply Hgen. }
  destruct (PyStr.startswith path "src/assets/.asset_manifest_public").
  { sound_step; [by apply Hgen|rend_step]. }
  destruct (PyStr.startswith path "src/assets/.asset_manifest_private").
  { sound_step; [apply rend_set_generated|]. sound_step; [by apply Hgen|rend_step]. }
  destruct (bool_decide (path = lit "src/resources/Makefile"));
    [apply rend_resources_makefile|].
  destruct (bool_decide (path = lit "src/meta/Makefile")); [apply rend_meta_makefile|].
  destruct (bool_decide (path = lit "src/assets/ba_data/python/babase/_app.py"));
    [apply rend_app_module|].
  destruct (PyStr.startswith path "src/meta/.meta_manifest_").
  { sound_step; [by apply Hgen|]. rend_auto. }
  destruct Hpath as [?|Hpath]; [done|]. by apply sound_raise; [apply _|].
Qed.

End rendering.
(** ** [generate_file]: when it runs, what it fills, what it raises *)

#[global] Instance preserving_preorder {S} (I : S -> Prop) : PreOrder (preserving I).
Proof. split; [by intros s Hs|]. intros s1 s2 s3 H12 H23 H1. by apply H23, H12. Qed.

Section generation_facts.
Context `{C : Collaborators}.

#[global] Instance caching_preorder : PreOrder caching.
Proof. split; [by intros st p Hp|]. intros s1 s2 s3 H12 H23 p Hp. by apply H23, H12. Qed.

Lemma dict_mem_set {V} (d : PyDict.t V) k k' v :
  PyDict.mem d k' = true -> PyDict.mem (PyDict.set d k v) k' = true.
Proof.
  unfold PyDict.mem. rewrite !bool_decide_eq_true. intros Hk'.
  destruct (decide (k = k')) as [->|Hne].
  - rewrite dict_get_set_eq. eauto.
  - by rewrite dict_get_set_ne.
Qed.

Lemma dict_mem_get {V} (d : PyDict.t V) k :
  PyDict.mem d k = true <-> exists v, PyDict.get d k = Some v.
Proof. unfold PyDict.mem. by rewrite bool_decide_eq_true. Qed.

Lemma dict_mem_false {V} (d : PyDict.t V) k :
  PyDict.mem d k = false <-> PyDict.get d k = None.
Proof.
  unfold PyDict.mem. rewrite bool_decide_eq_false.
  destruct (PyDict.get d k) as [v|].
  - split; [intros H; destruct H; eauto|done].
  - split; [done|]. by intros _ [v Hv].
Qed.

(** Whatever the fuel and the outcome, [generate_file] drops nothing from
    the cache. *)
Lemma caching_generate_file (fuel : nat) (path : str) :
  sound caching any_exn True (generate_file_fuel fuel path).
Proof.
  revert path. induction fuel as [|fuel IH]; intros path; [by intros st|].
  cbn [generate_file_fuel].
  apply rend_generate_file_body.
  - apply _.
  - by intros st w' p Hp.
  - by intros st d p Hp.
  - by intros st d p Hp.
  - by intros st d p Hp.
  - intros st p content k. cbn [self _generated_files with_generated_files].
    apply dict_mem_set.
  - done.
  - done.
  - by right.
  - intros p _. apply IH.
Qed.

Lemma generation_closed_is_no_formula_error : not_no_formula generation_closed.
Proof. intros p. unfold generation_closed, no_formula. intros [= H]. Qed.

(** A path that has a formula never ends in the error of a missing formula,
    in the calls it makes to itself either. *)
Lemma formula_generate_file (fuel : nat) (path : str) :
  has_formula path = true ->
  sound any_change not_no_formula True (generate_file_fuel fuel path).
Proof.
  revert path. induction fuel as [|fuel IH]; intros path Hpath; [by intros st|].
  cbn [generate_file_fuel].
  apply rend_generate_file_body.
  - apply _.
  - done.
  - done.
  - done.
  - done.
  - done.
  - intros e He p. unfold no_formula. apply He.
  - apply generation_closed_is_no_formula_error.
  - by left.
  - exact IH.
Qed.

Lemma closed_generation_raises (fuel : nat) (path : str) (st : State) :
  _can_generate_files (self st) = false ->
  generate_file_fuel (S fuel) path st = Raise generation_closed st.
Proof.
  intros Hcan. cbn [generate_file_fuel]. unfold generate_file_body.
  erewrite bind_ok by reflexivity. rewrite Hcan. cbn [negb].
  by erewrite bind_raise by reflexivity.
Qed.

(** The cases in which [generate_file] ends before any renderer: the content
    is in the cache, or the input cannot be read, or the path has no
    formula. *)
Lemma generate_file_cached (fuel : nat) (path content : str) (st : State) :
  _can_generate_files (self st) = true ->
  PyDict.get (_generated_files (self st)) path = Some content ->
  generate_file_fuel (S fuel) path st = Ok content st.
Proof.
  intros Hcan Hget. cbn [generate_file_fuel]. unfold generate_file_body.
  erewrite bind_ok by reflexivity. rewrite Hcan. cbn [negb].
  erewrite bind_ok by reflexivity.
  rewrite (dict_mem_true _ _ _ Hget). cbn [negb].
  erewrite bind_ok by reflexivity.
  erewrite bind_ok by reflexivity.
  by rewrite Hget.
Qed.

Lemma generate_file_unreadable (fuel : nat) (path : str) (e : failure) (st : State) :
  _can_generate_files (self st) = true ->
  PyDict.get (_generated_files (self st)) path = None ->
  default None (PyDict.get (_enqueued_updates (self st)) path) = None ->
  let file := PosixPath.join (projroot (self st)) path in
  FS.read (fs (world st)) (cwd (world st)) file = inl e ->
  generate_file_fuel (S fuel) path st
  = Raise (Sys.failed e file) (after_output [] [EvRead file] st).
Proof.
  intros Hcan Hget Hq file Hread. cbn [generate_file_fuel]. unfold generate_file_body.
  erewrite bind_ok by reflexivity. rewrite Hcan. cbn [negb].
  erewrite bind_ok by reflexivity.
  apply dict_mem_false in Hget. rewrite Hget. cbn [negb].
  erewrite bind_raise; [reflexivity|].
  erewrite bind_raise; [reflexivity|].
  rewrite Hq. fold file. rewrite sys_read_spec. by rewrite Hread.
Qed.

Lemma sys_emit_spec ev st : sys (Sys.emit ev) st = Ok tt (after_output [] [ev] st).
Proof. unfold sys, Sys.emit, after_output. unfold_m. simpl. by rewrite app_nil_r. Qed.

Lemma generate_file_no_formula (fuel : nat) (path : str) (st : State)
    (existing : str) (evs : list event) :
  has_formula path = false ->
  _can_generate_files (self st) = true ->
  PyDict.get (_generated_files (self st)) path = None ->
  match default None (PyDict.get (_enqueued_updates (self st)) path) with
  | Some data => mret data
  | None => sys (Sys.read_text (PosixPath.join (projroot (self st)) path))
  end st = Ok existing (after_output [] evs st) ->
  generate_file_fuel (S fuel) path st
  = Raise (no_formula path) (after_output [] (evs ++ [EvRender path]) st).
Proof.
  intros Hpath Hcan Hget Hinput. cbn [generate_file_fuel]. unfold generate_file_body.
  erewrite bind_ok by reflexivity. rewrite Hcan. cbn [negb].
  erewrite bind_ok by reflexivity.
  apply dict_mem_false in Hget. rewrite Hget. cbn [negb].
  erewrite bind_raise; [reflexivity|].
  erewrite bind_ok by exact Hinput.
  erewrite bind_ok by apply sys_emit_spec.
  rewrite after_output_after_output. cbn [app].
  unfold has_formula in Hpath.
  repeat (apply orb_false_elim in Hpath as [Hpath ?]).
  repeat match goal with H : _ = false |- _ => rewrite H; clear H end.
  done.
Qed.

(** X4 -- the cases in which [generate_file] ends before any renderer has
    been called.  Content in the cache is returned as it is, with no effect.
    Otherwise the input comes first: when no data was enqueued for the path
    and its file cannot be read, the error of the read is the outcome, for
    any path: the error of a missing file or directory, of a regular file on
    the way, of a directory at the path, or of a NUL in the path.  Then a
    path that matches no test of the dispatch ends in the error of the
    missing formula. *)
Theorem generate_file_without_rendering (path : str) (st : State) :
  _can_generate_files (self st) = true ->
  let file := PosixPath.join (projroot (self st)) path in
  let on_disk := FS.read (fs (world st)) (cwd (world st)) file in
  let enqueued := default None (PyDict.get (_enqueued_updates (self st)) path) in
  (forall content,
      PyDict.get (_generated_files (self st)) path = Some content ->
      generate_file path st = Ok content st)
  /\ (forall e,
        PyDict.get (_generated_files (self st)) path = None ->
        enqueued = None -> on_disk = inl e ->
        generate_file path st
        = Raise (Sys.failed e file) (after_output [] [EvRead file] st))
  /\ (has_formula path = false ->
      PyDict.get (_generated_files (self st)) path = None ->
      (forall data,
          enqueued = Some data ->
          generate_file path st
          = Raise (no_formula path) (after_output [] [EvRender path] st))
      /\ (forall data,
            enqueued = None -> on_disk = inr data ->
            generate_file path st
            = Raise (no_formula path)
                (after_output [] [EvRead file; EvRender path] st))).
Proof.
  intros Hcan file on_disk enqueued. split; [|split].
  - intros content Hget. by apply generate_file_cached.
  - intros e Hget Hq Hread. by apply generate_file_unreadable.
  - intros Hpath Hget. split.
    + intros data Hq.
      apply (generate_file_no_formula _ path st data []); try done.
      fold enqueued. rewrite Hq. unfold_m. by rewrite after_output_nil.
    + intros data Hq Hread.
      apply (generate_file_no_formula _ path st data [EvRead file]); try done.
      fold enqueued. rewrite Hq. fold file. rewrite sys_read_spec.
      fold on_disk. by rewrite Hread.
Qed.

(** X5 -- generating files fills caches and nothing else: whatever the path
    and the outcome of the call, the files, the output, the ledger of line
    corrections, the inventory of sources and headers and the settings of
    the updater are as they were. *)
Theorem generate_file_only_fills_caches (path : str) (st : State) :
  let st' := state_of (generate_file path st) st in
  fs (world st') = fs (world st)
  /\ cwd (world st') = cwd (world st)
  /\ stdout (world st') = stdout (world st)
  /\ _line_corrections (self st') = _line_corrections (self st)
  /\ _source_files (self st') = _source_files (self st)
  /\ _header_files (self st') = _header_files (self st)
  /\ projname (self st') = projname (self st)
  /\ projroot (self st') = projroot (self st)
  /\ check (self st') = check (self st)
  /\ fix_ (self st') = fix_ (self st)
  /\ public (self st') = public (self st)
  /\ license_line_checks (self st') = license_line_checks (self st)
  /\ run_file_checks (self st') = run_file_checks (self st)
  /\ _can_generate_files (self st') = _can_generate_files (self st).
Proof.
  intros st'. subst st'.
  pose proof (generating_generate_file generate_file_depth path st) as Hframe.
  fold (generate_file path) in Hframe.
  assert (generating st (state_of (generate_file path st) st)) as [Hs Hq].
  { destruct (generate_file path st); [done|by destruct Hframe|reflexivity]. }
  destruct Hs as (? & ? & ? & ? & ? & ? & ? & ? & ? & ? & ? & ?).
  destruct Hq as (? & ? & ?). by repeat split.
Qed.

(** X6 -- the calls [generate_file] makes to itself, directly and through the
    renderers of the filters file and of the assets Makefile, are never more
    than four deep: a call returns or raises, and with any larger bound on
    the depth the outcome is the same. *)
Theorem generate_file_nests_four_deep (n : nat) (path : str) (st : State) :
  generate_file path st <> Timeout
  /\ generate_file_fuel (generate_file_depth + n) path st = generate_file path st.
Proof.
  split; [apply generate_file_returns_or_raises|apply generate_file_fuel_enough].
Qed.

End generation_facts.

Section closing.
Context `{C : Collaborators} `{K : @Checks C}.

(** X7 -- [run] closes generation before it applies anything: once
    generation and checks have returned, every call of [generate_file] is
    refused, for any path, cached or not. *)
Theorem generation_is_closed_after_the_checks (st st' : State) :
  run_generate_and_check st = Ok tt st' ->
  _can_generate_files (self st') = false
  /\ forall path, generate_file path st' = Raise generation_closed st'.
Proof.
  intros Hrun.
  assert (Hcan : _can_generate_files (self st') = false).
  { unfold run_generate_and_check in Hrun.
    apply bind_Ok_inv in Hrun as ([] & s1 & _ & Hrun).
    apply bind_Ok_inv in Hrun as (u & s1' & _ & Hrun).
    apply bind_Ok_inv in Hrun as ([] & s2 & _ & Hrun).
    apply bind_Ok_inv in Hrun as (u2 & s2' & _ & Hrun).
    apply bind_Ok_inv in Hrun as ([] & s3 & _ & Hrun).
    apply bind_Ok_inv in Hrun as ([] & s4 & [= <-] & Hrun).
    apply bind_Ok_inv in Hrun as (u4 & s4' & [= <- <-] & Hrun).
    unfold assert_ in Hrun. destruct (PyDict.eqb _ _); [|done].
    by injection Hrun as <-. }
  split; [done|]. intros path. by apply closed_generation_raises.
Qed.

End closing.
(** ** The cache of generated files over a run *)

Section cache_facts.
Context `{C : Collaborators}.

Lemma generate_file_returns_cached (fuel : nat) (path content : str) (st st' : State) :
  generate_file_fuel fuel path st = Ok content st' ->
  PyDict.get (_generated_files (self st')) path = Some content.
Proof.
  intros Hrun. destruct fuel as [|fuel]; [done|].
  cbn [generate_file_fuel] in Hrun. unfold generate_file_body in Hrun.
  apply bind_Ok_inv in Hrun as (u & s0 & _ & Hrun).
  apply bind_Ok_inv in Hrun as ([] & s1 & _ & Hrun).
  apply bind_Ok_inv in Hrun as ([] & s2 & _ & Hrun).
  apply bind_Ok_inv in Hrun as (u' & s3 & [= <- <-] & Hrun).
  destruct (PyDict.get (_generated_files (self s2)) path) as [c|] eqn:Hget; [|done].
  by injection Hrun as <- <-.
Qed.

Lemma generation_loop_caches (paths : list str) (st st' : State) :
  for_each paths (fun path => generate_file path ;; mret tt) st = Ok tt st' ->
  caching st st'
  /\ forall path, path ∈ paths -> PyDict.mem (_generated_files (self st')) path = true.
Proof.
  revert st. induction paths as [|p paths IH]; intros st Hrun.
  { injection Hrun as <-. split; [reflexivity|]. by intros path ?%elem_of_nil. }
  cbn [for_each] in Hrun.
  apply bind_Ok_inv in Hrun as ([] & s1 & Hp & Hrest).
  apply bind_Ok_inv in Hp as (content & s1' & Hgen & [= <-]).
  destruct (IH _ Hrest) as [Hgrow Hall].
  pose proof (caching_generate_file generate_file_depth p st) as Hstep.
  fold (generate_file p) in Hstep. rewrite Hgen in Hstep.
  split; [by etrans|].
  intros path [->|Hin]%elem_of_cons; [|by apply Hall].
  apply Hgrow. eapply dict_mem_true. by eapply generate_file_returns_cached.
Qed.

Lemma prepare_to_generate_keeps (st : State) :
  let st' := state_of (prepare_to_generate st) st in
  _enqueued_updates (self st') = _enqueued_updates (self st)
  /\ _generated_files (self st') = _generated_files (self st)
  /\ run_file_checks (self st') = run_file_checks (self st)
  /\ _line_corrections (self st') = _line_corrections (self st)
  /\ fs (world st') = fs (world st)
  /\ stdout (world st') = stdout (world st).
Proof.
  set (I := fun s : State =>
              _enqueued_updates (self s) = _enqueued_updates (self st)
              /\ _generated_files (self s) = _generated_files (self st)
              /\ run_file_checks (self s) = run_file_checks (self st)
              /\ _line_corrections (self s) = _line_corrections (self st)
              /\ fs (world s) = fs (world st)
              /\ stdout (world s) = stdout (world st)).
  set (J := fun w : World => fs w = fs (world st) /\ stdout w = stdout (world st)).
  assert (HIJ : forall s w', preserving J (world s) w' ->
                             preserving I s {| self := self s; world := w' |}).
  { intros s w' Hw (? & ? & ? & ? & Hf & Ho). destruct (Hw (conj Hf Ho)).
    by repeat split. }
  assert (Hsound : sound (preserving I) any_exn True prepare_to_generate).
  { unfold prepare_to_generate, _find_sources_and_headers, Sys.isdir, Sys.walk.
    repeat first
      [ sound_step
      | apply sound_raise; [apply _|done]
      | apply sound_update_self; by intros ? ?
      | apply (sound_sys (preserving J) _ _ _ HIJ)
      | apply sound_modify; by intros ? ? ]. }
  intros st'. subst st'. specialize (Hsound st).
  assert (HI : I st) by done.
  destruct (prepare_to_generate st); [by apply Hsound|by apply Hsound|done].
Qed.

Lemma suffixes_of_same_length (a b l : str) :
  a `suffix_of` l -> b `suffix_of` l -> length a = length b -> a = b.
Proof.
  intros Ha Hb Hlen.
  assert (b `suffix_of` a) as Hba by (eapply suffix_of_both; [done..|lia]).
  symmetry. apply suffix_length_eq; [done|lia].
Qed.

(** X9 -- a filters file brings its project file along: when the call for a
    path ending in [.vcxproj.filters] that was not in the cache returns, the
    project file (the path without [.filters]) is in the cache too, and the
    content returned is the filters text computed from that project. *)
Theorem filters_file_brings_its_project (path content : str) (st st' : State) :
  PyStr.endswith path ".vcxproj.filters" = true ->
  PyDict.get (_generated_files (self st)) path = None ->
  generate_file path st = Ok content st' ->
  exists project,
    PyDict.get (_generated_files (self st')) (PyStr.removesuffix path ".filters")
    = Some project
    /\ visual_studio_project_filters_text project = inr content
    /\ PyDict.get (_generated_files (self st')) path = Some content.
Proof.
  intros Hfilters Hnew Hrun.
  assert (Hxcode : PyStr.endswith path "/project.pbxproj" = false).
  { apply not_true_is_false. intros Hx.
    apply endswith_suffix in Hx, Hfilters.
    by pose proof (suffixes_of_same_length _ _ _ Hx Hfilters eq_refl). }
  assert (Hne : path <> PyStr.removesuffix path ".filters").
  { intros Heq. apply (f_equal length) in Heq. unfold PyStr.removesuffix in Heq.
    assert (PyStr.endswith path ".filters" = true) as Hf.
    { apply endswith_suffix. apply endswith_suffix in Hfilters.
      etrans; [|exact Hfilters]. by exists (lit ".vcxproj"). }
    rewrite Hf in Heq. rewrite length_take in Heq.
    apply endswith_suffix in Hf as [k ->]. rewrite length_app in Heq.
    change (length (lit ".filters")) with 8%nat in Heq. lia. }
  unfold generate_file, generate_file_depth in Hrun.
  change (generate_file_fuel 4 path st)
    with (generate_file_body (generate_file_fuel 3) path st) in Hrun.
  unfold generate_file_body in Hrun.
  apply bind_Ok_inv in Hrun as (u & s0 & [= <- <-] & Hrun).
  apply bind_Ok_inv in Hrun as ([] & s1 & Hcan & Hrun).
  destruct (negb (_can_generate_files (self st))); [done|]. injection Hcan as <-.
  apply dict_mem_false in Hnew. rewrite Hnew in Hrun. cbn [negb] in Hrun.
  apply bind_Ok_inv in Hrun as ([] & s2 & Hrender & Hrun).
  apply bind_Ok_inv in Hrun as (u' & s3 & [= <- <-] & Hrun).
  apply bind_Ok_inv in Hrender as (existing & s4 & _ & Hrender).
  apply bind_Ok_inv in Hrender as ([] & s5 & _ & Hrender).
  rewrite Hxcode, Hfilters in Hrender.
  unfold _generate_visual_studio_project_filters in Hrender.
  apply bind_Ok_inv in Hrender as ([] & s6 & _ & Hrender).
  apply bind_Ok_inv in Hrender as (project & s7 & Hproject & Hrender).
  apply bind_Ok_inv in Hrender as (out & s8 & Hout & Hset).
  apply generate_file_returns_cached in Hproject.
  unfold lift_exn in Hout.
  destruct (visual_studio_project_filters_text project) as [e|out'] eqn:Htext; [done|].
  injection Hout as <- <-. injection Hset as <-.
  cbn [self _generated_files with_generated_files] in Hrun.
  rewrite dict_get_set_eq in Hrun. injection Hrun as <- <-.
  exists project. cbn [self _generated_files with_generated_files].
  rewrite dict_get_set_ne by done. rewrite dict_get_set_eq. done.
Qed.

End cache_facts.

Section generation_phase.
Context `{C : Collaborators} `{K : @Checks C}.

(** X8 -- every update in the queue has its generated file when the apply
    phase begins: if generation and checks return, each path enqueued at the
    start of the run is in the cache of generated files (the checks being
    off, or dropping nothing from the cache themselves). *)
Theorem enqueued_updates_are_generated (st st' : State) :
  (run_file_checks (self st) = true ->
   Forall (sound caching any_exn True)
     [check_makefiles; check_python_files; check_sync_states;
      check_misc; check_source_files; check_headers]) ->
  run_generate_and_check st = Ok tt st' ->
  forall path,
    path ∈ PyDict.keys (_enqueued_updates (self st)) ->
    PyDict.mem (_generated_files (self st')) path = true.
Proof.
  intros Hchecks Hrun path Hin. unfold run_generate_and_check in Hrun.
  apply bind_Ok_inv in Hrun as ([] & s1 & Hprep & Hrun).
  pose proof (prepare_to_generate_keeps st) as Hkeep. cbv zeta in Hkeep.
  rewrite Hprep in Hkeep. cbn [state_of] in Hkeep.
  destruct Hkeep as (Hq & _ & Hrfc & _).
  apply bind_Ok_inv in Hrun as (u & s1' & [= <- <-] & Hrun).
  apply bind_Ok_inv in Hrun as ([] & s2 & Hloop & Hrun).
  apply generation_loop_caches in Hloop as Hcached. destruct Hcached as [_ Hcached].
  rewrite Hq in Hcached. specialize (Hcached path Hin).
  assert (Hrfc2 : run_file_checks (self s2) = run_file_checks (self st)).
  { rewrite <- Hrfc. clear -Hloop.
    revert Hloop. generalize (PyDict.keys (_enqueued_updates (self s1))).
    intros paths. revert s1. induction paths as [|p paths IH]; intros s1 Hloop.
    { by injection Hloop as <-. }
    cbn [for_each] in Hloop.
    apply bind_Ok_inv in Hloop as ([] & s1' & Hp & Hrest).
    apply bind_Ok_inv in Hp as (content & s1'' & Hgen & [= <-]).
    rewrite (IH _ Hrest).
    pose proof (generating_generate_file generate_file_depth p s1) as Hframe.
    fold (generate_file p) in Hframe. rewrite Hgen in Hframe.
    by destruct Hframe as [(_ & _ & _ & _ & _ & _ & _ & _ & _ & _ & _ & ?) _]. }
  apply bind_Ok_inv in Hrun as (u2 & s2' & [= <- <-] & Hrun).
  apply bind_Ok_inv in Hrun as ([] & s3 & Hrun3 & Hrun).
  assert (Hgrow : caching s2 s3).
  { rewrite Hrfc2 in Hrun3. destruct (run_file_checks (self st)).
    - specialize (Hchecks eq_refl).
      assert (Hall : sound caching any_exn True
                (check_makefiles ;; check_python_files ;; check_sync_states ;;
                 check_misc ;; check_source_files ;; check_headers)).
      { repeat (apply Forall_cons in Hchecks as [? Hchecks]).
        repeat (apply sound_bind; [apply _|done|intros _]). done. }
      specialize (Hall s2). by rewrite Hrun3 in Hall.
    - by injection Hrun3 as <-. }
  apply bind_Ok_inv in Hrun as ([] & s4 & [= <-] & Hrun).
  apply bind_Ok_inv in Hrun as (u4 & s4' & [= <- <-] & Hrun).
  unfold assert_ in Hrun. destruct (PyDict.eqb _ _); [|done].
  injection Hrun as <-. cbn [self _generated_files with_can_generate_files].
  by apply Hgrow.
Qed.

End generation_phase.
(** ** Construction *)

Section construction_facts.
Context `{C : Collaborators}.

Lemma read_config_returns which reader root (w w1 : World) cfg :
  read_config which reader root w = Ok cfg w1 ->
  reader (fs w) (cwd w) root = inr cfg /\ quiet w w1.
Proof.
  unfold read_config, Sys.emit, Sys.call. unfold_m.
  destruct (reader (fs w) (cwd w) root) as [d|cfg']; [done|].
  intros [= <- <-]. done.
Qed.

Lemma on_object_returns u (m : M State unit) (w w' : World) u' :
  on_object u m w = Ok u' w' ->
  m {| self := u; world := w |} = Ok tt {| self := u'; world := w' |}.
Proof.
  unfold on_object. destruct (m _) as [[] [u1 w1]| |]; [|done..].
  by intros [= <- <-].
Qed.

(** What the methods that enqueue the default updates keep. *)
Lemma updates_keep (I : State -> Prop) (J : World -> Prop) :
  (forall st w', (J (world st) -> J w') -> I st -> I {| self := self st; world := w' |}) ->
  (forall w ev, J w -> J {| fs := fs w; cwd := cwd w; stdout := stdout w;
                            trace := trace w ++ [ev] |}) ->
  (forall path, has_formula path = true ->
                sound (preserving I) any_exn True (enqueue_update path None)) ->
  sound (preserving I) any_exn True
    (_update_meta_makefile ;;
     _update_resources_makefile ;;
     _update_assets_makefile ;;
     _update_top_level_makefile ;;
     _update_cmake_files ;;
     _update_visual_studio_projects ;;
     _update_xcode_projects ;;
     _update_app_module).
Proof.
  intros HIJ HJ Henq.
  unfold _update_meta_makefile, _update_resources_makefile, _update_assets_makefile,
    _update_top_level_makefile, _update_cmake_files, _update_visual_studio_projects,
    _update_visual_studio_project, _update_xcode_projects, _update_app_module.
  cbn [for_each]. unfold Sys.exists_, Sys.emit.
  repeat first
    [ sound_step
    | apply Henq; vm_compute; reflexivity
    | apply sound_assert; [apply _|done]
    | apply (sound_sys (preserving J) _ _ _ HIJ)
    | apply sound_modify; intros ? ?; by apply HJ ].
Qed.

Lemma dict_set_Forall {V} (Q : str * V -> Prop) (d : PyDict.t V) k v :
  Forall Q d -> Q (k, v) -> Forall Q (PyDict.set d k v).
Proof.
  intros Hd Hkv. induction d as [|[k' v'] d IH]; cbn [PyDict.set].
  { by constructor. }
  apply Forall_cons in Hd as [? ?].
  destruct (decide (k' = k)); constructor; auto.
Qed.

(** What [__init__] has done when it returns, up to the default updates. *)
Lemma init_returns projroot_arg check_arg fix_arg empty projname_arg
    (w w' : World) (u : ProjectUpdater) :
  __init__ projroot_arg check_arg fix_arg empty projname_arg w = Ok u w' ->
  fix_arg && check_arg = false
  /\ exists u0 w0,
       projname u0 = projname_arg
       /\ projroot u0 = PosixPath.abspath (cwd w) projroot_arg
       /\ check u0 = check_arg /\ fix_ u0 = fix_arg
       /\ run_file_checks u0 = true /\ _enqueued_updates u0 = []
       /\ fresh u0 /\ quiet w w0
       /\ if empty then u = with_run_file_checks false u0 /\ w' = w0
          else (_update_meta_makefile ;;
                _update_resources_makefile ;;
                _update_assets_makefile ;;
                _update_top_level_makefile ;;
                _update_cmake_files ;;
                _update_visual_studio_projects ;;
                _update_xcode_projects ;;
                _update_app_module) {| self := u0; world := w0 |}
               = Ok tt {| self := u; world := w' |}.
Proof.
  intros Hrun. unfold __init__ in Hrun.
  apply bind_Ok_inv in Hrun as (w0 & w0' & [= <- <-] & Hrun).
  apply bind_Ok_inv in Hrun as ([] & w1 & Hmode & Hrun).
  destruct (fix_arg && check_arg); [done|]. injection Hmode as <-.
  split; [done|].
  apply bind_Ok_inv in Hrun as (config & w2 & Hconfig & Hrun).
  apply read_config_returns in Hconfig as [_ Hq2].
  apply bind_Ok_inv in Hrun as (public_flag & w3 & Hpublic & Hrun).
  assert (w3 = w2) as ->.
  { destruct (default _ _); [|done..]. by injection Hpublic. }
  apply bind_Ok_inv in Hrun as (localconfig & w4 & Hlocal & Hrun).
  apply read_config_returns in Hlocal as [_ Hq4].
  match type of Hrun with context [on_object ?u0 _] => exists u0, w4 end.
  do 6 (split; [reflexivity|]). split; [by repeat split|].
  split; [by etrans|].
  destruct empty.
  - by injection Hrun as <- <-.
  - by apply on_object_returns.
Qed.

(** X10 -- an updater that has been constructed is fresh: it has the
    arguments as its settings, with the project root made absolute and the
    checks on unless it is to be empty; it has no inventory, no correction,
    nothing generated and an empty queue if it is to be empty; constructing
    it has written no file and printed nothing; and it refuses to generate
    until a run has prepared it. *)
Theorem constructed_updater_is_fresh projroot_arg check_arg fix_arg empty projname_arg
    (w w' : World) (u : ProjectUpdater) :
  __init__ projroot_arg check_arg fix_arg empty projname_arg w = Ok u w' ->
  fix_arg && check_arg = false
  /\ projname u = projname_arg
  /\ projroot u = PosixPath.abspath (cwd w) projroot_arg
  /\ check u = check_arg /\ fix_ u = fix_arg
  /\ run_file_checks u = negb empty
  /\ (empty = true -> _enqueued_updates u = [])
  /\ fresh u
  /\ quiet w w'
  /\ (forall path w1,
        generate_file path {| self := u; world := w1 |}
        = Raise generation_closed {| self := u; world := w1 |}).
Proof.
  intros Hrun.
  apply init_returns in Hrun
    as (Hmode & u0 & w0 & Hname & Hroot & Hcheck & Hfix & Hrfc & Hqueue & Hfresh & Hq & Hrun).
  set (I := fun st : State =>
              projname (self st) = projname_arg
              /\ projroot (self st) = PosixPath.abspath (cwd w) projroot_arg
              /\ check (self st) = check_arg /\ fix_ (self st) = fix_arg
              /\ run_file_checks (self st) = true
              /\ fresh (self st) /\ quiet w (world st)).
  assert (Hall : projname u = projname_arg
                 /\ projroot u = PosixPath.abspath (cwd w) projroot_arg
                 /\ check u = check_arg /\ fix_ u = fix_arg
                 /\ run_file_checks u = negb empty
                 /\ (empty = true -> _enqueued_updates u = [])
                 /\ fresh u /\ quiet w w').
  { destruct empty.
    { destruct Hrun as [-> ->].
      destruct Hfresh as (? & ? & ? & ? & ? & ? & ? & ?), Hq as (? & ? & ?).
      by repeat split. }
    assert (HIJ : forall st w1, (quiet w (world st) -> quiet w w1) ->
                    I st -> I {| self := self st; world := w1 |}).
    { intros st w1 Hw (? & ? & ? & ? & ? & ? & ?). unfold I. cbn [self world].
      do 5 (split; [done|]). split; [done|by apply Hw]. }
    assert (HJ : forall w1 ev, quiet w w1 ->
                   quiet w {| fs := fs w1; cwd := cwd w1; stdout := stdout w1;
                              trace := trace w1 ++ [ev] |}).
    { by intros w1 ev (? & ? & ?). }
    assert (Henq : forall path, has_formula path = true ->
                     sound (preserving I) any_exn True (enqueue_update path None)).
    { intros path _. apply sound_update_self. by intros st HI. }
    pose proof (updates_keep I (quiet w) HIJ HJ Henq {| self := u0; world := w0 |})
      as Hkeep.
    rewrite Hrun in Hkeep.
    destruct Hkeep as (? & ? & ? & ? & ? & ? & ?); [by unfold I|].
    split_and!; done. }
  destruct Hall as (? & ? & ? & ? & ? & ? & Hf & ?). split_and!; try done.
  intros path w1. apply closed_generation_raises.
  by destruct Hf as (_ & _ & _ & _ & ? & _).
Qed.

(** X11 -- every update the constructor enqueues has a formula and no data
    of its own, and a path that has a formula never ends in the error of a
    missing formula, neither for itself nor for a path it asks for: an
    updater run as constructed does not fail for lack of a formula. *)
Theorem default_updates_have_formulas :
  (forall projroot_arg check_arg fix_arg empty projname_arg (w w' : World) u,
      __init__ projroot_arg check_arg fix_arg empty projname_arg w = Ok u w' ->
      Forall (fun kv => has_formula kv.1 = true /\ kv.2 = None) (_enqueued_updates u))
  /\ (forall path st,
        has_formula path = true ->
        match generate_file path st with
        | Raise e _ => forall p, e <> no_formula p
        | _ => True
        end).
Proof.
  split.
  - intros projroot_arg check_arg fix_arg empty projname_arg w w' u Hrun.
    apply init_returns in Hrun
      as (_ & u0 & w0 & _ & _ & _ & _ & _ & Hqueue & _ & _ & Hrun).
    destruct empty.
    { destruct Hrun as [-> _]. cbn [_enqueued_updates with_run_file_checks].
      rewrite Hqueue. constructor. }
    set (I := fun st : State =>
                Forall (fun kv : str * option str => has_formula kv.1 = true /\ kv.2 = None)
                       (_enqueued_updates (self st))).
    assert (HIJ : forall st w1, (True -> True) ->
                    I st -> I {| self := self st; world := w1 |}).
    { by intros st w1 _ ?. }
    assert (Henq : forall path, has_formula path = true ->
                     sound (preserving I) any_exn True (enqueue_update path None)).
    { intros path Hpath. apply sound_update_self. intros st HI.
      subst I. cbn [self _enqueued_updates with_enqueued_updates].
      by apply dict_set_Forall. }
    pose proof (updates_keep I (fun _ => True) HIJ ltac:(done) Henq
                  {| self := u0; world := w0 |}) as Hkeep.
    rewrite Hrun in Hkeep.
    apply Hkeep. subst I. cbn [self]. rewrite Hqueue. constructor.
  - intros path st Hpath.
    pose proof (formula_generate_file generate_file_depth path Hpath st) as Hsound.
    fold (generate_file path) in Hsound.
    destruct (generate_file path st); [done| |done]. by destruct Hsound.
Qed.

End construction_facts.
(** ** A run up to its apply phase *)

Section run_facts.
Context `{C : Collaborators} `{K : @Checks C}.

#[global] Instance keeps_files_preorder : PreOrder keeps_files.
Proof.
  split; [by intros st|]. intros s1 s2 s3. unfold keeps_files. congruence.
Qed.

Lemma sys_isdir_spec p st :
  sys (Sys.isdir p) st
  = Ok (FS.isdir (fs (world st)) (cwd (world st)) p)
       (after_output [] [EvIsdir p] st).
Proof.
  unfold sys, Sys.isdir, Sys.emit, after_output. unfold_m. simpl.
  by rewrite app_nil_r.
Qed.

(** A path with a NUL in it is no directory, and joining names without one
    brings none in. *)
Lemma fs_isdir_no_NUL t cwd path : FS.isdir t cwd path = true -> NUL ∉ path.
Proof.
  intros (es & (l & Hl & _)%fs_find_Some)%fs_isdir_find.
  by apply fs_locate_inr in Hl as (? & _).
Qed.

Lemma join_NUL (a b : str) :
  PyStr.startswith b "/" = false -> NUL ∉ b -> NUL ∈ PosixPath.join a b <-> NUL ∈ a.
Proof.
  intros Hb Hnul. unfold PosixPath.join. rewrite Hb.
  destruct (_ || _); rewrite ?elem_of_app; [naive_solver|].
  split; [|by left]. intros [?|[Hs|?]]; [done| |done].
  apply list_elem_of_singleton in Hs. discriminate.
Qed.



Lemma keeps_files_generation_loop (paths : list str) :
  sound keeps_files any_exn False
    (for_each paths (fun path => generate_file path ;; mret tt)).
Proof.
  apply sound_for_each; [apply _|]. intros path.
  apply sound_bind; [apply _| |intros ?; apply sound_ret; apply _].
  eapply sound_weaken; [| | |apply (total_generate_file 3 path); lia]; try done.
  by intros s s' [_ (? & _)].
Qed.

(** X13 -- up to its apply phase a run writes no file: whether generation
    and checks return or raise, the files are then what they were when the
    run began (the checks being off, or writing no file themselves).  A file
    that cannot be generated, or a check that fails, so leaves the project as
    it was. *)
Theorem generation_writes_no_file (st : State) :
  (run_file_checks (self st) = true ->
   Forall (sound keeps_files any_exn True)
     [check_makefiles; check_python_files; check_sync_states;
      check_misc; check_source_files; check_headers]) ->
  fs (world (state_of (run_generate_and_check st) st)) = fs (world st).
Proof.
  intros Hchecks.
  assert (Hprep : sound keeps_files any_exn True prepare_to_generate).
  { intros s. pose proof (prepare_to_generate_keeps s) as Hkeep. cbv zeta in Hkeep.
    destruct (prepare_to_generate s); [|split; [|done]|done];
      by destruct Hkeep as (_ & _ & _ & _ & ? & _). }
  assert (Hrfc : forall s, sound keeps_files any_exn True
                   (if run_file_checks (self s)
                    then check_makefiles ;; check_python_files ;; check_sync_states ;;
                         check_misc ;; check_source_files ;; check_headers
                    else mret tt) \/ run_file_checks (self s) <> run_file_checks (self st)).
  { intros s. destruct (run_file_checks (self s)) eqn:Hs.
    - destruct (run_file_checks (self st)); [left|by right].
      specialize (Hchecks eq_refl).
      repeat (apply Forall_cons in Hchecks as [? Hchecks]).
      repeat (apply sound_bind; [apply _|done|intros _]). done.
    - left. apply sound_ret. apply _. }
  assert (Hsound : keeps_files st (state_of (run_generate_and_check st) st)).
  2:{ done. }
  unfold run_generate_and_check.
  unfold mbind at 1, M_bind at 1.
  pose proof (Hprep st) as H1. pose proof (prepare_to_generate_keeps st) as Hkeep1.
  cbv zeta in Hkeep1.
  destruct (prepare_to_generate st) as [[] s1|e s1|]; [|by destruct H1|done].
  cbn [state_of] in Hkeep1. destruct Hkeep1 as (_ & _ & Hrfc1 & _).
  erewrite bind_ok by reflexivity.
  unfold mbind at 1, M_bind at 1.
  pose proof (keeps_files_generation_loop (PyDict.keys (_enqueued_updates (self s1))) s1)
    as H2.
  assert (Hrfc2 : forall s2 r,
             for_each (PyDict.keys (_enqueued_updates (self s1)))
               (fun path => generate_file path ;; mret tt) s1 = Ok r s2 ->
             run_file_checks (self s2) = run_file_checks (self s1)).
  { generalize (PyDict.keys (_enqueued_updates (self s1))).
    intros paths. generalize s1. clear.
    induction paths as [|p paths IH]; intros s1 s2 r Hloop.
    { by injection Hloop as _ <-. }
    cbn [for_each] in Hloop.
    apply bind_Ok_inv in Hloop as ([] & s1' & Hp & Hrest).
    apply bind_Ok_inv in Hp as (content & s1'' & Hgen & [= <-]).
    rewrite (IH _ _ _ Hrest).
    pose proof (generating_generate_file generate_file_depth p s1) as Hframe.
    fold (generate_file p) in Hframe. rewrite Hgen in Hframe.
    by destruct Hframe as [(_ & _ & _ & _ & _ & _ & _ & _ & _ & _ & _ & ?) _]. }
  destruct (for_each _ _ s1) as [[] s2|e s2|] eqn:Hloop;
    [|destruct H2; by etrans|done].
  specialize (Hrfc2 _ _ eq_refl).
  erewrite bind_ok by reflexivity.
  unfold mbind at 1, M_bind at 1.
  destruct (Hrfc s2) as [H3|Hne]; [|congruence].
  specialize (H3 s2).
  match type of H3 with
  | match ?r with _ => _ end => destruct r as [[] s3|e s3|]
  end; [|destruct H3; by etrans; [|etrans]|done].
  erewrite bind_ok by reflexivity.
  erewrite bind_ok by reflexivity.
  unfold assert_. cbn [self world with_can_generate_files].
  unfold keeps_files in *.
  destruct (PyDict.eqb _ _); unfold mret, M_ret, raise; simpl; congruence.
Qed.

Lemma prepare_to_generate_valid (st : State) :
  let config := PosixPath.join (projroot (self st)) "config" in
  let tools := PosixPath.join (projroot (self st)) "tools" in
  let scan_dir := PosixPath.join (projroot (self st)) "src/ballistica" in
  let found := scan_triples scan_dir (FS.walk (fs (world st)) (cwd (world st)) scan_dir) in
  FS.isdir (fs (world st)) (cwd (world st)) config = true ->
  FS.isdir (fs (world st)) (cwd (world st)) tools = true ->
  prepare_to_generate st
  = Ok tt (after_output [] [EvIsdir config; EvIsdir tools; EvWalk scan_dir]
             {| self := with_can_generate_files true
                          (with_inventory (without_generated found.1)
                                          (without_generated found.2) (self st));
                world := world st |}).
Proof.
  intros config tools scan_dir found Hconfig Htools.
  assert (Hnul : NUL ∉ scan_dir).
  { pose proof (fs_isdir_no_NUL _ _ _ Hconfig) as Hc. subst config scan_dir.
    intros Hs. apply Hc.
    apply join_NUL in Hs;
      [|done|apply (bool_decide_unpack _); vm_compute; exact I].
    apply join_NUL; [done|apply (bool_decide_unpack _); vm_compute; exact I|done]. }
  unfold prepare_to_generate.
  erewrite bind_ok by reflexivity. fold config tools scan_dir.
  erewrite bind_ok by apply sys_isdir_spec. rewrite Hconfig.
  erewrite bind_ok by apply sys_isdir_spec.
  cbn [world after_output fs cwd]. rewrite Htools. cbn [negb orb].
  erewrite bind_ok by reflexivity.
  erewrite bind_ok by (by apply find_sources_and_headers_run).
  unfold update_self, modify, after_output. simpl. fold found.
  by rewrite !app_nil_r, <- !app_assoc.
Qed.

(** X14 -- a run with nothing to do: on a project root, with an empty queue,
    no correction, nothing generated and the checks off, [run] scans the
    sources, prints the number of sources and headers it found and returns;
    no file is written and nothing else is printed. *)
Theorem run_without_work_counts_the_sources (st : State) :
  let config := PosixPath.join (projroot (self st)) "config" in
  let tools := PosixPath.join (projroot (self st)) "tools" in
  let scan_dir := PosixPath.join (projroot (self st)) "src/ballistica" in
  let found := scan_triples scan_dir (FS.walk (fs (world st)) (cwd (world st)) scan_dir) in
  let srcs := without_generated found.1 in
  let hdrs := without_generated found.2 in
  FS.isdir (fs (world st)) (cwd (world st)) config = true ->
  FS.isdir (fs (world st)) (cwd (world st)) tools = true ->
  _enqueued_updates (self st) = [] ->
  _line_corrections (self st) = [] ->
  _generated_files (self st) = [] ->
  run_file_checks (self st) = false ->
  run st
  = Ok tt
      (after_output
         ["No issues found in "
          ++ PyStr.of_int (Z.of_nat (length hdrs + length srcs)) ++ " source files."]
         [EvIsdir config; EvIsdir tools; EvWalk scan_dir]
         {| self := with_can_generate_files false (with_inventory srcs hdrs (self st));
            world := world st |}).
Proof.
  intros config tools scan_dir found srcs hdrs Hconfig Htools Hqueue Hledger Hcache Hrfc.
  unfold run, run_generate_and_check.
  erewrite bind_ok.
  2:{ erewrite bind_ok by (by apply prepare_to_generate_valid).
      fold config tools scan_dir found srcs hdrs.
      erewrite bind_ok by reflexivity.
      cbn [self after_output _enqueued_updates with_can_generate_files with_inventory].
      rewrite Hqueue. cbn [PyDict.keys fmap list_fmap for_each].
      erewrite bind_ok by reflexivity.
      erewrite bind_ok by reflexivity.
      cbn [self after_output run_file_checks with_can_generate_files with_inventory].
      rewrite Hrfc.
      erewrite bind_ok by reflexivity.
      erewrite bind_ok by reflexivity.
      erewrite bind_ok by reflexivity.
      cbn [self after_output _enqueued_updates with_can_generate_files with_inventory].
      rewrite Hqueue. reflexivity. }
  unfold apply_phase.
  erewrite bind_ok.
  2:{ unfold _apply_line_changes.
      erewrite bind_ok by reflexivity.
      cbn [self _line_corrections with_can_generate_files with_inventory].
      rewrite Hledger. cbn [flat_changes PyDict.items flat_map].
      erewrite bind_ok by reflexivity.
      erewrite bind_ok by reflexivity.
      unfold header_files, source_files.
      erewrite bind_ok by reflexivity.
      cbn [self _header_files _source_files with_can_generate_files with_inventory].
      repeat (erewrite bind_ok by reflexivity).
      apply print_spec. }
  unfold _apply_file_changes.
  erewrite bind_ok by reflexivity.
  cbn [self after_output _generated_files with_can_generate_files with_inventory].
  rewrite Hcache. cbn [PyDict.items for_fold].
  erewrite bind_ok by reflexivity.
  rewrite bool_decide_false by lia.
  unfold mret, M_ret, after_output. cbn [world fs cwd stdout trace self].
  by rewrite ?app_nil_r.
Qed.

End run_facts.
(** ** Public and internal sources *)

Section public_sources.
Context `{C : Collaborators}.

Lemma public_internal_source_dirs (st : State) :
  public (self st) = true -> no_internal_sources (self st) ->
  exists st',
    _get_internal_source_dirs st = Ok ∅ st'
    /\ world st' = world st /\ same_settings (self st) (self st')
    /\ _generated_files (self st') = _generated_files (self st)
    /\ no_internal_sources (self st').
Proof.
  intros Hpublic [Hdirs Hfiles]. unfold _get_internal_source_dirs.
  erewrite bind_ok by reflexivity.
  destruct Hdirs as [Hd|Hd]; rewrite Hd.
  - rewrite Hpublic. erewrite bind_ok by reflexivity. cbv iota beta.
    eexists. split; [reflexivity|].
    cbn [self world]. split; [done|]. split; [by repeat split|].
    split; [done|]. split; [by right|done].
  - exists st. split; [done|]. split; [done|]. split; [by repeat split|].
    split; [done|]. split; [by right|done].
Qed.

Lemma public_internal_source_files (st : State) :
  public (self st) = true -> no_internal_sources (self st) ->
  exists st',
    _get_internal_source_files st = Ok ∅ st'
    /\ world st' = world st /\ same_settings (self st) (self st')
    /\ _generated_files (self st') = _generated_files (self st)
    /\ no_internal_sources (self st').
Proof.
  intros Hpublic [Hdirs Hfiles]. unfold _get_internal_source_files.
  erewrite bind_ok by reflexivity.
  destruct Hfiles as [Hf|Hf]; rewrite Hf.
  - rewrite Hpublic. erewrite bind_ok by reflexivity. cbv iota beta.
    eexists. split; [reflexivity|].
    cbn [self world]. split; [done|]. split; [by repeat split|].
    split; [done|]. split; [done|by right].
  - exists st. split; [done|]. split; [done|]. split; [by repeat split|].
    split; [done|]. split; [done|by right].
Qed.

Lemma is_public_source_file_public (filename : str) (st : State) :
  public (self st) = true ->
  no_internal_sources (self st) ->
  PyStr.startswith filename "/" = true ->
  exists st',
    _is_public_source_file filename st = Ok true st'
    /\ world st' = world st
    /\ same_settings (self st) (self st')
    /\ _generated_files (self st') = _generated_files (self st)
    /\ no_internal_sources (self st')
    /\ public (self st') = true.
Proof.
  intros Hpublic Hnone Hslash. unfold _is_public_source_file. rewrite Hslash.
  erewrite bind_ok by reflexivity.
  destruct (public_internal_source_dirs st Hpublic Hnone)
    as (s1 & Hdirs & Hw1 & Hs1 & Hg1 & Hn1).
  erewrite bind_ok by exact Hdirs.
  rewrite elements_empty. cbn [under_internal_dir lift_exn].
  erewrite bind_ok by reflexivity.
  assert (Hpublic1 : public (self s1) = true).
  { destruct Hs1 as (_ & _ & _ & _ & Hp & _). by rewrite Hp. }
  destruct (public_internal_source_files s1 Hpublic1 Hn1)
    as (s2 & Hfiles & Hw2 & Hs2 & Hg2 & Hn2).
  erewrite bind_ok by exact Hfiles.
  exists s2. split.
  { unfold mret, M_ret. by rewrite bool_decide_false by set_solver. }
  split; [congruence|]. split; [by etrans|]. split; [congruence|]. split; [done|].
  destruct Hs2 as (_ & _ & _ & _ & Hp & _). by rewrite Hp.
Qed.

(** X15 -- in a public repository every source file is public and the
    project configuration is not looked at: with [public] set and no internal
    sources cached, [_is_public_source_file] returns [True] for any name that
    starts with a separator, leaving the world, the settings and the cache of
    generated files as they were; for a name that does not start with a
    separator it raises [AssertionError]. *)
Theorem public_repository_has_no_internal_sources (filename : str) (st : State) :
  public (self st) = true ->
  no_internal_sources (self st) ->
  (PyStr.startswith filename "/" = false ->
   _is_public_source_file filename st = Raise AssertionError st)
  /\ (PyStr.startswith filename "/" = true ->
      exists st',
        _is_public_source_file filename st = Ok true st'
        /\ world st' = world st
        /\ same_settings (self st) (self st')
        /\ _generated_files (self st') = _generated_files (self st)
        /\ no_internal_sources (self st')
        /\ public (self st') = true).
Proof.
  intros Hpublic Hnone. split; intros Hslash.
  - unfold _is_public_source_file. rewrite Hslash.
    by erewrite bind_raise by reflexivity.
  - by apply is_public_source_file_public.
Qed.

Lemma under_internal_dir_well_formed (filename : str) (dirs : list str) :
  Forall (fun d => PyStr.startswith d "/" = false /\ PyStr.endswith d "/" = false) dirs ->
  under_internal_dir filename dirs
  = inr (existsb (fun d => PyStr.startswith filename (d ++ "/")) dirs).
Proof.
  induction 1 as [|d dirs [Hs He] _ IH]; [done|].
  cbn [under_internal_dir existsb]. rewrite Hs, He.
  destruct (PyStr.startswith filename (d ++ "/")); [done|]. by rewrite IH.
Qed.

(** X16 -- with the internal sources of the project loaded, a source file is
    public exactly when it is under no internal source directory and is not
    listed as an internal source file, its name taken below [src/ballistica];
    the answer comes from the cached sets and changes nothing.  The internal
    directories are to be written without a separator in front or at the
    end, as the method asserts. *)
Theorem internal_sources_are_not_public
    (filename : str) (dirs files : gset str) (st : State) :
  _internal_source_dirs (self st) = Some dirs ->
  _internal_source_files (self st) = Some files ->
  PyStr.startswith filename "/" = true ->
  (forall d, d ∈ dirs -> PyStr.startswith d "/" = false /\ PyStr.endswith d "/" = false) ->
  exists is_public : bool,
    _is_public_source_file filename st = Ok is_public st
    /\ (is_public = true <->
        (forall d, d ∈ dirs -> ~ (d ++ "/") `prefix_of` ("src/ballistica" ++ filename))
        /\ "src/ballistica" ++ filename ∉ files).
Proof.
  intros Hdirs Hfiles Hslash Hwf. unfold _is_public_source_file. rewrite Hslash.
  erewrite bind_ok by reflexivity.
  unfold _get_internal_source_dirs, _get_internal_source_files.
  erewrite bind_ok.
  2:{ erewrite bind_ok by reflexivity. rewrite Hdirs. reflexivity. }
  rewrite under_internal_dir_well_formed.
  2:{ apply Forall_forall. intros d Hd. apply Hwf. by apply elem_of_elements. }
  cbn [lift_exn]. erewrite bind_ok by reflexivity.
  set (full := "src/ballistica" ++ filename).
  destruct (existsb _ (elements dirs)) eqn:Hunder.
  - exists false. split; [done|]. split; [done|]. intros [Hnone _].
    apply existsb_exists in Hunder as (d & Hd & Hp).
    apply list_elem_of_In, elem_of_elements in Hd.
    apply startswith_prefix in Hp. by destruct (Hnone d Hd).
  - erewrite bind_ok.
    2:{ erewrite bind_ok by reflexivity. rewrite Hfiles. reflexivity. }
    eexists. split; [reflexivity|]. rewrite negb_true_iff, bool_decide_eq_false.
    split; [|by intros [_ ?]]. intros Hnot. split; [|done].
    intros d Hd Hp. apply not_true_iff_false in Hunder. apply Hunder.
    apply existsb_exists. exists d. split.
    + by apply list_elem_of_In, elem_of_elements.
    + by apply startswith_prefix.
Qed.

End public_sources.
(** ** The ledger of line corrections *)

Section ledger.
Context `{C : Collaborators}.

Lemma flat_changes_cons auto k (entries : list _LineChange) ledger :
  flat_changes auto ((k, entries) :: ledger)
  = omap (fun entry => if bool_decide (can_auto_update entry = auto)
                       then Some (k, entry) else None) entries
    ++ flat_changes auto ledger.
Proof. done. Qed.

Lemma flat_changes_set auto (ledger : PyDict.t (list _LineChange)) filename entry :
  flat_changes auto
    (PyDict.set ledger filename
       (default [] (PyDict.get ledger filename) ++ [entry]))
  ≡ₚ flat_changes auto ledger ++ listed auto filename entry.
Proof.
  induction ledger as [|[k entries] ledger IH].
  { cbn [PyDict.get PyDict.set default app]. rewrite flat_changes_cons.
    unfold listed, flat_changes. simpl. by destruct (bool_decide _). }
  cbn [PyDict.get PyDict.set]. destruct (decide (k = filename)) as [->|Hne].
  - cbn [default]. rewrite !flat_changes_cons, omap_app. simpl.
    unfold listed. rewrite <- !app_assoc. apply Permutation_app_head.
    destruct (bool_decide _); [|by rewrite !app_nil_r].
    apply Permutation_app_comm.
  - rewrite !flat_changes_cons, <- app_assoc. by apply Permutation_app_head.
Qed.

Lemma manual_changes_raise (st : State) :
  flat_changes false (_line_corrections (self st)) <> [] ->
  _apply_line_changes st
  = Raise (CleanError [])
      (after_output
         (manual_header
          :: map manual_message (flat_changes false (_line_corrections (self st))))
         [] st).
Proof.
  intros Hmanual. unfold _apply_line_changes.
  erewrite bind_ok by reflexivity.
  destruct (flat_changes false (_line_corrections (self st))) as [|c cs] eqn:Hflat; [done|].
  erewrite bind_raise; [reflexivity|].
  erewrite bind_ok by apply print_spec.
  erewrite bind_ok by apply for_each_print.
  unfold raise. by rewrite after_output_after_output.
Qed.

(** X17 -- recording a line correction.  A negative line number is refused
    with [AssertionError] and nothing is recorded.  Otherwise the entry goes
    to the end of the corrections of its file, the corrections of other files
    are untouched, nothing else of the state changes, and the lists the apply
    pass goes through gain this entry and nothing else: it is one more
    auto-fixable correction, or one more manual one.  A manual entry, once
    recorded, makes the line pass raise. *)
Theorem add_line_correction_appends
    (filename : str) (n : Z) (text : str) (auto : bool) (st : State) :
  let entry := {| line_number := n; expected := text; can_auto_update := auto |} in
  let ledger := _line_corrections (self st) in
  (n < 0 -> add_line_correction filename n text auto st = Raise AssertionError st)
  /\ (0 <= n ->
      exists st',
        add_line_correction filename n text auto st = Ok tt st'
        /\ world st' = world st
        /\ _enqueued_updates (self st') = _enqueued_updates (self st)
        /\ _generated_files (self st') = _generated_files (self st)
        /\ PyDict.get (_line_corrections (self st')) filename
           = Some (default [] (PyDict.get ledger filename) ++ [entry])
        /\ (forall f, f <> filename ->
                      PyDict.get (_line_corrections (self st')) f = PyDict.get ledger f)
        /\ (forall a, flat_changes a (_line_corrections (self st'))
                      ≡ₚ flat_changes a ledger ++ listed a filename entry)
        /\ (auto = false ->
            exists st'', _apply_line_changes st' = Raise (CleanError []) st''
                         /\ fs (world st'') = fs (world st))).
Proof.
  intros entry ledger. unfold add_line_correction. split; intros Hn.
  - rewrite bool_decide_false by lia. by erewrite bind_raise by reflexivity.
  - rewrite bool_decide_true by done. erewrite bind_ok by reflexivity.
    eexists. split; [reflexivity|].
    cbn [self world _line_corrections with_line_corrections
           _enqueued_updates _generated_files].
    fold entry ledger.
    split; [done|]. split; [done|]. split; [done|].
    split; [apply dict_get_set_eq|].
    split; [by intros f Hf; apply dict_get_set_ne|].
    split; [intros a; apply flat_changes_set|].
    intros ->. eexists. split.
    + apply manual_changes_raise.
      cbn [self _line_corrections with_line_corrections]. fold entry ledger.
      intros Hnil.
      pose proof (flat_changes_set false ledger filename entry) as Hperm.
      rewrite Hnil in Hperm. apply Permutation_nil_l in Hperm.
      symmetry in Hperm. apply app_eq_nil in Hperm as [_ Hperm]. done.
    + done.
Qed.

End ledger.
(** ** Files that are passed through *)

Section passthrough.
Context `{C : Collaborators}.

Lemma no_CR_no_lone_CR (s : str) : CR ∉ s -> no_lone_CR s = true.
Proof.
  induction s as [|c s IH]; [done|]. intros [Hc Hs]%not_elem_of_cons.
  cbn [no_lone_CR]. rewrite decide_False by done. by rewrite IH.
Qed.

Lemma replace_no_CR (s : str) : CR ∉ s -> PyStr.replace s [CR; LF] [LF] = s.
Proof.
  intros Hs. rewrite <- (universal_newlines_replace (length s)); [|done|].
  - by apply (universal_newlines_id (length s)).
  - by apply no_CR_no_lone_CR.
Qed.

Lemma read_text_no_CR t cwd path data : FS.read t cwd path = inr data -> CR ∉ data.
Proof.
  intros (raw & _ & ->)%fs_read_inr. by apply (universal_newlines_no_CR raw (length raw)).
Qed.

Lemma startswith_other_prefix (path p q : str) :
  PyStr.startswith path p = true ->
  PyStr.startswith p q = false -> PyStr.startswith q p = false ->
  PyStr.startswith path q = false.
Proof.
  intros Hp Hpq Hqp. apply not_true_is_false. intros Hq.
  apply startswith_prefix in Hp, Hq.
  destruct (prefix_weak_total _ _ _ Hp Hq) as [H|H]; apply startswith_prefix in H;
    congruence.
Qed.

(** X18 -- a file that is passed through is left alone by the apply phase.
    In a public repository the manifest of the private assets is generated
    as the content its file has, read in text mode; the call reads the file
    and caches that content; and the round of the whole-file pass for it
    then finds it up to date, in any mode, and writes nothing. *)
Theorem passthrough_file_is_up_to_date (path data : str) (n : nat) (st : State) :
  public (self st) = true ->
  _can_generate_files (self st) = true ->
  PyStr.startswith path "src/assets/.asset_manifest_private" = true ->
  PyStr.endswith path "/project.pbxproj" = false ->
  PyStr.endswith path ".vcxproj.filters" = false ->
  PyStr.endswith path ".vcxproj" = false ->
  PyStr.endswith path "CMakeLists.txt" = false ->
  PyDict.get (_generated_files (self st)) path = None ->
  default None (PyDict.get (_enqueued_updates (self st)) path) = None ->
  let file := PosixPath.join (projroot (self st)) path in
  FS.read (fs (world st)) (cwd (world st)) file = inr data ->
  let st' :=
    after_output [] [EvRead file; EvRender path]
      {| self := with_generated_files (PyDict.set (_generated_files (self st)) path data)
                   (self st);
         world := world st |} in
  generate_file path st = Ok data st'
  /\ up_to_date st' (path, data)
  /\ apply_file_change (path, data) n st'
     = Ok (S n) (after_output [] [EvExists file; EvRead file] st').
Proof.
  intros Hpublic Hcan Hprivate Hx Hf Hv Hc Hget Hq file Hread st'.
  assert (Hup : up_to_date st' (path, data)).
  { unfold up_to_date, loc_in_project. cbn [fst snd]. subst st'.
    cbn [self world after_output fs cwd projroot with_generated_files].
    fold file. rewrite Hread. f_equal. symmetry. apply replace_no_CR.
    by eapply read_text_no_CR. }
  split; [|split; [done|]].
  - unfold generate_file, generate_file_depth.
    change (generate_file_fuel 4 path st)
      with (generate_file_body (generate_file_fuel 3) path st).
    unfold generate_file_body.
    erewrite bind_ok by reflexivity. rewrite Hcan. cbn [negb].
    erewrite bind_ok by reflexivity.
    apply dict_mem_false in Hget as Hmem. rewrite Hmem. cbn [negb].
    erewrite bind_ok.
    2:{ rewrite Hq. fold file.
        erewrite bind_ok by (rewrite sys_read_spec, Hread; reflexivity).
        erewrite bind_ok by apply sys_emit_spec.
        rewrite Hx, Hf, Hv, Hc.
        assert (path <> lit "Makefile") as H1.
        { intros ->. vm_compute in Hprivate. discriminate. }
        assert (path <> lit "src/assets/Makefile") as H2.
        { intros ->. vm_compute in Hprivate. discriminate. }
        rewrite !bool_decide_false by done.
        rewrite (startswith_other_prefix path _ "src/assets/.asset_manifest_public"
                   Hprivate) by (vm_compute; reflexivity).
        rewrite Hprivate.
        cbn [self after_output]. rewrite Hpublic.
        unfold _generate_passthrough_file, set_generated, update_self, modify.
        reflexivity. }
    erewrite bind_ok by reflexivity.
    cbn [self after_output _generated_files with_generated_files].
    rewrite dict_get_set_eq. unfold mret, M_ret. f_equal.
    subst st'. unfold after_output. cbn [self world fs cwd stdout trace].
    by rewrite <- !app_assoc.
  - rewrite (apply_file_change_up_to_date st' path data n Hup).
    subst st'. cbn [self after_output projroot with_generated_files]. done.
Qed.

End passthrough.

(** ** The inventory and its use *)

Section inventory.
Context `{C : Collaborators}.

Lemma rel_path_last (names : list str) (name : str) :
  last names = Some name -> name `suffix_of` FS.rel_path names.
Proof.
  induction names as [|n names IH]; [done|].
  destruct names as [|n' names].
  - intros [= ->]. cbn [FS.rel_path]. rewrite app_nil_r. by exists [SLASH].
  - intros Hlast. cbn [FS.rel_path] in *. specialize (IH Hlast).
    destruct IH as [k ->]. exists (SLASH :: n ++ k).
    by rewrite <- app_comm_cons, <- app_assoc.
Qed.

Lemma scanned_path (scan_root : option fsnode) (es : list str) (s : str) :
  scanned scan_root es s ->
  PyStr.startswith s "/" = true /\ has_ext es s = true.
Proof.
  intros (t & names & name & _ & _ & Hlast & (ext & Hext & Hsuffix) & -> & _). split.
  - destruct names as [|n names]; [done|]. apply startswith_prefix.
    by exists (n ++ FS.rel_path names).
  - apply has_ext_spec. exists ext. split; [done|].
    etrans; [exact Hsuffix|]. by apply rel_path_last.
Qed.

Lemma source_is_no_header (s : str) :
  has_ext exts s = true -> has_ext header_exts s = true -> False.
Proof.
  intros (ext & Hext & Hs)%has_ext_spec (hext & Hhext & Hh)%has_ext_spec.
  apply list_elem_of_singleton in Hhext as ->.
  assert (lit ".h" `suffix_of` ext) as Hsuffix.
  { eapply suffix_of_both; [done..|].
    unfold exts in Hext. set_unfold. destruct_or!; subst; vm_compute; lia. }
  unfold exts in Hext. set_unfold.
  destruct_or!; subst; apply (bool_decide_pack _) in Hsuffix; by vm_compute in Hsuffix.
Qed.

(** X19 -- the inventory a run prepares fits what is done with it.  On a
    well-formed tree with a valid project root, [prepare_to_generate] returns
    with generation open and the inventory set; every path in it starts with
    a separator, as [_is_public_source_file] asserts of its argument; every
    source ends with one of the source extensions and every header with
    [.h]; and no path is both a source and a header. *)
Theorem prepared_inventory_fits_its_use (st : State) :
  FS.wf (fs (world st)) ->
  FS.isdir (fs (world st)) (cwd (world st))
    (PosixPath.join (projroot (self st)) "config") = true ->
  FS.isdir (fs (world st)) (cwd (world st))
    (PosixPath.join (projroot (self st)) "tools") = true ->
  exists st' srcs hdrs,
    prepare_to_generate st = Ok tt st'
    /\ _can_generate_files (self st') = true
    /\ _source_files (self st') = Some srcs
    /\ _header_files (self st') = Some hdrs
    /\ (forall s, s ∈ srcs ++ hdrs -> PyStr.startswith s "/" = true)
    /\ (forall s, s ∈ srcs -> has_ext exts s = true /\ s ∉ hdrs)
    /\ (forall s, s ∈ hdrs -> PyStr.endswith s ".h" = true).
Proof.
  intros Hwf Hconfig Htools.
  pose proof (prepare_to_generate_valid st Hconfig Htools) as Hrun.
  cbv zeta in Hrun.
  set (scan_dir := PosixPath.join (projroot (self st)) "src/ballistica") in *.
  destruct (scan_of_plain_root scan_dir st Hwf (plain_root_src_ballistica _))
    as [Hsrcs Hhdrs].
  eexists _, _, _. split; [exact Hrun|].
  split; [done|]. split; [done|]. split; [done|].
  split; [|split].
  - intros s [Hs|Hs]%elem_of_app.
    + apply Hsrcs in Hs. by apply scanned_path in Hs as [? _].
    + apply Hhdrs in Hs. by apply scanned_path in Hs as [? _].
  - intros s Hs. apply Hsrcs in Hs. apply scanned_path in Hs as [_ Hext].
    split; [done|]. intros Hh. apply Hhdrs in Hh. apply scanned_path in Hh as [_ Hhext].
    by eapply source_is_no_header.
  - intros s Hs. apply Hhdrs in Hs. apply scanned_path in Hs as [_ Hext].
    unfold has_ext, header_exts in Hext. cbn [existsb] in Hext.
    by rewrite orb_false_r in Hext.
Qed.

End inventory.
(** ** The text of a Visual Studio project *)

Section list_facts.
Context {A : Type} `{EqDecision A}.

Lemma index_first (l1 l2 : list A) (x : A) :
  x ∉ l1 -> PyList.index (l1 ++ x :: l2) x = Some (Z.of_nat (length l1)).
Proof.
  induction l1 as [|y l1 IH]; intros Hx; cbn [app PyList.index].
  - by rewrite decide_True.
  - apply not_elem_of_cons in Hx as [Hne Hx].
    rewrite decide_False by done. rewrite IH by done. cbn [fmap option_fmap option_map].
    f_equal. cbn [length]. lia.
Qed.

Lemma index_absent (l : list A) (x : A) : x ∉ l -> PyList.index l x = None.
Proof.
  induction l as [|y l IH]; [done|]. intros [Hne Hx]%not_elem_of_cons.
  cbn [PyList.index]. rewrite decide_False by done. by rewrite IH.
Qed.

Lemma getitem_nat (l : list A) (i : nat) :
  PyList.getitem l (Z.of_nat i) = l !! i.
Proof.
  unfold PyList.getitem. rewrite (proj2 (Z.leb_le 0 (Z.of_nat i))) by lia.
  by rewrite Nat2Z.id.
Qed.

Lemma clamp_nat (l : list A) (i : nat) :
  (i <= length l)%nat -> PyList.clamp l (Z.of_nat i) = i.
Proof.
  intros Hi. unfold PyList.clamp.
  rewrite (proj2 (Z.ltb_ge (Z.of_nat i) 0)) by lia. lia.
Qed.

Lemma filter_none (f : A -> bool) (l : list A) :
  (forall x, x ∈ l -> f x = false) -> List.filter f l = [].
Proof.
  induction l as [|x l IH]; intros Hl; [done|]. cbn [List.filter].
  rewrite (Hl x) by apply list_elem_of_here.
  apply IH. intros y Hy. apply Hl. by apply list_elem_of_further.
Qed.

Lemma filter_again (f : A -> bool) (l : list A) :
  List.filter f (List.filter f l) = List.filter f l.
Proof.
  induction l as [|x l IH]; [done|]. cbn [List.filter].
  destruct (f x) eqn:Hx; [|done]. cbn [List.filter]. by rewrite Hx, IH.
Qed.

Lemma elem_of_filter_bool (f : A -> bool) (l : list A) (x : A) :
  x ∈ List.filter f l <-> x ∈ l /\ f x = true.
Proof. rewrite !list_elem_of_In. apply filter_In. Qed.

End list_facts.

Section scans.
Context `{C : Collaborators}.

(** Going down from inside a stretch without [x] to the [x] before it. *)
Lemma scan_down_finds (a mid rest : list str) (x : str) (j steps : nat) :
  x ∉ mid -> (j <= length mid)%nat -> (j <= steps)%nat ->
  scan_down (a ++ x :: mid ++ rest) x steps (Z.of_nat (length a + j))
  = Some (Z.of_nat (length a)).
Proof.
  intros Hx. revert steps. induction j as [|j IH]; intros steps Hj Hsteps.
  - rewrite Nat.add_0_r. destruct steps; cbn [scan_down];
      rewrite getitem_nat, list_lookup_middle by done;
      by rewrite decide_True.
  - destruct steps as [|steps]; [lia|]. cbn [scan_down].
    rewrite getitem_nat, lookup_app_r by lia.
    replace (length a + S j - length a)%nat with (S j) by lia.
    change ((x :: mid ++ rest) !! S j) with ((mid ++ rest) !! j).
    rewrite lookup_app_l by lia.
    destruct (mid !! j) as [y|] eqn:Hy.
    2:{ apply lookup_ge_None in Hy. lia. }
    rewrite decide_False.
    2:{ intros ->. apply Hx. by eapply list_elem_of_lookup_2. }
    replace (Z.of_nat (length a + S j) - 1) with (Z.of_nat (length a + j)) by lia.
    apply IH; lia.
Qed.

(** Going up from inside a stretch without [x] to the [x] after it. *)
Lemma scan_up_finds (a mid rest : list str) (x : str) (k j steps : nat) :
  x ∉ mid -> (j + k = length mid)%nat -> (k <= steps)%nat ->
  scan_up (a ++ mid ++ x :: rest) x steps (Z.of_nat (length a + j))
  = Some (Z.of_nat (length a + length mid)).
Proof.
  intros Hx. revert j steps. induction k as [|k IH]; intros j steps Hj Hsteps.
  - assert (j = length mid) as -> by lia.
    destruct steps; cbn [scan_up];
      rewrite getitem_nat, lookup_app_r by lia;
      replace (length a + length mid - length a)%nat with (length mid) by lia;
      rewrite list_lookup_middle by done;
      by rewrite decide_True.
  - destruct steps as [|steps]; [lia|]. cbn [scan_up].
    rewrite getitem_nat, lookup_app_r by lia.
    replace (length a + j - length a)%nat with j by lia.
    rewrite lookup_app_l by lia.
    destruct (mid !! j) as [y|] eqn:Hy.
    2:{ apply lookup_ge_None in Hy. lia. }
    rewrite decide_False.
    2:{ intros ->. apply Hx. by eapply list_elem_of_lookup_2. }
    replace (Z.of_nat (length a + j) + 1) with (Z.of_nat (length a + S j)) by lia.
    apply IH; lia.
Qed.

End scans.

Section project_text.
Context `{C : Collaborators}.

(** The text of the project over its lines, once the item group of
    [stdafx.cpp] is found. *)
Lemma visual_studio_project_text_lines
    (existing : str) (all_files pre group post : list str) :
  PyStr.splitlines existing
  = pre ++ [item_group_open] ++ group ++ [item_group_close] ++ post ->
  stdafx_line ∉ pre -> stdafx_line ∈ group ->
  item_group_open ∉ group -> item_group_close ∉ group ->
  visual_studio_project_text existing all_files
  = inr (PyStr.join [CR; LF]
           (pre ++ [item_group_open]
            ++ map vs_entry all_files
            ++ List.filter (fun l => negb (from_ballistica l)) group
            ++ [item_group_close] ++ post)
         ++ [CR; LF]).
Proof.
  intros Hlines Hpre Hin Hopen Hclose.
  apply list_elem_of_split_l in Hin as (g1 & g2 & Hgroup & Hg1).
  set (lines := PyStr.splitlines existing) in *.
  assert (Hlen : length lines
                 = (length pre + 1 + length group + 1 + length post)%nat).
  { rewrite Hlines. rewrite !length_app. cbn [length]. lia. }
  assert (Hglen : length group = (length g1 + 1 + length g2)%nat).
  { rewrite Hgroup, length_app. cbn [length]. lia. }
  unfold visual_studio_project_text. fold lines. fold stdafx_line.
  assert (Hindex : PyList.index lines stdafx_line
                   = Some (Z.of_nat (length pre + (1 + length g1)))).
  { rewrite Hlines, Hgroup.
    replace (pre ++ [item_group_open] ++ (g1 ++ stdafx_line :: g2)
             ++ [item_group_close] ++ post)
      with ((pre ++ [item_group_open] ++ g1)
            ++ stdafx_line :: (g2 ++ [item_group_close] ++ post))
      by (by rewrite <- !app_assoc).
    rewrite index_first.
    - rewrite !length_app. cbn [length]. by rewrite Nat.add_assoc.
    - rewrite !not_elem_of_app. split; [done|]. split; [|done].
      apply not_elem_of_cons. split; [done|apply not_elem_of_nil]. }
  rewrite Hindex.
  assert (Hdown : scan_down lines item_group_open
                    (Z.to_nat (Z.of_nat (length pre + (1 + length g1))
                               + Z.of_nat (length lines)))
                    (Z.of_nat (length pre + (1 + length g1)))
                  = Some (Z.of_nat (length pre))).
  { rewrite Hlines at 1.
    change (pre ++ [item_group_open] ++ group ++ [item_group_close] ++ post)
      with (pre ++ item_group_open :: group ++ ([item_group_close] ++ post)).
    apply scan_down_finds; [done|lia..]. }
  change (lit "  <ItemGroup>") with item_group_open. rewrite Hdown.
  assert (Hup : scan_up lines item_group_close
                  (Z.to_nat (Z.of_nat (length lines)
                             - Z.of_nat (length pre + (1 + length g1))))
                  (Z.of_nat (length pre + (1 + length g1)))
                = Some (Z.of_nat (length pre + 1 + length group))).
  { rewrite Hlines at 1.
    replace (pre ++ [item_group_open] ++ group ++ [item_group_close] ++ post)
      with ((pre ++ [item_group_open]) ++ group ++ item_group_close :: post)
      by (by rewrite <- !app_assoc).
    replace (length pre + (1 + length g1))%nat
      with (length (pre ++ [item_group_open]) + length g1)%nat
      by (rewrite length_app; cbn [length]; lia).
    replace (length pre + 1 + length group)%nat
      with (length (pre ++ [item_group_open]) + length group)%nat
      by (rewrite length_app; cbn [length]; lia).
    apply (scan_up_finds _ _ _ _ (1 + length g2)); [done|lia|].
    rewrite length_app. cbn [length]. lia. }
  change (lit "  </ItemGroup>") with item_group_close. rewrite Hup.
  do 2 f_equal.
  assert (Hsplit : lines = (pre ++ [item_group_open]) ++ group
                           ++ item_group_close :: post).
  { rewrite Hlines. by rewrite <- !app_assoc. }
  assert (Hto : PyList.slice_to lines (Z.of_nat (length pre) + 1)
                = pre ++ [item_group_open]).
  { unfold PyList.slice_to.
    replace (Z.of_nat (length pre) + 1) with (Z.of_nat (length pre + 1)) by lia.
    rewrite clamp_nat by lia. rewrite Hsplit.
    apply take_app_length'. rewrite length_app. cbn [length]. lia. }
  assert (Hfrom : PyList.slice_from lines (Z.of_nat (length pre + 1 + length group))
                  = item_group_close :: post).
  { unfold PyList.slice_from. rewrite clamp_nat by lia. rewrite Hsplit.
    rewrite app_assoc. apply drop_app_length'. rewrite !length_app. cbn [length]. lia. }
  assert (Hmid : PyList.slice lines (Z.of_nat (length pre) + 1)
                   (Z.of_nat (length pre + 1 + length group))
                 = group).
  { unfold PyList.slice.
    replace (Z.of_nat (length pre) + 1) with (Z.of_nat (length pre + 1)) by lia.
    rewrite !clamp_nat by lia. rewrite Hsplit.
    rewrite drop_app_length' by (rewrite length_app; cbn [length]; lia).
    apply take_app_length'. lia. }
  rewrite Hto, Hfrom, Hmid. by rewrite <- !app_assoc.
Qed.

Lemma splitlines_go_join_crlf (cur x : str) (r : list str) :
  Forall PyStr.no_linebreak (x :: r) ->
  PyStr.splitlines_go cur (PyStr.join [CR; LF] (x :: r) ++ [CR; LF]) = (cur ++ x) :: r.
Proof.
  revert cur x. induction r as [|y r IH]; intros cur x Hls.
  - apply Forall_cons in Hls as [Hx _]. cbn [PyStr.join].
    rewrite splitlines_go_app by done. cbn [PyStr.splitlines_go].
    replace (PyStr.is_linebreak CR) with true by reflexivity.
    by rewrite !decide_True.
  - apply Forall_cons in Hls as [Hx Hr]. rewrite join_cons_cons.
    rewrite <- !app_assoc. rewrite splitlines_go_app by done.
    change ([CR; LF] ++ PyStr.join [CR; LF] (y :: r) ++ [CR; LF])
      with (CR :: LF :: (PyStr.join [CR; LF] (y :: r) ++ [CR; LF])).
    cbn [PyStr.splitlines_go].
    replace (PyStr.is_linebreak CR) with true by reflexivity.
    rewrite !decide_True by done.
    by rewrite IH.
Qed.

Lemma splitlines_join_crlf (ls : list str) :
  ls <> [] -> Forall PyStr.no_linebreak ls ->
  PyStr.splitlines (PyStr.join [CR; LF] ls ++ [CR; LF]) = ls.
Proof.
  intros Hne Hls. destruct ls as [|x r]; [done|].
  unfold PyStr.splitlines. by rewrite splitlines_go_join_crlf.
Qed.

Lemma replace_go_Forall (Q : ascii -> Prop) (old new : str) (skip : nat) (s : str) :
  Forall Q s -> Forall Q new -> Forall Q (PyStr.replace_go old new skip s).
Proof.
  intros Hs Hnew. revert skip. induction Hs as [|c s Hc Hs IH]; intros skip; [constructor|].
  cbn [PyStr.replace_go]. destruct skip; [|apply IH].
  destruct (PyStr.startswith _ _).
  - apply Forall_app. split; [done|apply IH].
  - constructor; [done|apply IH].
Qed.

Lemma vs_entry_no_linebreak (src : str) :
  PyStr.no_linebreak src -> PyStr.no_linebreak (vs_entry src).
Proof.
  intros Hsrc. unfold vs_entry, PyStr.no_linebreak.
  repeat (apply Forall_app; split);
    try (apply (bool_decide_unpack _); vm_compute; exact I).
  - destruct (PyStr.endswith src ".h"); apply (bool_decide_unpack _); vm_compute; exact I.
  - unfold PyStr.replace. cbn [lit String.list_ascii_of_string].
    apply replace_go_Forall; [done|by repeat constructor].
Qed.

Lemma vs_entry_from_ballistica (src : str) :
  PyStr.startswith src "/" = true -> from_ballistica (vs_entry src) = true.
Proof.
  intros [rest ->]%startswith_prefix. unfold from_ballistica. apply contains_spec.
  exists ("    <"
          ++ (if PyStr.endswith ("/" ++ rest) ".h" then lit "ClInclude" else lit "ClCompile")
          ++ " Include=" ++ [DQUOTE]),
         (PyStr.replace_go "/" "\" 0 rest ++ [DQUOTE] ++ " />").
  unfold vs_entry, PyStr.replace.
  change (lit "/" ++ rest) with ("/"%char :: rest).
  cbn [lit String.list_ascii_of_string PyStr.replace_go].
  replace (PyStr.startswith ("/"%char :: rest) ["/"%char]) with true.
  2:{ symmetry. apply startswith_prefix. by exists rest. }
  cbn [length Nat.sub]. by rewrite <- !app_assoc.
Qed.

(** X20 -- the renderer of a Visual Studio project rewrites one item group
    and nothing else.  With the lines of the existing project being [pre],
    the opening line of an item group, [group], its closing line and [post],
    where the entry of [stdafx.cpp] occurs in [group] and not before and no
    line of [group] opens or closes an item group: the text is these lines
    joined and ended by CR LF, with [group] replaced by one entry for each
    file, in the order given, followed by the lines of [group] that are no
    entries of files from [src/ballistica].  Without the entry of
    [stdafx.cpp] the renderer raises [ValueError]. *)
Theorem visual_studio_project_text_rewrites_the_group
    (existing : str) (all_files : list str) :
  (stdafx_line ∉ PyStr.splitlines existing ->
   visual_studio_project_text existing all_files = inl ValueError)
  /\ (forall pre group post : list str,
        PyStr.splitlines existing
        = pre ++ [item_group_open] ++ group ++ [item_group_close] ++ post ->
        stdafx_line ∉ pre -> stdafx_line ∈ group ->
        item_group_open ∉ group -> item_group_close ∉ group ->
        visual_studio_project_text existing all_files
        = inr (PyStr.join [CR; LF]
                 (pre ++ [item_group_open]
                  ++ map vs_entry all_files
                  ++ List.filter (fun l => negb (from_ballistica l)) group
                  ++ [item_group_close] ++ post)
               ++ [CR; LF])).
Proof.
  split.
  - intros Habsent. unfold visual_studio_project_text. fold stdafx_line.
    by rewrite index_absent.
  - intros pre group post. apply visual_studio_project_text_lines.
Qed.

(** X21 -- a generated Visual Studio project is stable: when the files all
    start with a separator and have no line break in their names, the text
    the renderer makes of an existing project is, given to the renderer
    again with the same files, returned as it is. *)
Theorem visual_studio_project_text_is_stable
    (existing out : str) (all_files pre group post : list str) :
  PyStr.splitlines existing
  = pre ++ [item_group_open] ++ group ++ [item_group_close] ++ post ->
  stdafx_line ∉ pre -> stdafx_line ∈ group ->
  item_group_open ∉ group -> item_group_close ∉ group ->
  Forall (fun src => PyStr.startswith src "/" = true /\ PyStr.no_linebreak src)
         all_files ->
  visual_studio_project_text existing all_files = inr out ->
  visual_studio_project_text out all_files = inr out.
Proof.
  intros Hlines Hpre Hin Hopen Hclose Hfiles Hout.
  rewrite (visual_studio_project_text_lines _ _ _ _ _ Hlines Hpre Hin Hopen Hclose)
    in Hout.
  injection Hout as <-.
  set (keep := fun l : str => negb (from_ballistica l)).
  set (kept := List.filter keep group).
  set (entries := map vs_entry all_files).
  pose proof (splitlines_no_linebreak existing) as Hnl. rewrite Hlines in Hnl.
  apply Forall_app in Hnl as [Hnl_pre Hnl].
  apply Forall_app in Hnl as [Hnl_open Hnl].
  apply Forall_app in Hnl as [Hnl_group Hnl].
  apply Forall_app in Hnl as [Hnl_close Hnl_post].
  assert (Hentries : forall l, l ∈ entries -> from_ballistica l = true).
  { intros l (src & -> & Hsrc)%list_elem_of_fmap.
    rewrite Forall_forall in Hfiles. apply vs_entry_from_ballistica.
    by apply Hfiles. }
  assert (Hnot : forall l, from_ballistica l = false -> l ∉ entries).
  { intros l Hl Hin'. apply Hentries in Hin'. congruence. }
  assert (Hsub : forall l, l ∉ group -> l ∉ kept).
  { intros l Hl [? _]%elem_of_filter_bool. done. }
  rewrite (visual_studio_project_text_lines _ all_files pre (entries ++ kept) post).
  - do 2 f_equal. fold keep. rewrite List.filter_app.
    rewrite (filter_none keep entries).
    2:{ intros l Hl. unfold keep. by rewrite (Hentries l Hl). }
    subst kept. by rewrite filter_again.
  - rewrite <- (app_assoc entries kept).
    apply splitlines_join_crlf; [by destruct pre|].
    repeat (apply Forall_app; split); try done.
    + subst entries. apply Forall_fmap. eapply Forall_impl; [exact Hfiles|].
      intros src [_ Hsrc]. by apply vs_entry_no_linebreak.
    + apply Forall_forall. intros l [Hl _]%elem_of_filter_bool.
      rewrite Forall_forall in Hnl_group. by apply Hnl_group.
  - done.
  - apply elem_of_app. right. apply elem_of_filter_bool. split; [done|]. reflexivity.
  - apply not_elem_of_app. split; [by apply Hnot|by apply Hsub].
  - apply not_elem_of_app. split; [by apply Hnot|by apply Hsub].
Qed.

End project_text.
(** ** The text of a filters file *)

Section filters_text.
Context `{C : Collaborators}.

Lemma split_go_nonempty (sep : str) (skip : nat) (cur s : str) :
  PyStr.split_go sep skip cur s <> [].
Proof.
  revert skip cur. induction s as [|c s IH]; intros skip cur; [done|].
  cbn [PyStr.split_go]. destruct skip; [|apply IH].
  destruct (PyStr.startswith _ _); [done|apply IH].
Qed.

Lemma split_char_two (c : ascii) (cur s : str) :
  c ∈ s -> exists x y r, PyStr.split_go [c] 0 cur s = x :: y :: r.
Proof.
  revert cur. induction s as [|d s IH]; intros cur Hc; [by apply elem_of_nil in Hc|].
  cbn [PyStr.split_go]. destruct (PyStr.startswith (d :: s) [c]) eqn:Hd.
  - cbn [length Nat.sub].
    destruct (PyStr.split_go [c] 0 [] s) as [|y r] eqn:Hrest.
    { by apply split_go_nonempty in Hrest. }
    by exists cur, y, r.
  - apply elem_of_cons in Hc as [->|Hc]; [|by apply IH].
    exfalso. apply not_true_iff_false in Hd. apply Hd.
    apply startswith_prefix. by exists s.
Qed.

Lemma split_ws_go_nonempty (cur s : str) :
  cur <> [] \/ (exists c, c ∈ s /\ PyStr.is_space c = false) ->
  PyStr.split_ws_go cur s <> [].
Proof.
  revert cur. induction s as [|d s IH]; intros cur Hne.
  - cbn [PyStr.split_ws_go]. destruct Hne as [?|(c & Hc & _)].
    + by destruct cur.
    + by apply elem_of_nil in Hc.
  - cbn [PyStr.split_ws_go]. destruct (PyStr.is_space d) eqn:Hd.
    + destruct cur; [|done]. apply IH. right.
      destruct Hne as [?|(c & Hc & Hs)]; [done|].
      apply elem_of_cons in Hc as [->|Hc]; [congruence|]. by exists c.
    + apply IH. left. by destruct cur.
Qed.

Lemma dropwhile_keeps (f : ascii -> bool) (c : ascii) (s : str) :
  c ∈ s -> f c = false -> c ∈ PyStr.dropwhile f s.
Proof.
  induction s as [|d s IH]; intros Hc Hf; [done|].
  cbn [PyStr.dropwhile]. destruct (f d) eqn:Hd; [|done].
  apply elem_of_cons in Hc as [->|Hc]; [congruence|]. by apply IH.
Qed.

Lemma strip_keeps (c : ascii) (s : str) :
  c ∈ s -> PyStr.is_space c = false -> c ∈ PyStr.strip s.
Proof.
  intros Hc Hs. unfold PyStr.strip, PyStr.lstrip.
  apply elem_of_reverse, dropwhile_keeps; [|done].
  by apply elem_of_reverse, dropwhile_keeps.
Qed.

(** A line that is taken for the entry of a source has a first word and a
    path between quotes: the round of the loop for it does not fail. *)
Lemma filters_entry_returns (line : str) (acc : list str * gset str) :
  is_source_entry line = true ->
  exists word words path,
    PyStr.split_ws (PyStr.strip line) = word :: words
    /\ entry_path line = Some path
    /\ filters_entry line acc
       = inr (acc.1
              ++ ["    <" ++ drop 1 word ++ " Include=" ++ quoted path ++ ">";
                  "      <Filter>" ++ PyStr.join [BACKSLASH] (entry_splits path)
                  ++ "</Filter>";
                  "    </" ++ drop 1 word ++ ">"],
              foldl (fun fp i =>
                       fp ∪ {[ PyStr.join [BACKSLASH] (take (S i) (entry_splits path)) ]})
                    acc.2 (seq 0 (length (entry_splits path)))).
Proof.
  intros (a & b & ->)%contains_spec.
  set (line := a ++ ("Include=" ++ [DQUOTE] ++ src_root) ++ b).
  assert (Hquote : DQUOTE ∈ line).
  { subst line. rewrite !elem_of_app. right. left. right. left.
    apply list_elem_of_here. }
  assert (Hchar : "I"%char ∈ line).
  { subst line. rewrite !elem_of_app. right. left. left.
    apply (bool_decide_unpack _). vm_compute. exact I. }
  destruct (PyStr.split_ws (PyStr.strip line)) as [|word words] eqn:Hwords.
  { exfalso. revert Hwords. apply split_ws_go_nonempty. right.
    exists "I"%char. split; [by apply strip_keeps|done]. }
  destruct (split_char_two DQUOTE [] line Hquote) as (x & path & r & Hsplit).
  exists word, words, path. split; [done|].
  unfold entry_path, PyStr.split. rewrite Hsplit. split; [done|].
  unfold filters_entry. destruct acc as [filterlines filterpaths].
  rewrite Hwords. unfold PyStr.split at 1. rewrite Hsplit.
  change ((x :: path :: r) !! 1%nat) with (Some path). cbv iota beta.
  fold (entry_splits path). cbn [fst snd]. by rewrite <- !app_assoc.
Qed.

Lemma elem_of_foldl_union (g : nat -> str) (l : list nat) (fp : gset str) (p : str) :
  p ∈ foldl (fun fp i => fp ∪ {[ g i ]}) fp l <-> p ∈ fp \/ exists i, i ∈ l /\ p = g i.
Proof.
  revert fp. induction l as [|i l IH]; intros fp; cbn [foldl].
  - split; [by left|]. intros [?|(i & Hi & _)]; [done|]. by apply elem_of_nil in Hi.
  - rewrite IH, elem_of_union, elem_of_singleton. split.
    + intros [[Hp|Hp]|(j & Hj & Hp)]; [by left|right..].
      * exists i. split; [apply list_elem_of_here|done].
      * exists j. split; [by apply list_elem_of_further|done].
    + intros [Hp|(j & Hj & Hp)]; [by left; left|].
      apply elem_of_cons in Hj as [Hj|Hj].
      * left. right. by rewrite Hp, Hj.
      * right. by exists j.
Qed.

(** The loop over the entries of sources: it returns, with the lines of
    each entry added and with the filters of each entry and all their
    parents, and no other, added to the set of filters. *)
Lemma filters_entries_returns (sourcelines : list str) (acc : list str * gset str) :
  Forall (fun line => is_source_entry line = true) sourcelines ->
  exists filterlines filterpaths,
    filters_entries sourcelines acc = inr (filterlines, filterpaths)
    /\ (forall l, l ∈ acc.1 -> l ∈ filterlines)
    /\ (forall line path,
          line ∈ sourcelines -> entry_path line = Some path ->
          "      <Filter>" ++ PyStr.join [BACKSLASH] (entry_splits path) ++ "</Filter>"
          ∈ filterlines)
    /\ (forall p,
          p ∈ filterpaths <->
          p ∈ acc.2
          \/ exists line path i,
               line ∈ sourcelines /\ entry_path line = Some path
               /\ (i < length (entry_splits path))%nat
               /\ p = PyStr.join [BACKSLASH] (take (S i) (entry_splits path))).
Proof.
  intros Hall. revert acc. induction Hall as [|line lines Hline _ IH]; intros acc.
  { exists acc.1, acc.2. destruct acc. split; [done|]. split; [done|].
    split; [by intros line path ?%elem_of_nil|].
    intros p. split; [by left|]. intros [?|(line & ? & ? & ?%elem_of_nil & _)]; done. }
  destruct (filters_entry_returns line acc Hline)
    as (word & words & path & _ & Hpath & Hentry).
  cbn [filters_entries]. rewrite Hentry.
  destruct (IH (acc.1
                ++ ["    <" ++ drop 1 word ++ " Include=" ++ quoted path ++ ">";
                    "      <Filter>" ++ PyStr.join [BACKSLASH] (entry_splits path)
                    ++ "</Filter>";
                    "    </" ++ drop 1 word ++ ">"],
                foldl (fun fp i =>
                         fp ∪ {[ PyStr.join [BACKSLASH] (take (S i) (entry_splits path)) ]})
                      acc.2 (seq 0 (length (entry_splits path)))))
    as (fl & fp & Hrun & Hkeep & Hfilters & Hpaths).
  cbn [fst snd] in *.
  exists fl, fp. split; [done|]. split; [|split].
  - intros l Hl. apply Hkeep, elem_of_app. by left.
  - intros line' path' Hin Hpath'. apply elem_of_cons in Hin as [Hin|Hin].
    + subst line'. assert (path' = path) as -> by congruence.
      apply Hkeep, elem_of_app. right. apply list_elem_of_further, list_elem_of_here.
    + by eapply Hfilters.
  - intros p. rewrite Hpaths, elem_of_foldl_union. split.
    + intros [[Hp|(i & Hi & Hp)]|(line' & path' & i & Hin & Hpath' & Hi & Hp)].
      * by left.
      * right. exists line, path, i. split; [apply list_elem_of_here|].
        split; [done|]. split; [|done]. apply elem_of_seq in Hi. lia.
      * right. exists line', path', i. split; [by apply list_elem_of_further|done].
    + intros [Hp|(line' & path' & i & Hin & Hpath' & Hi & Hp)]; [by left; left|].
      apply elem_of_cons in Hin as [Hin|Hin].
      * subst line'. assert (path' = path) as -> by congruence.
        left. right. exists i. split; [|done]. apply elem_of_seq. lia.
      * right. by exists line', path', i.
Qed.

(** X22 -- the renderer of a filters file never fails, and it declares the
    filters it uses.  For any project text the renderer returns: the lines of
    the entries, then one [Filter Include] line for each filter, sorted and
    without repetition.  Each entry of a source of the project has its
    [Filter] line, and the filter of an entry is declared together with every
    filter above it; no other filter is declared. *)
Theorem filters_text_declares_its_filters (project : str) :
  exists (out : str) (filterlines : list str) (filterpaths : gset str),
    visual_studio_project_filters_text project = inr out
    /\ out = PyStr.join [CR; LF]
               (filterlines
                ++ [lit "  </ItemGroup>"; lit "  <ItemGroup>"]
                ++ map (fun filterpath : str =>
                          "    <Filter Include=" ++ quoted filterpath ++ " />")
                       (PyStr.sorted (elements filterpaths))
                ++ [lit "  </ItemGroup>"; lit "</Project>"])
             ++ [CR; LF]
    /\ (forall line path,
          line ∈ PyStr.splitlines project -> is_source_entry line = true ->
          entry_path line = Some path ->
          "      <Filter>" ++ PyStr.join [BACKSLASH] (entry_splits path) ++ "</Filter>"
          ∈ filterlines
          /\ forall i, (i < length (entry_splits path))%nat ->
                       PyStr.join [BACKSLASH] (take (S i) (entry_splits path))
                       ∈ filterpaths)
    /\ (forall p,
          p ∈ filterpaths ->
          exists line path i,
            line ∈ PyStr.splitlines project /\ is_source_entry line = true
            /\ entry_path line = Some path
            /\ (i < length (entry_splits path))%nat
            /\ p = PyStr.join [BACKSLASH] (take (S i) (entry_splits path))).
Proof.
  unfold visual_studio_project_filters_text.
  set (sourcelines := List.filter _ (PyStr.splitlines project)).
  assert (Hsource : forall line,
             line ∈ sourcelines
             <-> line ∈ PyStr.splitlines project /\ is_source_entry line = true).
  { intros line. apply elem_of_filter_bool. }
  set (acc := (_, ∅) : list str * gset str).
  destruct (filters_entries_returns sourcelines acc)
    as (fl & fp & Hrun & _ & Hfilters & Hpaths).
  { apply Forall_forall. intros line Hline. by apply Hsource in Hline as [_ ?]. }
  rewrite Hrun. eexists _, fl, fp. split; [reflexivity|].
  split; [by rewrite <- !app_assoc|]. split.
  - intros line path Hline Hentry Hpath.
    assert (line ∈ sourcelines) as Hin by (by apply Hsource).
    split; [by eapply Hfilters|].
    intros i Hi. apply Hpaths. right. by exists line, path, i.
  - intros p [Hp|(line & path & i & Hin & Hpath & Hi & ->)]%Hpaths.
    + by apply elem_of_empty in Hp.
    + apply Hsource in Hin as [? ?]. by exists line, path, i.
Qed.

End filters_text.
(** ** The CMake file *)

Section cmake.
Context `{C : Collaborators}.

Lemma filter_m_inv (I : State -> Prop) (cond : str -> M State bool) (p : str -> bool)
    (l : list str) :
  (forall f st, f ∈ l -> I st -> exists st', cond f st = Ok (p f) st' /\ I st') ->
  forall st, I st -> exists st', filter_m cond l st = Ok (List.filter p l) st' /\ I st'.
Proof.
  induction l as [|x l IH]; intros Hcond st Hst.
  - by exists st.
  - destruct (Hcond x st) as (s1 & Hx & Hs1); [apply list_elem_of_here|done|].
    destruct (IH (fun f s Hf => Hcond f s (list_elem_of_further _ _ _ Hf)) s1 Hs1)
      as (s2 & Hl & Hs2).
    exists s2. split; [|done]. cbn [filter_m List.filter].
    erewrite bind_ok by exact Hx. erewrite bind_ok by exact Hl.
    by destruct (p x).
Qed.

(** Python's splice [lines[:auto_start + 1] + our_lines + lines[auto_end:]]
    with the marks found by [index]. *)
Lemma cmake_splice (a old post ours : list str) (b e : str) :
  b ∉ a -> e ∉ a -> e <> b -> e ∉ old ->
  let lines := a ++ b :: old ++ e :: post in
  exists auto_start auto_end,
    PyList.index lines b = Some auto_start
    /\ PyList.index lines e = Some auto_end
    /\ PyList.slice_to lines (auto_start + 1) ++ ours ++ PyList.slice_from lines auto_end
       = a ++ b :: ours ++ e :: post.
Proof.
  intros Hb Hea Heb Heo lines.
  exists (Z.of_nat (length a)), (Z.of_nat (length (a ++ b :: old))).
  split; [by apply index_first|]. split.
  - unfold lines.
    replace (a ++ b :: old ++ e :: post) with ((a ++ b :: old) ++ e :: post)
      by (by rewrite <- app_assoc).
    apply index_first. rewrite elem_of_app, elem_of_cons. by intros [?|[?|?]].
  - unfold PyList.slice_to, PyList.slice_from.
    replace (Z.of_nat (length a) + 1) with (Z.of_nat (S (length a))) by lia.
    rewrite !clamp_nat.
    + unfold lines.
      replace (a ++ b :: old ++ e :: post) with ((a ++ [b]) ++ old ++ e :: post) at 1
        by (by rewrite <- app_assoc).
      rewrite take_app_length' by (rewrite length_app; cbn [length]; lia).
      replace (a ++ b :: old ++ e :: post) with ((a ++ b :: old) ++ e :: post)
        by (by rewrite <- app_assoc).
      rewrite drop_app_length. by rewrite <- app_assoc.
    + unfold lines. rewrite !length_app. cbn [length]. rewrite length_app. cbn [length]. lia.
    + unfold lines. rewrite length_app. cbn [length]. lia.
Qed.

Lemma cmake_entry_no_begin (f section : str) : cmake_entry f <> cmake_section_begin section.
Proof. intros H. apply (f_equal (fun s : str => s !! 2%nat)) in H. by vm_compute in H. Qed.

Lemma cmake_entry_no_end (f section : str) : cmake_entry f <> cmake_section_end section.
Proof. intros H. apply (f_equal (fun s : str => s !! 2%nat)) in H. by vm_compute in H. Qed.

Lemma no_begin_in_entries (l : list str) (section : str) :
  cmake_section_begin section ∉ map cmake_entry l.
Proof.
  intros (f & Hf & _)%list_elem_of_fmap. by destruct (cmake_entry_no_begin f section).
Qed.

Lemma no_end_in_entries (l : list str) (section : str) :
  cmake_section_end section ∉ map cmake_entry l.
Proof.
  intros (f & Hf & _)%list_elem_of_fmap. by destruct (cmake_entry_no_end f section).
Qed.

Lemma elem_of_sorted (l : list str) (x : str) : x ∈ PyStr.sorted l <-> x ∈ l.
Proof. unfold PyStr.sorted. by rewrite merge_sort_Permutation. Qed.

Lemma is_public_source_file_cached (filename : str) (dirs files : gset str) (st : State) :
  _internal_source_dirs (self st) = Some dirs ->
  _internal_source_files (self st) = Some files ->
  PyStr.startswith filename "/" = true ->
  (forall d, d ∈ dirs -> PyStr.startswith d "/" = false /\ PyStr.endswith d "/" = false) ->
  _is_public_source_file filename st = Ok (negb (internal_source dirs files filename)) st.
Proof.
  intros Hdirs Hfiles Hslash Hwf. unfold _is_public_source_file, internal_source.
  rewrite Hslash. erewrite bind_ok by reflexivity.
  unfold _get_internal_source_dirs, _get_internal_source_files.
  erewrite bind_ok.
  2:{ erewrite bind_ok by reflexivity. rewrite Hdirs. reflexivity. }
  rewrite under_internal_dir_well_formed.
  2:{ apply Forall_forall. intros d Hd. apply Hwf. by apply elem_of_elements. }
  cbn [lift_exn]. erewrite bind_ok by reflexivity.
  destruct (existsb _ (elements dirs)); [done|].
  erewrite bind_ok.
  2:{ erewrite bind_ok by reflexivity. rewrite Hfiles. reflexivity. }
  done.
Qed.

Lemma cmake_public_renders
    (fname existing_data : str) (srcs hdrs pre old post : list str) (st : State) :
  public (self st) = true ->
  no_internal_sources (self st) ->
  _source_files (self st) = Some srcs ->
  _header_files (self st) = Some hdrs ->
  (forall f, f ∈ srcs ++ hdrs -> cmake_listed f = true -> PyStr.startswith f "/" = true) ->
  PyStr.splitlines existing_data
  = pre ++ cmake_section_begin "PUBLIC" :: old ++ cmake_section_end "PUBLIC" :: post ->
  cmake_section_begin "PUBLIC" ∉ pre ->
  cmake_section_end "PUBLIC" ∉ pre ++ old ->
  exists st',
    _generate_cmake_file fname existing_data st = Ok tt st'
    /\ PyDict.get (_generated_files (self st')) fname
       = Some (PyStr.join [LF]
                 (pre ++ cmake_section_begin "PUBLIC"
                  :: map cmake_entry
                       (List.filter cmake_listed (PyStr.sorted (srcs ++ hdrs)))
                  ++ cmake_section_end "PUBLIC" :: post)
               ++ [LF])
    /\ world st' = world st
    /\ same_settings (self st) (self st')
    /\ no_internal_sources (self st').
Proof.
  intros Hpublic Hnone Hsrcs Hhdrs Hslash Hlines Hb He.
  apply not_elem_of_app in He as [Hea Heo].
  unfold _generate_cmake_file. rewrite Hlines.
  match goal with |- context [for_fold _ _ ?f] => set (body := f) end.
  set (ours := map cmake_entry (List.filter cmake_listed (PyStr.sorted (srcs ++ hdrs)))).
  set (I := fun s : State =>
              public (self s) = true /\ no_internal_sources (self s)
              /\ world s = world st /\ same_settings (self st) (self s)).
  assert (HI : I st).
  { unfold I. split; [done|]. split; [done|]. split; [done|by repeat split]. }
  destruct (cmake_splice pre old post ours (cmake_section_begin "PUBLIC")
              (cmake_section_end "PUBLIC") Hb Hea) as (i & j & Hi & Hj & Hsplice);
    [done|done|].
  assert (exists s1,
             body (lit "PUBLIC")
               (pre ++ cmake_section_begin "PUBLIC" :: old
                ++ cmake_section_end "PUBLIC" :: post) st
             = Ok (pre ++ cmake_section_begin "PUBLIC" :: ours
                   ++ cmake_section_end "PUBLIC" :: post) s1
             /\ I s1) as (s1 & Hstep & Hs1).
  { unfold body. erewrite bind_ok by reflexivity. rewrite Hpublic.
    replace (bool_decide (lit "PUBLIC" = lit "PRIVATE")) with false
      by (vm_compute; reflexivity).
    cbn [andb].
    rewrite Hi. cbn [or_raise lift_exn]. erewrite bind_ok by reflexivity.
    rewrite Hj. cbn [or_raise lift_exn]. erewrite bind_ok by reflexivity.
    erewrite bind_ok by (unfold source_files;
                         erewrite bind_ok by reflexivity; rewrite Hsrcs; reflexivity).
    erewrite bind_ok by (unfold header_files;
                         erewrite bind_ok by reflexivity; rewrite Hhdrs; reflexivity).
    match goal with
    | |- context [filter_m ?c ?l] =>
        destruct (filter_m_inv I c cmake_listed l) with (st := st)
          as (s1 & Hfilter & Hs1)
    end.
    { intros f s Hf (Hp & Hn & Hw & Hs). apply (proj1 (elem_of_sorted _ _)) in Hf.
      pose proof (Hslash f Hf) as Hf'. unfold cmake_listed in *.
      destruct (PyStr.endswith f ".mm"); [by exists s|].
      destruct (PyStr.endswith f ".m"); [by exists s|].
      destruct (PyStr.endswith f ".swift"); [by exists s|].
      destruct (is_public_source_file_public f s Hp Hn (Hf' eq_refl))
        as (s' & Hrun & Hw' & Hs' & _ & Hn' & Hp').
      exists s'. split.
      - erewrite bind_ok by exact Hrun. reflexivity.
      - unfold I. split; [done|]. split; [done|]. split; [congruence|by etrans]. }
    { done. }
    exists s1. split; [|done]. erewrite bind_ok by exact Hfilter.
    unfold mret, M_ret. f_equal. exact Hsplice. }
  destruct Hs1 as (Hp1 & Hn1 & Hw1 & Hset1).
  cbn [for_fold]. eexists. split.
  - erewrite bind_ok.
    2:{ erewrite bind_ok by exact Hstep. erewrite bind_ok.
        2:{ unfold body. erewrite bind_ok by reflexivity. rewrite Hp1.
            replace (bool_decide (lit "PRIVATE" = lit "PRIVATE")) with true
              by (vm_compute; reflexivity).
            reflexivity. }
        reflexivity. }
    reflexivity.
  - cbn [self world]. split; [apply dict_get_set_eq|]. split; [done|].
    split; [exact Hset1|exact Hn1].
Qed.


(** X23 -- the CMake file of a public project: between the marks of its
    public section the renderer lists, sorted, every source and header of
    the inventory that is not Objective-C or Swift, each below
    [${BA_SRC_ROOT}/ballistica]; the lines before the opening mark and from
    the closing mark on are kept, a private section among them included; the
    text ends in one line feed, and the world is left alone.  The marks are
    found with [index]: the opening mark must be the first in the file, and
    no closing mark may come before the one of the section. *)
Theorem cmake_file_of_a_public_project
    (fname existing_data : str) (srcs hdrs pre old post : list str) (st : State) :
  public (self st) = true ->
  no_internal_sources (self st) ->
  _source_files (self st) = Some srcs ->
  _header_files (self st) = Some hdrs ->
  (forall f, f ∈ srcs ++ hdrs -> cmake_listed f = true -> PyStr.startswith f "/" = true) ->
  PyStr.splitlines existing_data
  = pre ++ cmake_section_begin "PUBLIC" :: old ++ cmake_section_end "PUBLIC" :: post ->
  cmake_section_begin "PUBLIC" ∉ pre ->
  cmake_section_end "PUBLIC" ∉ pre ++ old ->
  exists st',
    _generate_cmake_file fname existing_data st = Ok tt st'
    /\ PyDict.get (_generated_files (self st')) fname
       = Some (PyStr.join [LF]
                 (pre ++ cmake_section_begin "PUBLIC"
                  :: map cmake_entry
                       (List.filter cmake_listed (PyStr.sorted (srcs ++ hdrs)))
                  ++ cmake_section_end "PUBLIC" :: post)
               ++ [LF])
    /\ world st' = world st.
Proof.
  intros Hpublic Hnone Hsrcs Hhdrs Hslash Hlines Hb He.
  destruct (cmake_public_renders fname existing_data srcs hdrs pre old post st)
    as (st' & Hrun & Hget & Hworld & _); try done.
  by exists st'.
Qed.

(** X24 -- the CMake file of a project that is not public, its internal
    sources loaded: every source and header of the inventory that is not
    Objective-C or Swift is listed in exactly one of the two managed
    sections, in the private one when it is under an internal source
    directory or is an internal source file and in the public one when not,
    each section sorted; the lines around the sections are kept.  Nothing
    but the cache of generated files changes. *)
Theorem cmake_file_of_a_private_project
    (fname existing_data : str) (srcs hdrs pre old1 mid old2 post : list str)
    (dirs files : gset str) (st : State) :
  public (self st) = false ->
  _internal_source_dirs (self st) = Some dirs ->
  _internal_source_files (self st) = Some files ->
  (forall d, d ∈ dirs -> PyStr.startswith d "/" = false /\ PyStr.endswith d "/" = false) ->
  _source_files (self st) = Some srcs ->
  _header_files (self st) = Some hdrs ->
  (forall f, f ∈ srcs ++ hdrs -> cmake_listed f = true -> PyStr.startswith f "/" = true) ->
  PyStr.splitlines existing_data
  = pre ++ cmake_section_begin "PUBLIC" :: old1 ++ cmake_section_end "PUBLIC"
    :: mid ++ cmake_section_begin "PRIVATE" :: old2 ++ cmake_section_end "PRIVATE"
    :: post ->
  cmake_section_begin "PUBLIC" ∉ pre ->
  cmake_section_end "PUBLIC" ∉ pre ++ old1 ->
  cmake_section_begin "PRIVATE" ∉ pre ++ mid ->
  cmake_section_end "PRIVATE" ∉ pre ++ mid ++ old2 ->
  let sources := PyStr.sorted (srcs ++ hdrs) in
  let section (internal : bool) :=
    map cmake_entry
      (List.filter
         (fun f => cmake_listed f && bool_decide (internal_source dirs files f = internal))
         sources) in
  _generate_cmake_file fname existing_data st
  = Ok tt
      {| self :=
           with_generated_files
             (PyDict.set (_generated_files (self st)) fname
                (PyStr.join [LF]
                   (pre ++ cmake_section_begin "PUBLIC" :: section false
                    ++ cmake_section_end "PUBLIC"
                    :: mid ++ cmake_section_begin "PRIVATE" :: section true
                    ++ cmake_section_end "PRIVATE" :: post)
                 ++ [LF]))
             (self st);
         world := world st |}.
Proof.
  intros Hpublic Hdirs Hfiles Hwf Hsrcs Hhdrs Hslash Hlines Hb1 He1 Hb2 He2 sources section.
  apply not_elem_of_app in He1 as [He1a He1o].
  apply not_elem_of_app in Hb2 as [Hb2a Hb2m].
  apply not_elem_of_app in He2 as [He2a [He2m He2o]%not_elem_of_app].
  unfold _generate_cmake_file. rewrite Hlines.
  match goal with |- context [for_fold _ _ ?f] => set (body := f) end.
  assert (Hbody : forall (name : str) (a old rest : list str) (want : bool),
             bool_decide (name = lit "PRIVATE") = want ->
             bool_decide (name = lit "PUBLIC") = negb want ->
             cmake_section_begin name ∉ a ->
             cmake_section_end name ∉ a ->
             cmake_section_end name <> cmake_section_begin name ->
             cmake_section_end name ∉ old ->
             body name (a ++ cmake_section_begin name :: old
                        ++ cmake_section_end name :: rest) st
             = Ok (a ++ cmake_section_begin name :: section want
                   ++ cmake_section_end name :: rest) st).
  { intros name a old rest want Hprivate Hname Hb Hea Heb Heo.
    destruct (cmake_splice a old rest (section want) (cmake_section_begin name)
                (cmake_section_end name) Hb Hea Heb Heo)
      as (i & j & Hi & Hj & Hsplice).
    unfold body. erewrite bind_ok by reflexivity. rewrite Hpublic. cbn [andb].
    rewrite Hi. cbn [or_raise lift_exn]. erewrite bind_ok by reflexivity.
    rewrite Hj. cbn [or_raise lift_exn]. erewrite bind_ok by reflexivity.
    erewrite bind_ok by (unfold source_files;
                         erewrite bind_ok by reflexivity; rewrite Hsrcs; reflexivity).
    erewrite bind_ok by (unfold header_files;
                         erewrite bind_ok by reflexivity; rewrite Hhdrs; reflexivity).
    match goal with
    | |- context [filter_m ?c ?l] =>
        destruct (filter_m_inv (fun s => s = st) c
                    (fun f => cmake_listed f
                              && bool_decide (internal_source dirs files f = want)) l)
          with (st := st) as (s1 & Hfilter & ->)
    end.
    { intros f s Hf ->. apply (proj1 (elem_of_sorted _ _)) in Hf.
      pose proof (Hslash f Hf) as Hf'. unfold cmake_listed in *.
      destruct (PyStr.endswith f ".mm"); [by exists st|].
      destruct (PyStr.endswith f ".m"); [by exists st|].
      destruct (PyStr.endswith f ".swift"); [by exists st|].
      exists st. split; [|done].
      erewrite bind_ok
        by exact (is_public_source_file_cached f dirs files st Hdirs Hfiles
                    (Hf' eq_refl) Hwf).
      rewrite Hname. unfold mret, M_ret. cbn [negb andb]. do 2 f_equal.
      by destruct (internal_source dirs files f), want. }
    { done. }
    erewrite bind_ok by exact Hfilter.
    unfold mret, M_ret. f_equal. exact Hsplice. }
  cbn [for_fold].
  erewrite bind_ok.
  2:{ erewrite bind_ok.
      2:{ apply (Hbody (lit "PUBLIC") pre old1 _ false); try done;
            apply (bool_decide_unpack _); vm_compute; exact I. }
      erewrite bind_ok.
      2:{ set (a := pre ++ cmake_section_begin "PUBLIC" :: section false
                    ++ cmake_section_end "PUBLIC" :: mid).
          replace (pre ++ cmake_section_begin "PUBLIC" :: section false
                   ++ cmake_section_end "PUBLIC"
                   :: mid ++ cmake_section_begin "PRIVATE" :: old2
                   ++ cmake_section_end "PRIVATE" :: post)
            with (a ++ cmake_section_begin "PRIVATE" :: old2
                  ++ cmake_section_end "PRIVATE" :: post).
          2:{ unfold a. rewrite <- !app_assoc. cbn [app]. by rewrite <- !app_assoc. }
          apply (Hbody (lit "PRIVATE") a old2 post true); try done;
            try (apply (bool_decide_unpack _); vm_compute; exact I).
          - unfold a. rewrite !elem_of_app, !elem_of_cons, !elem_of_app, !elem_of_cons.
            intros [?|[Heq|[Hin|[Heq|?]]]];
              first [ done
                    | by apply no_begin_in_entries in Hin
                    | apply (bool_decide_pack _) in Heq; by vm_compute in Heq ].
          - unfold a. rewrite !elem_of_app, !elem_of_cons, !elem_of_app, !elem_of_cons.
            intros [?|[Heq|[Hin|[Heq|?]]]];
              first [ done
                    | by apply no_end_in_entries in Hin
                    | apply (bool_decide_pack _) in Heq; by vm_compute in Heq ]. }
      reflexivity. }
  unfold set_generated, update_self, modify. do 4 f_equal.
  rewrite <- !app_assoc. cbn [app]. by rewrite <- !app_assoc.
Qed.

Lemma cmake_entry_no_linebreak (f : str) :
  PyStr.no_linebreak f -> PyStr.no_linebreak (cmake_entry f).
Proof.
  intros Hf. unfold cmake_entry. apply Forall_app. split; [|done].
  apply (bool_decide_unpack _). vm_compute. exact I.
Qed.

(** X25 -- the CMake file of a public project is stable: the text the
    renderer makes of a file is, given to the renderer again by an updater
    with the same inventory, returned as it is.  The names of the inventory
    are to have no line break in them. *)
Theorem cmake_file_is_stable
    (fname existing_data out : str) (srcs hdrs pre old post : list str)
    (st st1 st' : State) :
  public (self st) = true -> no_internal_sources (self st) ->
  _source_files (self st) = Some srcs -> _header_files (self st) = Some hdrs ->
  public (self st') = true -> no_internal_sources (self st') ->
  _source_files (self st') = Some srcs -> _header_files (self st') = Some hdrs ->
  (forall f, f ∈ srcs ++ hdrs -> cmake_listed f = true -> PyStr.startswith f "/" = true) ->
  Forall PyStr.no_linebreak (srcs ++ hdrs) ->
  PyStr.splitlines existing_data
  = pre ++ cmake_section_begin "PUBLIC" :: old ++ cmake_section_end "PUBLIC" :: post ->
  cmake_section_begin "PUBLIC" ∉ pre ->
  cmake_section_end "PUBLIC" ∉ pre ++ old ->
  _generate_cmake_file fname existing_data st = Ok tt st1 ->
  PyDict.get (_generated_files (self st1)) fname = Some out ->
  exists st2,
    _generate_cmake_file fname out st' = Ok tt st2
    /\ PyDict.get (_generated_files (self st2)) fname = Some out.
Proof.
  intros Hpublic Hnone Hsrcs Hhdrs Hpublic' Hnone' Hsrcs' Hhdrs' Hslash Hnl Hlines Hb He
    Hrun Hout.
  destruct (cmake_public_renders fname existing_data srcs hdrs pre old post st)
    as (s1 & Hrun1 & Hget1 & _); try done.
  rewrite Hrun in Hrun1. injection Hrun1 as <-. rewrite Hout in Hget1.
  injection Hget1 as ->.
  set (ours := map cmake_entry (List.filter cmake_listed (PyStr.sorted (srcs ++ hdrs)))).
  pose proof (splitlines_no_linebreak existing_data) as Hex. rewrite Hlines in Hex.
  apply Forall_app in Hex as [Hex_pre Hex].
  apply Forall_cons in Hex as [Hex_b Hex].
  apply Forall_app in Hex as [_ Hex].
  apply not_elem_of_app in He as [Hea _].
  destruct (cmake_public_renders fname
              (PyStr.join [LF]
                 (pre ++ cmake_section_begin "PUBLIC" :: ours
                  ++ cmake_section_end "PUBLIC" :: post) ++ [LF])
              srcs hdrs pre ours post st')
    as (st2 & Hrun2 & Hget2 & _); try done.
  - apply splitlines_join; [by destruct pre|].
    apply Forall_app. split; [done|]. apply Forall_cons. split; [done|].
    apply Forall_app. split; [|done].
    apply Forall_fmap, Forall_forall. intros f [Hf _]%elem_of_filter_bool.
    apply cmake_entry_no_linebreak.
    rewrite Forall_forall in Hnl. apply Hnl. by apply elem_of_sorted.
  - apply not_elem_of_app. split; [done|apply no_end_in_entries].
  - by exists st2.
Qed.

End cmake.
(** ** The sources of a Visual Studio project, and the cached lookups *)

Section project_sources.
Context `{C : Collaborators}.

(** X26 -- the sources of a Visual Studio project, with the internal sources
    of the project loaded: a project whose file name has [Plus] in it takes
    the internal sources, any other project the sources that are not
    internal, C, Objective-C and Swift files left out; the text is the one
    the renderer makes of these files, sorted, and is cached under the name
    of the project, or the error of the renderer is raised with nothing
    changed. *)
Theorem visual_studio_project_takes_its_side
    (fname existing_data : str) (srcs hdrs : list str) (dirs files : gset str)
    (st : State) :
  _internal_source_dirs (self st) = Some dirs ->
  _internal_source_files (self st) = Some files ->
  (forall d, d ∈ dirs -> PyStr.startswith d "/" = false /\ PyStr.endswith d "/" = false) ->
  _source_files (self st) = Some srcs ->
  _header_files (self st) = Some hdrs ->
  (forall f, f ∈ srcs ++ hdrs -> vs_listed f = true -> PyStr.startswith f "/" = true) ->
  let all_files :=
    PyStr.sorted
      (List.filter
         (fun f => vs_listed f
                   && bool_decide (internal_source dirs files f = plus_project fname))
         (srcs ++ hdrs)) in
  _generate_visual_studio_project fname existing_data st
  = match visual_studio_project_text existing_data all_files with
    | inr out =>
        Ok tt {| self :=
                   with_generated_files
                     (PyDict.set (_generated_files (self st)) fname out) (self st);
                 world := world st |}
    | inl e => Raise e st
    end.
Proof.
  intros Hdirs Hfiles Hwf Hsrcs Hhdrs Hslash all_files.
  unfold _generate_visual_studio_project.
  erewrite bind_ok by (unfold source_files;
                       erewrite bind_ok by reflexivity; rewrite Hsrcs; reflexivity).
  erewrite bind_ok by (unfold header_files;
                       erewrite bind_ok by reflexivity; rewrite Hhdrs; reflexivity).
  match goal with
  | |- context [filter_m ?c ?l] =>
      destruct (filter_m_inv (fun s => s = st) c
                  (fun f => vs_listed f
                            && bool_decide (internal_source dirs files f
                                            = plus_project fname)) l)
        with (st := st) as (s1 & Hfilter & ->)
  end.
  { intros f s Hf ->. pose proof (Hslash f Hf) as Hf'. unfold vs_listed in *.
    destruct (PyStr.endswith f ".m"); [by exists st|].
    destruct (PyStr.endswith f ".mm"); [by exists st|].
    destruct (PyStr.endswith f ".c"); [by exists st|].
    destruct (PyStr.endswith f ".swift"); [by exists st|].
    exists st. split; [|done].
    erewrite bind_ok
      by exact (is_public_source_file_cached f dirs files st Hdirs Hfiles
                  (Hf' eq_refl) Hwf).
    unfold mret, M_ret, plus_project. cbn [negb andb]. do 2 f_equal.
    by destruct (internal_source dirs files f), (PyStr.contains _ _). }
  { done. }
  erewrite bind_ok by exact Hfilter. fold all_files.
  destruct (visual_studio_project_text existing_data all_files) as [e|out].
  - by erewrite bind_raise by reflexivity.
  - by erewrite bind_ok by reflexivity.
Qed.

(** X27 -- the cached lookups are fetched once: when a lookup of the internal
    source directories, of the internal source files or of the feature sets
    has returned, the same lookup in the state it left returns the same
    value and changes nothing, whatever the project configuration has
    become. *)
Theorem cached_lookups_are_fetched_once (st st' : State) :
  (forall dirs, _get_internal_source_dirs st = Ok dirs st' ->
                forall w, _get_internal_source_dirs {| self := self st'; world := w |}
                          = Ok dirs {| self := self st'; world := w |})
  /\ (forall files, _get_internal_source_files st = Ok files st' ->
                    forall w, _get_internal_source_files {| self := self st'; world := w |}
                              = Ok files {| self := self st'; world := w |})
  /\ (forall sets, feature_sets st = Ok sets st' ->
                   forall w, feature_sets {| self := self st'; world := w |}
                             = Ok sets {| self := self st'; world := w |}).
Proof.
  split; [|split].
  - intros dirs Hrun w. unfold _get_internal_source_dirs in *.
    apply bind_Ok_inv in Hrun as (u & s0 & [= <- <-] & Hrun).
    erewrite bind_ok by reflexivity. cbn [self].
    destruct (_internal_source_dirs (self st)) as [d|] eqn:Hc.
    + injection Hrun as <- <-. by rewrite Hc.
    + apply bind_Ok_inv in Hrun as (sources & s1 & Hsources & Hrun).
      destruct sources; try done.
      apply bind_Ok_inv in Hrun as ([] & s2 & Hupd & [= <- <-]).
      unfold update_self, modify in Hupd. by injection Hupd as <-.
  - intros files Hrun w. unfold _get_internal_source_files in *.
    apply bind_Ok_inv in Hrun as (u & s0 & [= <- <-] & Hrun).
    erewrite bind_ok by reflexivity. cbn [self].
    destruct (_internal_source_files (self st)) as [d|] eqn:Hc.
    + injection Hrun as <- <-. by rewrite Hc.
    + apply bind_Ok_inv in Hrun as (sources & s1 & Hsources & Hrun).
      destruct sources; try done.
      apply bind_Ok_inv in Hrun as ([] & s2 & Hupd & [= <- <-]).
      unfold update_self, modify in Hupd. by injection Hupd as <-.
  - intros sets Hrun w. unfold feature_sets in *.
    apply bind_Ok_inv in Hrun as (u & s0 & [= <- <-] & Hrun).
    erewrite bind_ok by reflexivity. cbn [self].
    destruct (_feature_sets (self st)) as [d|] eqn:Hc.
    + injection Hrun as <- <-. by rewrite Hc.
    + apply bind_Ok_inv in Hrun as (w0 & s1 & _ & Hrun).
      apply bind_Ok_inv in Hrun as ([] & s2 & _ & Hrun).
      apply bind_Ok_inv in Hrun as (l & s3 & _ & Hrun).
      apply bind_Ok_inv in Hrun as ([] & s4 & Hupd & [= <- <-]).
      unfold update_self, modify in Hupd. by injection Hupd as <-.
Qed.

End project_sources.
(** ** The properties on the small project *)

#[local] Existing Instance Demo.collaborators.
#[local] Existing Instance Demo.checks.

Lemma project_centric_path_cases_witness :
  project_centric_path "/proj" "/proj" "." = inr (lit ".")
  /\ project_centric_path "/proj" "/proj" "src/main.cc" = inr (lit "src/main.cc")
  /\ exists msg, project_centric_path "/proj" "/proj" "/etc/hosts" = inl (RuntimeError msg).
Proof.
  split; [|split].
  - apply (proj1 (project_centric_path_cases "/proj" "/proj" ".")). reflexivity.
  - apply (proj1 (proj2 (project_centric_path_cases "/proj" "/proj" "src/main.cc"))).
    reflexivity.
  - apply (proj2 (proj2 (project_centric_path_cases "/proj" "/proj" "/etc/hosts"))).
    + vm_compute. discriminate.
    + intros Hp. apply startswith_prefix in Hp. vm_compute in Hp. discriminate.
Defined.

Lemma up_to_date_artifact_is_not_written_witness :
  (let st := Demo.at_apply false false [] in
   exists st',
     apply_file_change (lit "Makefile", "all:" ++ [CR; LF]) 0 st = Ok 1%nat st'
     /\ fs (world st') = fs (world st)
     /\ trace (world st') = [EvExists "/proj/Makefile"; EvRead "/proj/Makefile"])
  /\ (let st := Samples.line_ends true false [(lit "dos.txt", Samples.dos_text)] [] in
      exists st',
        apply_file_change (lit "dos.txt", Samples.dos_text) 0 st = Ok 1%nat st'
        /\ fs (world st') = fs (world st))
  /\ (let st := Samples.line_ends false false [(lit "mac.txt", Samples.mac_text)] [] in
      exists st',
        apply_file_change (lit "mac.txt", Samples.mac_text) 0 st = Ok 0%nat st'
        /\ EvWrite "/proj/mac.txt" Samples.mac_text ∈ trace (world st')).
Proof.
  split; [|split].
  - intros st.
    destruct (proj1 (up_to_date_artifact_is_not_written st "Makefile" ("all:" ++ [CR; LF])
                       ("all:" ++ [LF]) 0 eq_refl) eq_refl)
      as (H1 & H2 & _).
    eexists. split; [exact H1|]. split; [exact H2|reflexivity].
  - intros st.
    destruct (proj1 (up_to_date_artifact_is_not_written st "dos.txt" Samples.dos_text
                       Samples.dos_text 0 eq_refl) eq_refl)
      as (H1 & H2 & _).
    eexists. split; [exact H1|exact H2].
  - intros st.
    assert (exists st', apply_file_change (lit "mac.txt", Samples.mac_text) 0 st
                        = Ok 0%nat st') as [st' Hrun].
    { eexists. vm_compute. reflexivity. }
    destruct (proj1 (proj2 (up_to_date_artifact_is_not_written st "mac.txt"
                              Samples.mac_text Samples.mac_text 0 eq_refl)))
      with (n' := 0%nat) (st' := st') as (_ & Hw & _).
    + intros H. vm_compute in H. discriminate.
    + exact Hrun.
    + exists st'. split; [exact Hrun|exact Hw].
Defined.

(** C4 read for the bytes on disk does not hold -- the generated content of
    [mac.txt] is the very content of the file, and has no CR LF to replace;
    but it has a CR, which reading in text mode turns into LF, so that the
    pass finds a difference: in plain mode it writes the file again and does
    not count it as up to date. *)
Lemma same_bytes_with_a_CR_are_written_again :
  let st := Samples.line_ends false false [(lit "mac.txt", Samples.mac_text)] [] in
  let path := lit "/proj/mac.txt" in
  FS.find (fs (world st)) (cwd (world st)) path = Some (FFile Samples.mac_text)
  /\ PyStr.replace Samples.mac_text [CR; LF] [LF] = Samples.mac_text
  /\ exists st',
       _apply_file_changes st = Ok tt st'
       /\ trace (world st') = [EvExists path; EvRead path; EvWrite path Samples.mac_text]
       /\ stdout (world st') = [writing_message "mac.txt"].
Proof.
  split; [reflexivity|]. split; [reflexivity|].
  eexists. split; [vm_compute; reflexivity|]. split; reflexivity.
Qed.





Lemma unfixed_corrections_stop_the_apply_phase_witness :
  let st := Demo.at_apply false false [(lit "notes.txt", [Demo.auto_entry])] in
  exists st',
    apply_phase st = Raise (CleanError (auto_fixable_message 1)) st'
    /\ stdout (world st')
       = [lit "#0: notes.txt:2:"; "  Expected " ++ quoted "TWO"; "  Found " ++ quoted "two"]
    /\ trace (world st') = [EvRead "/proj/notes.txt"]
    /\ fs (world st') = fs (world st).
Proof.
  intros st.
  destruct (unfixed_corrections_stop_the_apply_phase st)
    as (out & evs & failure & Hl & Hrun & _ & _).
  - reflexivity.
  - reflexivity.
  - discriminate.
  - vm_compute in Hl. injection Hl as <- <- <-.
    eexists. split; [exact Hrun|]. split; [reflexivity|]. split; reflexivity.
Defined.

(** C3 read as "the out-of-date files are written while the corrections are
    only listed" does not hold -- a run in plain mode, set up through the
    constructor, [enqueue_update] and [add_line_correction]: the queue holds
    the Makefile, whose generated content differs from the file, and the
    ledger holds one auto-fixable correction.  The run reaches its apply
    phase, lists the correction and raises; the Makefile on disk is still the
    old one and nothing was written. *)
Lemma plain_run_leaves_out_of_date_files :
  exists u w st1 st2 st',
    __init__ "/proj" false false true "BallisticaKit" Demo.world0 = Ok u w
    /\ (enqueue_update "Makefile" None ;;
        add_line_correction "notes.txt" 1 "TWO" true) {| self := u; world := w |}
       = Ok tt st1
    /\ run_generate_and_check st1 = Ok tt st2
    /\ check (self st2) = false /\ fix_ (self st2) = false
    /\ flat_changes false (_line_corrections (self st2)) = []
    /\ _generated_files (self st2)
       = [(lit "Makefile", "# generated" ++ [LF] ++ "all:" ++ [LF])]
    /\ out_of_date st2 (lit "Makefile", "# generated" ++ [LF] ++ "all:" ++ [LF])
    /\ run st1 = Raise (CleanError (auto_fixable_message 1)) st'
    /\ stdout (world st')
       = [lit "#0: notes.txt:2:"; "  Expected " ++ quoted "TWO"; "  Found " ++ quoted "two"]
    /\ FS.find (fs (world st')) "/proj" "/proj/Makefile" = Some (FFile ("all:" ++ [LF]))
    /\ Forall (fun ev => is_write ev = false) (trace (world st')).
Proof.
  eexists _, _, _, _, _.
  split; [vm_compute; reflexivity|].
  split; [vm_compute; reflexivity|].
  split; [vm_compute; reflexivity|].
  split; [reflexivity|]. split; [reflexivity|]. split; [reflexivity|].
  split; [reflexivity|].
  split; [intros H; vm_compute in H; discriminate|].
  split; [vm_compute; reflexivity|].
  split; [reflexivity|].
  split; [reflexivity|].
  repeat constructor.
Qed.

Lemma both_modes_is_an_error_at_construction_witness :
  __init__ "/proj" true true false "BallisticaKit" Demo.world0
  = Raise mode_conflict Demo.world0
  /\ (exists w, @__init__ Demo.collaborators_odd_config
                  "/proj" true false false "BallisticaKit" Demo.world0
                = Raise AssertionError w)
  /\ AssertionError <> mode_conflict.
Proof.
  split; [apply (proj1 both_modes_is_an_error_at_construction)|].
  pose proof (proj2 (@both_modes_is_an_error_at_construction
                       Demo.collaborators_odd_config)
                "/proj" true false false "BallisticaKit" Demo.world0 eq_refl) as H.
  split; [eexists; vm_compute; reflexivity|exact H].
Defined.

Lemma generate_file_is_memoized_witness :
  exists content st',
    generate_file "Makefile" Demo.ready = Ok content st'
    /\ generate_file "Makefile" st' = Ok content st'.
Proof.
  eexists _, _. split; [vm_compute; reflexivity|].
  apply (proj1 (generate_file_is_memoized 4 3 "Makefile" _ Demo.ready _ eq_refl)).
Defined.

Lemma queue_is_unchanged_up_to_the_apply_phase_witness :
  exists st',
    run_generate_and_check Demo.queued = Ok tt st'
    /\ PyDict.get (_enqueued_updates (self st')) "Makefile" = Some None.
Proof.
  eexists. split; [vm_compute; reflexivity|].
  etrans; [|reflexivity].
  eapply (proj2 queue_is_unchanged_up_to_the_apply_phase Demo.queued).
  vm_compute. reflexivity.
Defined.

Lemma demo_tree_wf : FS.wf Demo.tree.
Proof.
  cbn [FS.wf Demo.tree fst snd].
  repeat split; try (apply (bool_decide_unpack _); vm_compute; exact I);
    try (intros H; vm_compute in H; discriminate);
    try (intros H; apply (bool_decide_pack _) in H; vm_compute in H; exact H).
Qed.

Lemma scan_collects_sources_and_headers_witness :
  exists srcs hdrs st',
    _find_sources_and_headers "/proj/src/ballistica" Demo.ready = Ok tt st'
    /\ _source_files (self st') = Some srcs /\ _header_files (self st') = Some hdrs
    /\ NoDup srcs /\ NoDup hdrs.
Proof.
  destruct (proj2 (scan_collects_sources_and_headers Demo.ready demo_tree_wf))
    as (srcs & hdrs & Hrun & _ & _ & _ & Hn1 & _ & Hn2 & _).
  { apply (bool_decide_unpack _). vm_compute. exact I. }
  exists srcs, hdrs. eexists. split; [exact Hrun|].
  split; [reflexivity|]. split; [reflexivity|]. split; [exact Hn1|exact Hn2].
Defined.

(** The inventory of the small project. *)
Example scan_of_the_demo_project :
  exists st',
    _find_sources_and_headers "/proj/src/ballistica" Demo.ready = Ok tt st'
    /\ _source_files (self st') = Some [lit "/base/app.cc"; lit "/foo.cpp"]
    /\ _header_files (self st') = Some [lit "/bar.h"].
Proof. eexists. split; [vm_compute; reflexivity|]. split; reflexivity. Qed.

Lemma manual_corrections_stop_the_pass_witness :
  let st := Demo.at_apply false true
              [(lit "notes.txt", [Demo.auto_entry; Demo.manual_entry])] in
  exists st',
    _apply_line_changes st = Raise (CleanError []) st'
    /\ stdout (world st')
       = [lit "Found erroneous lines requiring manual correction:";
          "notes.txt:1: Expected line to be:" ++ [LF] ++ "  ONE"]
    /\ fs (world st') = fs (world st).
Proof.
  intros st.
  destruct (manual_corrections_stop_the_pass st) as (Hrun & _ & _ & Hfs & _).
  - exists (lit "notes.txt"), [Demo.auto_entry; Demo.manual_entry], Demo.manual_entry.
    split; [apply elem_of_cons; by left|].
    split; [apply elem_of_cons; right; apply elem_of_cons; by left|reflexivity].
  - eexists. split; [exact Hrun|]. split; [reflexivity|exact Hfs].
Defined.

(** A correction for a line the file does not have: the pass raises
    [IndexError] and writes nothing. *)
Example fix_mode_line_out_of_range :
  let st := Demo.at_apply false true
              [(lit "notes.txt",
                [{| line_number := 7; expected := lit "SEVEN"; can_auto_update := true |}])] in
  exists st', _apply_line_changes st = Raise IndexError st'
              /\ fs (world st') = fs (world st).
Proof. eexists. split; [vm_compute; reflexivity|reflexivity]. Qed.

(** In plain mode with an empty ledger the out-of-date Makefile is written. *)
Example plain_mode_writes_out_of_date_files :
  exists st',
    apply_phase (Demo.at_apply false false []) = Ok tt st'
    /\ FS.read (fs (world st')) "/proj" "/proj/Makefile" = inr ("all: build" ++ [LF]).
Proof. eexists. split; [vm_compute; reflexivity|reflexivity]. Qed.

(** ** Further properties on the small project *)

Lemma out_of_date_artifact_is_written_witness :
  let st := Demo.at_apply false false [] in
  exists st',
    apply_file_change (lit "Makefile", "all: build" ++ [LF]) 0 st = Ok 0%nat st'
    /\ stdout (world st') = [writing_message "Makefile"]
    /\ trace (world st')
       = [EvExists "/proj/Makefile"; EvRead "/proj/Makefile";
          EvWrite "/proj/Makefile" ("all: build" ++ [LF])]
    /\ FS.find (fs (world st')) "/proj" "/proj/Makefile"
       = Some (FFile ("all: build" ++ [LF])).
Proof.
  intros st.
  destruct (out_of_date_artifact_is_written st "Makefile" ("all: build" ++ [LF]) 0
              [lit "proj"; lit "Makefile"])
    as (t' & Hrun & _ & Hfile & _).
  - reflexivity.
  - reflexivity.
  - reflexivity.
  - intros Hup. vm_compute in Hup. discriminate.
  - eexists. split; [exact Hrun|]. split; [reflexivity|]. split; [reflexivity|exact Hfile].
Defined.

Lemma artifact_in_a_missing_directory_raises_witness :
  (exists st',
     apply_file_change (lit "gen/out.txt", lit "x") 0 Demo.ready
     = Raise (OSError ENOENT "/proj/gen/out.txt") st'
     /\ fs (world st') = Demo.tree)
  /\ (exists st',
        apply_file_change (lit "nodir/../Makefile", lit "x") 0 Demo.ready
        = Raise (OSError ENOENT "/proj/nodir/../Makefile") st'
        /\ fs (world st') = Demo.tree)
  /\ (exists st',
        apply_file_change (lit "Makefile/out.txt", lit "x") 0 Demo.ready
        = Raise (OSError ENOTDIR "/proj/Makefile/out.txt") st'
        /\ fs (world st') = Demo.tree).
Proof.
  split; [|split]; eexists.
  - split.
    + apply (artifact_in_a_missing_directory_raises Demo.ready "gen/out.txt" "x" 0
               (Errno ENOENT)); reflexivity.
    + reflexivity.
  - split.
    + apply (artifact_in_a_missing_directory_raises Demo.ready "nodir/../Makefile" "x" 0
               (Errno ENOENT)); reflexivity.
    + reflexivity.
  - split.
    + apply (artifact_in_a_missing_directory_raises Demo.ready "Makefile/out.txt" "x" 0
               (Errno ENOTDIR)); reflexivity.
    + reflexivity.
Defined.

Lemma whole_file_pass_settles_witness :
  exists st',
    _apply_file_changes (Demo.at_apply false false []) = Ok tt st'
    /\ Forall (up_to_date st') [(lit "Makefile", "all: build" ++ [LF])].
Proof.
  eexists. split; [vm_compute; reflexivity|].
  eapply (proj1 (whole_file_pass_settles (Demo.at_apply false false []) _ _ _ _)).
  Unshelve.
  - repeat constructor.
  - repeat constructor. set_solver.
  - vm_compute. reflexivity.
Defined.

Lemma generate_file_without_rendering_witness :
  generate_file "nothing.txt" Demo.ready
  = Raise (OSError ENOENT "/proj/nothing.txt")
      (after_output [] [EvRead "/proj/nothing.txt"] Demo.ready)
  /\ generate_file "Makefile/CMakeLists.txt" Demo.ready
     = Raise (OSError ENOTDIR "/proj/Makefile/CMakeLists.txt")
         (after_output [] [EvRead "/proj/Makefile/CMakeLists.txt"] Demo.ready)
  /\ generate_file "notes.txt" Demo.ready
     = Raise (no_formula "notes.txt")
         (after_output [] [EvRead "/proj/notes.txt"; EvRender "notes.txt"] Demo.ready).
Proof.
  split; [|split].
  - apply (proj1 (proj2 (generate_file_without_rendering "nothing.txt" Demo.ready
                           eq_refl)) (Errno ENOENT)); reflexivity.
  - apply (proj1 (proj2 (generate_file_without_rendering "Makefile/CMakeLists.txt"
                           Demo.ready eq_refl)) (Errno ENOTDIR)); reflexivity.
  - eapply (proj2 (proj2 (proj2 (generate_file_without_rendering "notes.txt" Demo.ready
                                   eq_refl)) eq_refl eq_refl)); reflexivity.
Defined.

(** The bound of four on the depth of the calls is met: a manifest of the
    assets asks for the assets Makefile, that for a manifest of meta, that for
    the meta Makefile. *)
Example generate_file_three_deep_is_cut_off :
  generate_file_fuel 3 "src/assets/.asset_manifest_public.json"
    {| self :=
         with_enqueued_updates
           [(lit "src/assets/.asset_manifest_public.json", Some []);
            (lit "src/assets/Makefile", Some []);
            (lit "src/meta/.meta_manifest_public.json", Some []);
            (lit "src/meta/Makefile", Some [])]
           (self Demo.ready);
       world := Demo.world0 |}
  = Timeout.
Proof. vm_compute. reflexivity. Qed.

Lemma generation_is_closed_after_the_checks_witness :
  exists st',
    run_generate_and_check Demo.queued = Ok tt st'
    /\ generate_file "Makefile" st' = Raise generation_closed st'.
Proof.
  eexists. split; [vm_compute; reflexivity|].
  eapply (proj2 (generation_is_closed_after_the_checks Demo.queued _ _)).
  Unshelve. vm_compute. reflexivity.
Defined.

Lemma enqueued_updates_are_generated_witness :
  exists st',
    run_generate_and_check Demo.queued = Ok tt st'
    /\ PyDict.mem (_generated_files (self st')) "Makefile" = true.
Proof.
  eexists. split; [vm_compute; reflexivity|].
  eapply (enqueued_updates_are_generated Demo.queued).
  - intros _. repeat constructor; apply sound_ret; apply _.
  - vm_compute. reflexivity.
  - apply elem_of_cons. by left.
Defined.

Lemma filters_file_brings_its_project_witness :
  exists content st' project,
    generate_file (Samples.vcxproj_path ++ ".filters") Samples.generating
    = Ok content st'
    /\ PyDict.get (_generated_files (self st')) Samples.vcxproj_path = Some project
    /\ visual_studio_project_filters_text project = inr content.
Proof.
  assert (exists content st',
             generate_file (Samples.vcxproj_path ++ ".filters") Samples.generating
             = Ok content st') as (content & st' & Hrun).
  { eexists _, _. vm_compute. reflexivity. }
  destruct (filters_file_brings_its_project
              (Samples.vcxproj_path ++ ".filters") content Samples.generating st'
              eq_refl eq_refl Hrun)
    as (project & Hproject & Htext & _).
  exists content, st', project. split; [exact Hrun|]. split; [exact Hproject|exact Htext].
Defined.

Lemma constructed_updater_is_fresh_witness :
  exists u w',
    __init__ "/proj" false false false "BallisticaKit" Demo.world0 = Ok u w'
    /\ fresh u /\ projroot u = lit "/proj" /\ fs w' = Demo.tree.
Proof.
  assert (exists u w',
             __init__ "/proj" false false false "BallisticaKit" Demo.world0 = Ok u w')
    as (u & w' & Hrun).
  { eexists _, _. vm_compute. reflexivity. }
  destruct (constructed_updater_is_fresh _ _ _ _ _ _ _ _ Hrun)
    as (_ & _ & Hroot & _ & _ & _ & _ & Hfresh & (Hfs & _) & _).
  exists u, w'. split; [exact Hrun|]. split; [exact Hfresh|].
  split; [exact Hroot|exact Hfs].
Defined.

Lemma default_updates_have_formulas_witness :
  (exists u w',
      __init__ "/proj" false false false "BallisticaKit" Demo.world0 = Ok u w'
      /\ length (_enqueued_updates u) = 20%nat
      /\ Forall (fun kv => has_formula kv.1 = true /\ kv.2 = None) (_enqueued_updates u))
  /\ match generate_file "Makefile" Demo.ready with
     | Raise e _ => forall p, e <> no_formula p
     | _ => True
     end.
Proof.
  split.
  - eexists _, _. split; [vm_compute; reflexivity|]. split; [reflexivity|].
    eapply (proj1 default_updates_have_formulas
              "/proj" false false false "BallisticaKit" Demo.world0).
    vm_compute. reflexivity.
  - apply (proj2 default_updates_have_formulas "Makefile" Demo.ready). reflexivity.
Defined.


Lemma generation_writes_no_file_witness :
  fs (world (state_of (run_generate_and_check Demo.queued) Demo.queued)) = Demo.tree.
Proof.
  apply (generation_writes_no_file Demo.queued).
  intros _. repeat constructor; apply sound_ret; apply _.
Defined.

Lemma run_without_work_counts_the_sources_witness :
  let st := {| self := Demo.updater false false; world := Demo.world0 |} in
  exists st',
    run st = Ok tt st'
    /\ stdout (world st') = [lit "No issues found in 3 source files."]
    /\ fs (world st') = Demo.tree.
Proof.
  intros st. eexists. split.
  - apply (run_without_work_counts_the_sources st); reflexivity.
  - split; vm_compute; reflexivity.
Defined.

Lemma public_repository_has_no_internal_sources_witness :
  exists st', _is_public_source_file "/foo.cpp" Demo.ready = Ok true st'
              /\ world st' = world Demo.ready.
Proof.
  destruct (proj2 (public_repository_has_no_internal_sources "/foo.cpp" Demo.ready
                     eq_refl (conj (or_introl eq_refl) (or_introl eq_refl))) eq_refl)
    as (st' & Hrun & Hworld & _).
  exists st'. split; [exact Hrun|exact Hworld].
Defined.

Lemma internal_sources_are_not_public_witness :
  exists is_public : bool,
    _is_public_source_file "/base/app.cc" Samples.with_internal
    = Ok is_public Samples.with_internal
    /\ is_public <> true.
Proof.
  destruct (internal_sources_are_not_public "/base/app.cc"
              {[ lit "src/ballistica/base" ]} {[ lit "src/ballistica/foo.cpp" ]}
              Samples.with_internal eq_refl eq_refl eq_refl)
    as (is_public & Hrun & Hiff).
  - intros d ->%elem_of_singleton. split; reflexivity.
  - exists is_public. split; [exact Hrun|]. intros Hpublic.
    apply Hiff in Hpublic as [Hnone _].
    apply (Hnone "src/ballistica/base"); [by apply elem_of_singleton|].
    by exists (lit "app.cc").
Defined.

Lemma add_line_correction_appends_witness :
  let st := Demo.at_apply false false [] in
  exists st',
    add_line_correction "notes.txt" 1 "TWO" true st = Ok tt st'
    /\ PyDict.get (_line_corrections (self st')) "notes.txt" = Some [Demo.auto_entry].
Proof.
  intros st.
  destruct (proj2 (add_line_correction_appends "notes.txt" 1 "TWO" true st))
    as (st' & Hrun & _ & _ & _ & Hget & _).
  - lia.
  - exists st'. split; [exact Hrun|exact Hget].
Defined.

Lemma passthrough_file_is_up_to_date_witness :
  exists st',
    generate_file Samples.manifest_path Samples.public_ready = Ok ("{}" ++ [LF]) st'
    /\ apply_file_change (Samples.manifest_path, "{}" ++ [LF]) 0 st'
       = Ok 1%nat (after_output []
                     [EvExists ("/proj/" ++ Samples.manifest_path);
                      EvRead ("/proj/" ++ Samples.manifest_path)] st').
Proof.
  destruct (passthrough_file_is_up_to_date Samples.manifest_path ("{}" ++ [LF]) 0
              Samples.public_ready)
    as (Hgen & _ & Hround); try reflexivity.
  eexists. split; [exact Hgen|exact Hround].
Defined.

Lemma prepared_inventory_fits_its_use_witness :
  exists st' srcs hdrs,
    prepare_to_generate {| self := Demo.updater false false; world := Demo.world0 |}
    = Ok tt st'
    /\ _source_files (self st') = Some srcs
    /\ _header_files (self st') = Some hdrs
    /\ (forall s, s ∈ srcs -> s ∉ hdrs).
Proof.
  destruct (prepared_inventory_fits_its_use
              {| self := Demo.updater false false; world := Demo.world0 |})
    as (st' & srcs & hdrs & Hrun & _ & Hsrcs & Hhdrs & _ & Hdisjoint & _).
  - exact demo_tree_wf.
  - reflexivity.
  - reflexivity.
  - exists st', srcs, hdrs. split; [exact Hrun|]. split; [exact Hsrcs|].
    split; [exact Hhdrs|]. intros s Hs. exact (proj2 (Hdisjoint s Hs)).
Defined.

Lemma visual_studio_project_text_rewrites_the_group_witness :
  visual_studio_project_text Samples.vcxproj [lit "/base/app.cc"; lit "/bar.h"]
  = inr (PyStr.join [CR; LF]
           [ lit "<Project>";
             lit "  <ItemGroup>";
             "    <ClCompile Include=" ++ quoted "..\..\src\ballistica\base\app.cc" ++ " />";
             "    <ClInclude Include=" ++ quoted "..\..\src\ballistica\bar.h" ++ " />";
             "    <ClCompile Include=" ++ quoted "stdafx.cpp" ++ ">";
             lit "    </ClCompile>";
             lit "  </ItemGroup>";
             lit "</Project>" ]
         ++ [CR; LF]).
Proof.
  etrans.
  - apply (proj2 (visual_studio_project_text_rewrites_the_group Samples.vcxproj
                    [lit "/base/app.cc"; lit "/bar.h"])
             [lit "<Project>"]
             [ "    <ClCompile Include=" ++ quoted "..\..\src\ballistica\old.cc" ++ " />";
               "    <ClCompile Include=" ++ quoted "stdafx.cpp" ++ ">";
               lit "    </ClCompile>" ]
             [lit "</Project>"]).
    + vm_compute. reflexivity.
    + apply (bool_decide_unpack _). vm_compute. exact I.
    + apply (bool_decide_unpack _). vm_compute. exact I.
    + apply (bool_decide_unpack _). vm_compute. exact I.
    + apply (bool_decide_unpack _). vm_compute. exact I.
  - vm_compute. reflexivity.
Defined.

Lemma visual_studio_project_text_is_stable_witness :
  exists out,
    visual_studio_project_text Samples.vcxproj [lit "/base/app.cc"; lit "/bar.h"] = inr out
    /\ visual_studio_project_text out [lit "/base/app.cc"; lit "/bar.h"] = inr out.
Proof.
  eexists. split; [vm_compute; reflexivity|].
  eapply (visual_studio_project_text_is_stable Samples.vcxproj _
            [lit "/base/app.cc"; lit "/bar.h"]
            [lit "<Project>"]
            [ "    <ClCompile Include=" ++ quoted "..\..\src\ballistica\old.cc" ++ " />";
              "    <ClCompile Include=" ++ quoted "stdafx.cpp" ++ ">";
              lit "    </ClCompile>" ]
            [lit "</Project>"]).
  - vm_compute. reflexivity.
  - apply (bool_decide_unpack _). vm_compute. exact I.
  - apply (bool_decide_unpack _). vm_compute. exact I.
  - apply (bool_decide_unpack _). vm_compute. exact I.
  - apply (bool_decide_unpack _). vm_compute. exact I.
  - repeat constructor; apply (bool_decide_unpack _); vm_compute; exact I.
  - vm_compute. reflexivity.
Defined.

Lemma filters_text_declares_its_filters_witness :
  exists (out : str) (filterlines : list str) (filterpaths : gset str),
    visual_studio_project_filters_text Samples.vcxproj = inr out
    /\ lit "      <Filter>ballistica</Filter>" ∈ filterlines
    /\ lit "ballistica" ∈ filterpaths.
Proof.
  destruct (filters_text_declares_its_filters Samples.vcxproj)
    as (out & filterlines & filterpaths & Hrun & _ & Hentries & _).
  exists out, filterlines, filterpaths. split; [exact Hrun|].
  destruct (Hentries
              ("    <ClCompile Include=" ++ quoted "..\..\src\ballistica\old.cc" ++ " />")
              (lit "..\..\src\ballistica\old.cc"))
    as [Hline Hpaths].
  - apply (bool_decide_unpack _). vm_compute. exact I.
  - reflexivity.
  - reflexivity.
  - split; [exact Hline|]. apply (Hpaths 0%nat). vm_compute. lia.
Defined.

Lemma cmake_file_of_a_public_project_witness :
  exists st',
    _generate_cmake_file "CMakeLists.txt" Samples.cmake Samples.cmake_public = Ok tt st'
    /\ PyDict.get (_generated_files (self st')) "CMakeLists.txt"
       = Some (PyStr.join [LF]
                 [ lit "add_executable(app";
                   cmake_section_begin "PUBLIC";
                   lit "  ${BA_SRC_ROOT}/ballistica/bar.h";
                   lit "  ${BA_SRC_ROOT}/ballistica/base/app.cc";
                   lit "  ${BA_SRC_ROOT}/ballistica/foo.cpp";
                   cmake_section_end "PUBLIC";
                   lit "  # hand-written";
                   cmake_section_begin "PRIVATE";
                   cmake_section_end "PRIVATE";
                   lit ")" ]
               ++ [LF]).
Proof.
  destruct (cmake_file_of_a_public_project "CMakeLists.txt" Samples.cmake
              Samples.cmake_inventory.1 Samples.cmake_inventory.2
              [lit "add_executable(app"]
              [lit "  ${BA_SRC_ROOT}/ballistica/old.cc"]
              [ lit "  # hand-written"; cmake_section_begin "PRIVATE";
                cmake_section_end "PRIVATE"; lit ")" ]
              Samples.cmake_public)
    as (st' & Hrun & Hget & _).
  - reflexivity.
  - split; by left.
  - reflexivity.
  - reflexivity.
  - intros f Hf _. revert f Hf. apply Forall_forall.
    repeat constructor; vm_compute; reflexivity.
  - vm_compute. reflexivity.
  - apply (bool_decide_unpack _). vm_compute. exact I.
  - apply (bool_decide_unpack _). vm_compute. exact I.
  - exists st'. split; [exact Hrun|]. rewrite Hget. vm_compute. reflexivity.
Defined.

Lemma cmake_file_of_a_private_project_witness :
  _generate_cmake_file "CMakeLists.txt" Samples.cmake Samples.cmake_private
  = Ok tt
      {| self :=
           with_generated_files
             [(lit "CMakeLists.txt",
               PyStr.join [LF]
                 [ lit "add_executable(app";
                   cmake_section_begin "PUBLIC";
                   lit "  ${BA_SRC_ROOT}/ballistica/bar.h";
                   cmake_section_end "PUBLIC";
                   lit "  # hand-written";
                   cmake_section_begin "PRIVATE";
                   lit "  ${BA_SRC_ROOT}/ballistica/base/app.cc";
                   lit "  ${BA_SRC_ROOT}/ballistica/foo.cpp";
                   cmake_section_end "PRIVATE";
                   lit ")" ]
               ++ [LF])]
             (self Samples.cmake_private);
         world := world Samples.cmake_private |}.
Proof.
  etrans.
  - apply (cmake_file_of_a_private_project "CMakeLists.txt" Samples.cmake
             Samples.cmake_inventory.1 Samples.cmake_inventory.2
             [lit "add_executable(app"]
             [lit "  ${BA_SRC_ROOT}/ballistica/old.cc"]
             [lit "  # hand-written"] [] [lit ")"]
             {[ lit "src/ballistica/base" ]} {[ lit "src/ballistica/foo.cpp" ]}
             Samples.cmake_private).
    + reflexivity.
    + reflexivity.
    + reflexivity.
    + intros d ->%elem_of_singleton. split; reflexivity.
    + reflexivity.
    + reflexivity.
    + intros f Hf _. revert f Hf. apply Forall_forall.
      repeat constructor; vm_compute; reflexivity.
    + vm_compute. reflexivity.
    + apply (bool_decide_unpack _). vm_compute. exact I.
    + apply (bool_decide_unpack _). vm_compute. exact I.
    + apply (bool_decide_unpack _). vm_compute. exact I.
    + apply (bool_decide_unpack _). vm_compute. exact I.
  - vm_compute. reflexivity.
Defined.

Lemma cmake_file_is_stable_witness :
  exists out st1 st2,
    _generate_cmake_file "CMakeLists.txt" Samples.cmake Samples.cmake_public = Ok tt st1
    /\ PyDict.get (_generated_files (self st1)) "CMakeLists.txt" = Some out
    /\ _generate_cmake_file "CMakeLists.txt" out Samples.cmake_public = Ok tt st2
    /\ PyDict.get (_generated_files (self st2)) "CMakeLists.txt" = Some out.
Proof.
  assert (exists st1 out,
             _generate_cmake_file "CMakeLists.txt" Samples.cmake Samples.cmake_public
             = Ok tt st1
             /\ PyDict.get (_generated_files (self st1)) "CMakeLists.txt" = Some out)
    as (st1 & out & Hrun & Hout)
    by (eexists _, _; split; vm_compute; reflexivity).
  destruct (cmake_file_is_stable "CMakeLists.txt" Samples.cmake out
              Samples.cmake_inventory.1 Samples.cmake_inventory.2
              [lit "add_executable(app"]
              [lit "  ${BA_SRC_ROOT}/ballistica/old.cc"]
              [ lit "  # hand-written"; cmake_section_begin "PRIVATE";
                cmake_section_end "PRIVATE"; lit ")" ]
              Samples.cmake_public st1 Samples.cmake_public)
    as (st2 & Hrun2 & Hout2).
  - reflexivity.
  - split; by left.
  - reflexivity.
  - reflexivity.
  - reflexivity.
  - split; by left.
  - reflexivity.
  - reflexivity.
  - intros f Hf _. revert f Hf. apply Forall_forall.
    repeat constructor; vm_compute; reflexivity.
  - repeat constructor.
  - vm_compute. reflexivity.
  - apply (bool_decide_unpack _). vm_compute. exact I.
  - apply (bool_decide_unpack _). vm_compute. exact I.
  - exact Hrun.
  - exact Hout.
  - by exists out, st1, st2.
Defined.

Lemma visual_studio_project_takes_its_side_witness :
  exists out,
    visual_studio_project_text Samples.vcxproj [lit "/bar.h"] = inr out
    /\ _generate_visual_studio_project Samples.vcxproj_path Samples.vcxproj
         Samples.cmake_private
       = Ok tt {| self :=
                    with_generated_files [(Samples.vcxproj_path, out)]
                      (self Samples.cmake_private);
                  world := world Samples.cmake_private |}.
Proof.
  eexists. split; [vm_compute; reflexivity|].
  etrans.
  - apply (visual_studio_project_takes_its_side Samples.vcxproj_path Samples.vcxproj
             Samples.cmake_inventory.1 Samples.cmake_inventory.2
             {[ lit "src/ballistica/base" ]} {[ lit "src/ballistica/foo.cpp" ]}
             Samples.cmake_private).
    + reflexivity.
    + reflexivity.
    + intros d ->%elem_of_singleton. split; reflexivity.
    + reflexivity.
    + reflexivity.
    + intros f Hf _. revert f Hf. apply Forall_forall.
      repeat constructor; vm_compute; reflexivity.
  - vm_compute. reflexivity.
Defined.

Lemma cached_lookups_are_fetched_once_witness :
  exists st',
    _get_internal_source_dirs Samples.cmake_public = Ok ∅ st'
    /\ _get_internal_source_dirs {| self := self st'; world := Demo.world0 |}
       = Ok ∅ {| self := self st'; world := Demo.world0 |}.
Proof.
  eexists. split; [reflexivity|].
  apply (proj1 (cached_lookups_are_fetched_once Samples.cmake_public _)).
  reflexivity.
Defined.
